(** * Dropbox export scripts: pagination, retry, recursive search, export

    A shallow embedding of the four scripts of the repository

      - [dropbox_members_listv2.py]  (module [MembersList])
      - [dbox_user_file_export.py]   (module [UserFileExport])
      - [dbox_search_account.py]     (module [SearchAccount])
      - [dbox_search_list_ids.py]    (module [SearchListIds])

    Every script is a sequential program over an outside world: the
    terminal, the file system and the Dropbox backend.  The world is an
    explicit state that every operation threads; a Python exception and a
    call of [exit] are results of a computation next to a normal return. *)

From Stdlib Require Import ZArith Ascii Lia.
From stdpp Require Import gmap strings list pretty.

#[local] Set Warnings "-register-all".

(** ** The Python runtime the scripts rely on *)

Module Py.

(** JSON values as [json.loads] builds them and [json.dump] takes them. *)
Inductive json :=
| JNull
| JBool (b : bool)
| JNum (n : Z)
| JStr (s : string)
| JList (l : list json)
| JDict (m : gmap string json).

(** A record of the backend: a JSON object, i.e. a Python [dict]. *)
Abbreviation record := (gmap string json).

(** The exception classes that occur in the scripts. *)
Inductive exn :=
| RequestException (msg : string)      (* raised by requests.post: ConnectionError, Timeout, ... *)
| HTTPError (status : Z) (msg : string) (* raised by Response.raise_for_status *)
| JSONDecodeError (msg : string)
| KeyError (key : string)
| AttributeError (msg : string)
| TypeError (msg : string)
| ValueError (msg : string)
| ApiError (msg : string)              (* dropbox.exceptions.ApiError *)
| FileNotFoundError (path : string)
| EOFError
| Exception (msg : string)             (* a bare [Exception(msg)] *)
| OtherError (msg : string).           (* an error of any other class *)

(** [isinstance(e, requests.exceptions.RequestException)]: [HTTPError] is a
    subclass of [RequestException]. *)
Definition is_RequestException (e : exn) : bool :=
  match e with
  | RequestException _ | HTTPError _ _ => true
  | _ => false
  end.

(** [str(e)] *)
Definition str_exn (e : exn) : string :=
  match e with
  | RequestException msg | HTTPError _ msg | JSONDecodeError msg
  | AttributeError msg | TypeError msg | ValueError msg | ApiError msg
  | Exception msg | OtherError msg => msg
  | KeyError key => "'" +:+ key +:+ "'"
  | FileNotFoundError path => "[Errno 2] No such file or directory: '" +:+ path +:+ "'"
  | EOFError => "EOF when reading a line"
  end.

(** How a computation ends: it returns, raises, calls [exit(code)], or (in
    the model only) uses up the fuel that bounds a [while] loop or a
    recursion. *)
Inductive res (A : Type) :=
| Ret (a : A)
| Raise (e : exn)
| Exit (code : Z)
| OutOfFuel.
Arguments Ret {A} a.
Arguments Raise {A} e.
Arguments Exit {A} code.
Arguments OutOfFuel {A}.

(** The exit status of the interpreter when the script ends with [r]: 0 at
    the end of the script, 1 after an uncaught exception, [code] after
    [exit(code)]. *)
Definition exit_status {A} (r : res A) : option Z :=
  match r with
  | Ret _ => Some 0%Z
  | Raise _ => Some 1%Z
  | Exit code => Some code
  | OutOfFuel => None
  end.

(** The world of a run.  [S] is the state of the backend and [Req] the kind
    of call it serves; [sent] is the list of calls issued so far, oldest
    first. *)
Record world (S Req : Type) := World {
  backend : S;
  sent : list Req;
  slept : list Z;                          (* arguments of time.sleep, oldest first *)
  stdin : list string;                     (* the lines still to be typed *)
  stdout : list string;                    (* what was printed, oldest first *)
  files : gmap string string;              (* the text files that exist *)
  json_files : gmap string json;           (* files written with json.dump *)
  csv_files : gmap string (list (list json)) (* files written through csv: rows of fields *)
}.
Arguments World {S Req}.
Arguments backend {S Req}.
Arguments sent {S Req}.
Arguments slept {S Req}.
Arguments stdin {S Req}.
Arguments stdout {S Req}.
Arguments files {S Req}.
Arguments json_files {S Req}.
Arguments csv_files {S Req}.

(** The changes the scripts make to the world. *)
Section Changes.
Context {S Req : Type}.
Implicit Type w : world S Req.

Definition printed (line : string) w : world S Req :=
  World (backend w) (sent w) (slept w) (stdin w) (stdout w ++ [line])
        (files w) (json_files w) (csv_files w).

Definition typed (rest : list string) w : world S Req :=
  World (backend w) (sent w) (slept w) rest (stdout w)
        (files w) (json_files w) (csv_files w).

Definition asleep (seconds : Z) w : world S Req :=
  World (backend w) (sent w) (slept w ++ [seconds]) (stdin w) (stdout w)
        (files w) (json_files w) (csv_files w).

Definition called (rq : Req) (s' : S) w : world S Req :=
  World s' (sent w ++ [rq]) (slept w) (stdin w) (stdout w)
        (files w) (json_files w) (csv_files w).

Definition with_json (js : gmap string json) w : world S Req :=
  World (backend w) (sent w) (slept w) (stdin w) (stdout w)
        (files w) js (csv_files w).

Definition with_csv (cs : gmap string (list (list json))) w : world S Req :=
  World (backend w) (sent w) (slept w) (stdin w) (stdout w)
        (files w) (json_files w) cs.

(** [w'] differs from [w] at most in the backend, the calls, the pauses
    and the printed lines. *)
Definition same_local w w' : Prop :=
  stdin w' = stdin w ∧ files w' = files w ∧ json_files w' = json_files w
  ∧ csv_files w' = csv_files w.

(** The rows of the csv file at [path]; none when it was never opened. *)
Definition rows_of (path : string) w : list (list json) :=
  default [] (csv_files w !! path).

(** [result], the outcome of a computation started in [w], has added rows
    to the csv file at [path] and calls to the backend, and nothing but
    rows that satisfy [R] and calls that satisfy [C]. *)
Definition appends (R : list json → Prop) (C : Req → Prop) (path : string) w
    {A : Type} (result : res A * world S Req) : Prop :=
  ∃ rows calls,
    rows_of path (snd result) = rows_of path w ++ rows
    ∧ sent (snd result) = sent w ++ calls
    ∧ Forall R rows ∧ Forall C calls.
End Changes.

(** A computation over the world. *)
Definition M (S Req A : Type) : Type := world S Req → res A * world S Req.

Section Monad.
Context {S Req : Type}.

Definition ret {A} (a : A) : M S Req A := λ w, (Ret a, w).
Definition raise {A} (e : exn) : M S Req A := λ w, (Raise e, w).
Definition exit {A} (code : Z) : M S Req A := λ w, (Exit code, w).

Definition bind {A B} (c : M S Req A) (k : A → M S Req B) : M S Req B :=
  λ w, match c w with
       | (Ret a, w') => k a w'
       | (Raise e, w') => (Raise e, w')
       | (Exit code, w') => (Exit code, w')
       | (OutOfFuel, w') => (OutOfFuel, w')
       end.

(** [try: c  except <class>: handler]: [handler e] is [Some h] when the
    clause catches [e]. *)
Definition try_except {A} (c : M S Req A) (handler : exn → option (M S Req A))
  : M S Req A :=
  λ w, match c w with
       | (Raise e, w') =>
           match handler e with
           | Some h => h w'
           | None => (Raise e, w')
           end
       | other => other
       end.

(** [for item in items: body] *)
Fixpoint for_each {A} (body : A → M S Req unit) (items : list A) : M S Req unit :=
  match items with
  | [] => ret ()
  | item :: rest => bind (body item) (λ _, for_each body rest)
  end.

(** [print(line)] *)
Definition print (line : string) : M S Req unit :=
  λ w, (Ret (), printed line w).

(** [input(prompt)] *)
Definition input (prompt : string) : M S Req string :=
  λ w, match stdin w with
       | [] => (Raise EOFError, printed prompt w)
       | line :: rest => (Ret line, typed rest (printed prompt w))
       end.

(** [time.sleep(seconds)] *)
Definition sleep (seconds : Z) : M S Req unit :=
  λ w, (Ret (), asleep seconds w).

(** [with open(path, "r") as file: file.read()] *)
Definition read_file (path : string) : M S Req string :=
  λ w, match files w !! path with
       | Some text => (Ret text, w)
       | None => (Raise (FileNotFoundError path), w)
       end.

(** One call of the backend: the call is recorded, the backend answers
    and moves to its next state. *)
Definition call {Out} (serve : S → Req → Out * S) (rq : Req) : M S Req Out :=
  λ w, let '(out, s') := serve (backend w) rq in (Ret out, called rq s' w).

(** [json.dump(value, open(path, "w"))] *)
Definition json_dump (path : string) (value : json) : M S Req unit :=
  λ w, (Ret (), with_json (<[path := value]> (json_files w)) w).

(** [open(path, "w")] for a csv writer: the file is created or truncated. *)
Definition csv_open (path : string) : M S Req unit :=
  λ w, (Ret (), with_csv (<[path := []]> (csv_files w)) w).

(** [csv.writer(file).writerow(row)] on the file opened at [path]. *)
Definition csv_writerow (path : string) (row : list json) : M S Req unit :=
  λ w, (Ret (), with_csv (<[path := rows_of path w ++ [row]]> (csv_files w)) w).
End Monad.

Declare Scope py_scope.
Delimit Scope py_scope with py.
Notation "x <- c ;; k" := (bind c (λ x, k))
  (at level 100, c at next level, right associativity) : py_scope.
Notation "c ;;; k" := (bind c (λ _, k))
  (at level 100, right associativity) : py_scope.

(** A [str] of Python is a sequence of Unicode characters; the model holds
    its UTF-8 encoding, one [ascii] for each byte. *)
Definition utf8 (bytes : list nat) : string :=
  String.string_of_list_ascii (ascii_of_nat <$> bytes).

(** The characters for which [str.isspace] holds, the ones [str.strip]
    removes: U+0009 to U+000D, U+001C to U+0020, U+0085, U+00A0, U+1680,
    U+2000 to U+200A, U+2028, U+2029, U+202F, U+205F and U+3000. *)
Definition white_space : list string :=
  utf8 <$> ([[9]; [10]; [11]; [12]; [13]; [28]; [29]; [30]; [31]; [32];
             [194; 133]; [194; 160]; [225; 154; 128]]
            ++ ((λ byte, [226; 128; byte]) <$> seq 128 11)
            ++ [[226; 128; 168]; [226; 128; 169]; [226; 128; 175];
                [226; 129; 159]; [227; 128; 128]]).

(** What is left of [s] after [start], when [s] starts with it. *)
Fixpoint without_prefix (start s : string) : option string :=
  match start, s with
  | EmptyString, _ => Some s
  | String a start', String b s' =>
      if Ascii.eqb a b then without_prefix start' s' else None
  | String _ _, EmptyString => None
  end.

(** [s] without its first character, when that is one of [spaces]. *)
Definition without_space (spaces : list string) (s : string) : option string :=
  foldr (λ space found,
           match without_prefix space s with
           | Some rest => Some rest
           | None => found
           end) None spaces.

(** The leading characters of [s] that are among [spaces] removed; [n]
    bounds their number. *)
Fixpoint strip_front (spaces : list string) (n : nat) (s : string) : string :=
  match n with
  | O => s
  | Datatypes.S n' =>
      match without_space spaces s with
      | Some rest => strip_front spaces n' rest
      | None => s
      end
  end.

Definition lstrip (s : string) : string :=
  strip_front white_space (String.length s) s.

(** Trailing white space is leading white space of the string read
    backwards, byte by byte. *)
Definition rstrip (s : string) : string :=
  String.rev (strip_front (String.rev <$> white_space) (String.length s) (String.rev s)).

(** [str.strip()]: leading and trailing white space removed. *)
Definition strip (s : string) : string := rstrip (lstrip s).

(** [str.lower()].  The model lower-cases the letters of ASCII and the
    Kelvin sign U+212A, the one character outside ASCII whose lower case is
    an ASCII letter; the bytes of every other character are kept.  The
    result is therefore equal to a given ASCII word exactly when that of
    Python is, which is the one use the scripts make of it. *)
Definition lower_ascii (c : ascii) : ascii :=
  let n := nat_of_ascii c in
  if (Nat.leb 65 n && Nat.leb n 90)%bool then ascii_of_nat (n + 32) else c.

Fixpoint lower (s : string) : string :=
  match s with
  | String "226" (String "132" (String "170" s')) => String "k" (lower s')
  | String c s' => String (lower_ascii c) (lower s')
  | EmptyString => EmptyString
  end.

(** [separator.join(parts)] *)
Fixpoint join (separator : string) (parts : list string) : string :=
  match parts with
  | [] => EmptyString
  | [part] => part
  | part :: rest => part +:+ separator +:+ join separator rest
  end.

(** [value.get(key, dflt)] on a value that should be a [dict]. *)
Definition py_get (value : json) (key : string) (dflt : json) : res json :=
  match value with
  | JDict m => Ret (default dflt (m !! key))
  | _ => Raise (AttributeError "object has no attribute 'get'")
  end.

(** An HTTP response of the requests library, with what the JSON decoder
    makes of its body: [B] is the shape of the decoded body; [json_body] is
    [None] when the body is not valid JSON, and [json_error] is then the
    message of the decoder, which says where in the body it gave up. *)
Record response (B : Type) := Response {
  status_code : Z;
  reason : string;
  resp_url : string;
  text : string;
  json_body : option B;
  json_error : string
}.
Arguments Response {B}.
Arguments status_code {B}.
Arguments reason {B}.
Arguments resp_url {B}.
Arguments text {B}.
Arguments json_body {B}.
Arguments json_error {B}.

(** What [requests.post] does with a request: it returns a response or
    raises. *)
Inductive outcome (B : Type) :=
| Responds (r : response B)
| Fails (e : exn).
Arguments Responds {B} r.
Arguments Fails {B} e.

(** A request as handed to [requests.post].  [data] is the JSON value whose
    [json.dumps] text is the body. *)
Record request := Request {
  url : string;
  headers : gmap string string;
  data : json;
  timeout : option Z
}.

(** [Response.raise_for_status()] *)
Definition http_error_msg {B} (r : response B) : option string :=
  if (400 <=? status_code r)%Z && (status_code r <? 500)%Z then
    Some (pretty (status_code r) +:+ " Client Error: " +:+ reason r
          +:+ " for url: " +:+ resp_url r)
  else if (500 <=? status_code r)%Z && (status_code r <? 600)%Z then
    Some (pretty (status_code r) +:+ " Server Error: " +:+ reason r
          +:+ " for url: " +:+ resp_url r)
  else None.

Definition raise_for_status {S Req B} (r : response B) : M S Req unit :=
  match http_error_msg r with
  | Some msg => raise (HTTPError (status_code r) msg)
  | None => ret ()
  end.

(** [Response.json()] *)
Definition response_json {S Req B} (r : response B) : M S Req B :=
  match json_body r with
  | Some b => ret b
  | None => raise (JSONDecodeError (json_error r))
  end.

End Py.

(** ** dbox_user_file_export.py *)

Module UserFileExport.
Import Py.
#[local] Open Scope py_scope.

(** The decoded body of a [files/list_folder] response: a JSON object of
    which the script reads three keys, each of which may be missing. *)
Record listing := Listing {
  entries : option (list record);
  cursor : option string;
  has_more : option bool
}.

Definition url : string := "https://api.dropboxapi.com/2/files/list_folder".
Definition continue_url : string :=
  "https://api.dropboxapi.com/2/files/list_folder/continue".

Definition payload (dropbox_folder_path : string) : json :=
  JDict (list_to_map
    [("path", JStr dropbox_folder_path);
     ("recursive", JBool true);
     ("include_media_info", JBool false);
     ("include_deleted", JBool false);
     ("include_has_explicit_shared_members", JBool false);
     ("include_mounted_folders", JBool true);
     ("include_non_downloadable_files", JBool true)]).

Definition headers (dropbox_user token_info : string) : gmap string string :=
  list_to_map
    [("Content-Type", "application/json");
     ("Dropbox-API-Select-User", dropbox_user);
     ("Authorization", "Bearer " +:+ token_info)].

(** [list(csv_headers)] after the loop that updates the set with the keys
    of every entry.  Python fixes no order for the elements of a set; the
    model lists them in the order of [elements]. *)
Definition csv_headers (entries : list record) : list string :=
  elements (foldl (λ (acc : gset string) (entry : record), acc ∪ dom entry) ∅ entries).

(** [csv.DictWriter(file, fieldnames)._dict_to_list(rowdict)]: a key outside
    [fieldnames] is an error, a missing key gives the empty string. *)
Definition dict_to_list (fieldnames : list string) (rowdict : record)
  : res (list json) :=
  if bool_decide (dom rowdict ⊆ list_to_set fieldnames) then
    Ret ((λ key, default (JStr EmptyString) (rowdict !! key)) <$> fieldnames)
  else Raise (ValueError "dict contains fields not in fieldnames").

(** [f"Attempt {i+1} failed: {e}"] *)
Definition attempt_message (i : nat) (e : exn) : string :=
  "Attempt " +:+ pretty (i + 1)%nat +:+ " failed: " +:+ str_exn e.

(** The exception the [try] body of [make_request] raises into its
    [except RequestException] clause on an outcome of [requests.post], if
    any: an error of that class raised by [post] itself, or the [HTTPError]
    that [raise_for_status] raises for a status from 400 to 599. *)
Definition failure_of (out : outcome listing) : option exn :=
  match out with
  | Fails e => if is_RequestException e then Some e else None
  | Responds r =>
      match http_error_msg r with
      | Some msg => Some (HTTPError (status_code r) msg)
      | None => None
      end
  end.

Section Script.
Context {S : Type}.
(** The backend behind [requests.post]. *)
Variable post : S → request → outcome listing * S.
(** [os.path.expanduser] of [~]. *)
Variable home : string.

Let M := (Py.M S request).

(** One iteration of the [for] loop of [make_request] and, after it, the
    rest of the loop over [range]. *)
Fixpoint make_request_from (range : list nat) (url : string)
    (headers : gmap string string) (payload : json) (retries timeout : Z)
  : M (option (response listing)) :=
  match range with
  | [] => ret None
  | i :: range' =>
      try_except
        (out <- call post (Request url headers payload (Some timeout));;
         response <- match out with
                     | Responds r => ret r
                     | Fails e => raise e
                     end;;
         raise_for_status response;;;
         ret (Some response))
        (λ e,
           if is_RequestException e then
             Some (print (attempt_message i e);;;
                   if (Z.of_nat i <? retries - 1)%Z then
                     sleep (2 ^ Z.of_nat i);;;
                     make_request_from range' url headers payload retries timeout
                   else raise e)
           else None)
  end.

(** [make_request(url, headers, payload, retries=3, timeout=10)] *)
Definition make_request (url : string) (headers : gmap string string)
    (payload : json) (retries timeout : Z) : M (option (response listing)) :=
  make_request_from (seq 0 (Z.to_nat retries)) url headers payload retries timeout.

(** [try: data = response.json()  except json.JSONDecodeError: ... exit(1)] *)
Definition decode (response : option (response listing)) : M listing :=
  try_except
    (match response with
     | Some r => response_json r
     | None => raise (AttributeError "'NoneType' object has no attribute 'json'")
     end)
    (λ e, match e with
          | JSONDecodeError msg =>
              Some (print ("Error decoding JSON: " +:+ msg);;;
                    print "Response content was not valid JSON.";;;
                    exit 1)
          | _ => None
          end).

(** The [while data.get('has_more', False)] loop; [fuel] bounds the
    number of iterations. *)
Fixpoint pagination_loop (fuel : nat) (headers : gmap string string)
    (data : listing) (entries : list record) : M (list record) :=
  if default false (has_more data) then
    match fuel with
    | O => λ w, (OutOfFuel, w)
    | Datatypes.S fuel' =>
        cursor <- match cursor data with
                  | Some c => ret c
                  | None => raise (KeyError "cursor")
                  end;;
        let payload := JDict {[ "cursor" := JStr cursor ]} in
        response <- make_request continue_url headers payload 3 10;;
        data' <- decode response;;
        pagination_loop fuel' headers data'
          (entries ++ default [] (UserFileExport.entries data'))
    end
  else ret entries.

(** Lines 82 to 106: the first request and the loop. *)
Definition fetch_entries (fuel : nat) (headers : gmap string string)
    (payload : json) : M (list record) :=
  response <- make_request url headers payload 3 10;;
  data <- decode response;;
  pagination_loop fuel headers data (default [] (entries data)).

Definition json_export_location : string := home +:+ "/Desktop/merged_data.json".
Definition csv_file : string := home +:+ "/Desktop/merged_data.csv".

(** [for entry in entries: writer.writerow(entry)] *)
Fixpoint write_rows (fieldnames : list string) (entries : list record) : M unit :=
  match entries with
  | [] => ret ()
  | entry :: rest =>
      match dict_to_list fieldnames entry with
      | Ret row => csv_writerow csv_file row;;; write_rows fieldnames rest
      | Raise e => raise e
      | Exit code => exit code
      | OutOfFuel => λ w, (OutOfFuel, w)
      end
  end.

(** Lines 108 to 129: the two exports. *)
Definition export (entries : list record) : M unit :=
  json_dump json_export_location (JList (JDict <$> entries));;;
  let csv_headers := csv_headers entries in
  csv_open csv_file;;;
  csv_writerow csv_file (JStr <$> csv_headers);;;
  write_rows csv_headers entries;;;
  print ("Data exported to " +:+ csv_file +:+ " and " +:+ json_export_location +:+ ".").

(** The token is read from the file, trimmed. *)
Definition read_token (token_file_path : string) : M string :=
  try_except
    (text <- read_file token_file_path;; ret (strip text))
    (λ e, match e with
          | FileNotFoundError _ =>
              Some (print ("Error: The file " +:+ token_file_path +:+ " was not found.");;;
                    exit 1)
          | _ => None
          end).

(** The script, top to bottom. *)
Definition script (fuel : nat) : M unit :=
  dropbox_user <- input "Enter the Dropbox user: ";;
  token_file_path <- input "Enter the path to the Dropbox token file: ";;
  token_info <- read_token token_file_path;;
  dropbox_folder_path <-
    input "Enter the path of the Dropbox folder (leave blank for root): ";;
  entries <- fetch_entries fuel (headers dropbox_user token_info)
               (payload dropbox_folder_path);;
  export entries.
End Script.

(** One page as the script obtains it: [make_request], then the body
    decoded. *)
Definition fetch_page {S} (post : S → request → outcome listing * S) (url : string)
    (headers : gmap string string) (payload : json) : M S request listing :=
  bind (make_request post url headers payload 3 10) (decode (S:=S)).

(** [listings_received post headers w url payload pages w']: from world [w],
    the request to [url] with [payload] and the continuation requests that
    follow the cursors bring the pages [pages], in this order, the last one
    being the first without [has_more]; [w'] is the world then. *)
Inductive listings_received {S} (post : S → request → outcome listing * S)
    (headers : gmap string string)
  : world S request → string → json → list listing → world S request → Prop :=
| listing_last w url payload data w' :
    fetch_page post url headers payload w = (Ret data, w') →
    default false (has_more data) = false →
    listings_received post headers w url payload [data] w'
| listing_next w url payload data c w1 pages w' :
    fetch_page post url headers payload w = (Ret data, w1) →
    default false (has_more data) = true →
    cursor data = Some c →
    listings_received post headers w1 continue_url (JDict {[ "cursor" := JStr c ]}) pages w' →
    listings_received post headers w url payload (data :: pages) w'.

(** The world once the three prompts of the script were answered, [rest]
    being the lines not typed yet. *)
Definition inputs_read {S} (rest : list string) (w : world S request) : world S request :=
  typed rest
    (printed "Enter the path of the Dropbox folder (leave blank for root): "
       (printed "Enter the path to the Dropbox token file: "
          (printed "Enter the Dropbox user: " w))).

End UserFileExport.

(** ** dropbox_members_listv2.py *)

Module MembersList.
Import Py.
#[local] Open Scope py_scope.

(** The decoded body of a [team/members/list_v2] response. *)
Record members_page := MembersPage {
  members : option (list record);
  cursor : option string;
  has_more : option bool
}.

Definition url : string := "https://api.dropboxapi.com/2/team/members/list_v2".

Definition headers (token : string) : gmap string string :=
  list_to_map
    [("Content-Type", "application/json");
     ("Authorization", "Bearer " +:+ token)].

(** The request body of [get_members]: the cursor is added when it is
    truthy, that is neither [None] nor the empty string. *)
Definition request_data (include_removed : bool) (cursor : option string) : json :=
  let data : gmap string json :=
    list_to_map [("limit", JNum 1000); ("include_removed", JBool include_removed)] in
  JDict match cursor with
        | Some (String c rest) => <["cursor" := JStr (String c rest)]> data
        | Some EmptyString | None => data
        end.

(** The exception [get_members] raises on an outcome of [requests.post], if
    any: the one [post] raised, [Exception] for a status other than 200, or
    the decoding error of a body that is not JSON. *)
Definition abort_of (out : outcome members_page) : option exn :=
  match out with
  | Fails e => Some e
  | Responds r =>
      if bool_decide (status_code r ≠ 200%Z) then
        Some (Exception ("API Request Failed: " +:+ text r))
      else match json_body r with
           | Some _ => None
           | None => Some (JSONDecodeError (json_error r))
           end
  end.

Definition fields : list string :=
  ["Team Member ID"; "Account ID"; "Email"; "Status"; "Membership Type";
   "Joined On"; "Groups"; "Member Folder ID"; "Root Folder ID"].

(** [", ".join(groups)]: every element of the iterable must be a string.
    A string iterates over its characters and a dict over its keys. *)
Definition join_groups (groups : json) : res string :=
  let as_str (j : json) : option string :=
    match j with JStr s => Some s | _ => None end in
  match groups with
  | JList l =>
      match mapM as_str l with
      | Some parts => Ret (join ", " parts)
      | None => Raise (TypeError "sequence item: expected str instance")
      end
  | JStr s => Ret (join ", " ((λ c, String c EmptyString) <$> String.list_ascii_of_string s))
  | JDict m => Ret (join ", " (fst <$> map_to_list m))
  | _ => Raise (TypeError "can only join an iterable")
  end.

(** The row of one member in [export_to_csv], in the order of [fields]. *)
Definition member_row (member : record) : res (list json) :=
  let profile := default (JDict ∅) (member !! "profile") in
  let get (key : string) : res json := py_get profile key JNull in
  let tag (key : string) : res json :=
    match py_get profile key (JDict ∅) with
    | Ret inner => py_get inner ".tag" JNull
    | other => other
    end in
  let groups : res json :=
    match py_get profile "groups" (JList []) with
    | Ret g => match join_groups g with
               | Ret s => Ret (JStr s)
               | Raise e => Raise e
               | Exit code => Exit code
               | OutOfFuel => OutOfFuel
               end
    | other => other
    end in
  (* the values of the dict literal are evaluated top to bottom *)
  let cells := [get "team_member_id"; get "account_id"; get "email";
                tag "status"; tag "membership_type"; get "joined_on";
                groups; get "member_folder_id"; get "root_folder_id"] in
  foldr (λ cell acc,
           match cell with
           | Ret v => match acc with Ret vs => Ret (v :: vs) | other => other end
           | Raise e => Raise e
           | Exit code => Exit code
           | OutOfFuel => OutOfFuel
           end) (Ret []) cells.

Section Script.
Context {S : Type}.
(** The backend behind [requests.post]. *)
Variable post : S → request → outcome members_page * S.

Let M := (Py.M S request).

Definition get_members (token : string) (include_removed : bool)
    (cursor : option string) : M (list record * option string * bool) :=
  out <- call post (Request url (headers token)
                      (request_data include_removed cursor) None);;
  response <- match out with
              | Responds r => ret r
              | Fails e => raise e
              end;;
  if bool_decide (status_code response ≠ 200%Z) then
    raise (Exception ("API Request Failed: " +:+ text response))
  else
    result <- response_json response;;
    ret (default [] (members result), MembersList.cursor result,
         default false (has_more result)).

(** [for member in members: ... writer.writerow(data)] *)
Fixpoint write_members (filename : string) (members : list record) : M unit :=
  match members with
  | [] => ret ()
  | member :: rest =>
      match member_row member with
      | Ret row => csv_writerow filename row;;; write_members filename rest
      | Raise e => raise e
      | Exit code => exit code
      | OutOfFuel => λ w, (OutOfFuel, w)
      end
  end.

Definition export_to_csv (members : list record) (filename : string) : M unit :=
  csv_open filename;;;
  csv_writerow filename (JStr <$> fields);;;
  write_members filename members.

(** The [while has_more] loop of [main]; [fuel] bounds the number of
    iterations. *)
Fixpoint fetch_loop (fuel : nat) (token : string) (include_removed : bool)
    (all_members : list record) (cursor : option string) (has_more : bool)
  : M (list record) :=
  if has_more then
    match fuel with
    | O => λ w, (OutOfFuel, w)
    | Datatypes.S fuel' =>
        page <- get_members token include_removed cursor;;
        let '(members, cursor, has_more) := page in
        fetch_loop fuel' token include_removed (all_members ++ members)
          cursor has_more
    end
  else ret all_members.

(** Lines 116 to 122 of [main]. *)
Definition fetch_all_members (fuel : nat) (token : string)
    (include_removed : bool) : M (list record) :=
  fetch_loop fuel token include_removed [] None true.

(** The token is read from the file, trimmed; [None] stands for the
    [return] of the [except] clause. *)
Definition read_token (token_file_path : string) : M (option string) :=
  try_except
    (text <- read_file token_file_path;; ret (Some (strip text)))
    (λ e, match e with
          | FileNotFoundError _ =>
              Some (print ("Error: The file " +:+ token_file_path +:+ " was not found.");;;
                    ret None)
          | _ => None
          end).

Definition main (fuel : nat) : M unit :=
  token_file_path <- input "Please enter the path to the Dropbox token file: ";;
  read <- read_token token_file_path;;
  match read with
  | None => ret ()
  | Some token =>
      answer <- input "Include removed accounts? (yes/no): ";;
      let include_removed_input := lower (strip answer) in
      let include_removed := bool_decide (include_removed_input = "yes") in
      all_members <- fetch_all_members fuel token include_removed;;
      export_to_csv all_members "dropbox_users.csv";;;
      print "Data exported to dropbox_users.csv"
  end.
End Script.

(** [pages_received post token include_removed w cursor pages w']: from
    world [w], [get_members] called with [cursor] and then with the cursor
    of each page brings the member lists [pages], in this order, the last
    one being the first without [has_more]; [w'] is the world then. *)
Inductive pages_received {S} (post : S → request → outcome members_page * S)
    (token : string) (include_removed : bool)
  : world S request → option string → list (list record) → world S request → Prop :=
| page_last w cursor members cursor' w' :
    get_members post token include_removed cursor w = (Ret (members, cursor', false), w') →
    pages_received post token include_removed w cursor [members] w'
| page_next w cursor members cursor' w1 pages w' :
    get_members post token include_removed cursor w = (Ret (members, cursor', true), w1) →
    pages_received post token include_removed w1 cursor' pages w' →
    pages_received post token include_removed w cursor (members :: pages) w'.

End MembersList.

(** ** The part of the Dropbox SDK the search scripts use *)

Module Sdk.
Import Py.
#[local] Open Scope py_scope.

(** [dropbox.files.Metadata] and its subclasses. *)
Inductive metadata :=
| FolderMetadata (name path_lower : string)
| FileMetadata (name path_lower : string)
| DeletedMetadata (name path_lower : string).

Definition name (entry : metadata) : string :=
  match entry with
  | FolderMetadata n _ | FileMetadata n _ | DeletedMetadata n _ => n
  end.

Definition path_lower (entry : metadata) : string :=
  match entry with
  | FolderMetadata _ p | FileMetadata _ p | DeletedMetadata _ p => p
  end.

#[global] Instance metadata_eq_dec : EqDecision metadata.
Proof. solve_decision. Defined.

(** [isinstance(entry, dropbox.files.FolderMetadata)] *)
Definition is_FolderMetadata (entry : metadata) : bool :=
  match entry with
  | FolderMetadata _ _ => true
  | _ => false
  end.

(** A [dropbox.Dropbox] client: the token it was built with and the headers
    of its session, which the scripts mutate. *)
Record client := Client {
  oauth2_access_token : string;
  session_headers : gmap string string
}.

(** What the installed SDK fixes and the scripts do not: the headers that
    the session of a new client carries, and the error with which the
    constructor rejects an empty token ([AssertionError] before version 10
    of the SDK, [BadInputException] since). *)
Record library := Library {
  default_headers : gmap string string;
  bad_input : exn
}.

(** [dropbox.Dropbox(token)]: the constructor insists on a token that is
    not empty. *)
Definition Dropbox {S Req} (sdk : library) (token : string) : M S Req client :=
  match token with
  | EmptyString => raise (bad_input sdk)
  | String _ _ => ret (Client token (default_headers sdk))
  end.

(** [dbx._session.headers[key] = value] *)
Definition set_header (dbx : client) (key value : string) : client :=
  Client (oauth2_access_token dbx) (<[key := value]> (session_headers dbx)).

(** One [files_search] call as the backend sees it: the client's token and
    session headers at the time of the call, the folder and the query. *)
Record search_call := SearchCall {
  call_token : string;
  call_headers : gmap string string;
  call_path : string;
  call_query : string
}.

(** The backend returns the [matches] of the search or the SDK raises. *)
Inductive search_outcome :=
| Matches (matches : list metadata)
| SearchFails (e : exn).

(** A call made with the token and the session headers that the client
    [dbx] has. *)
Definition made_by (dbx : client) (c : search_call) : Prop :=
  call_token c = oauth2_access_token dbx ∧ call_headers c = session_headers dbx.

(** A call made on behalf of the member [dbmid]. *)
Definition made_for (dbmid : string) (c : search_call) : Prop :=
  call_headers c !! "Dropbox-API-Select-User" = Some dbmid.

(** A row of three fields whose third field is the string [dbmid]. *)
Definition carries_id (dbmid : string) (row : list json) : Prop :=
  ∃ name path, row = [JStr name; JStr path; JStr dbmid].

(** [row] is the row of the multi-account script for an entry that is not
    a folder and satisfies [P], with [dbmid] as its third field. *)
Definition is_member_row_of (P : metadata → Prop) (dbmid : string) (row : list json)
  : Prop :=
  ∃ entry, P entry ∧ is_FolderMetadata entry = false
           ∧ row = [JStr (name entry); JStr (path_lower entry); JStr dbmid].

Section Client.
Context {S : Type}.
Variable serve : S → search_call → search_outcome * S.

(** [dbx.files_search(folder_path, search_query).matches], each match
    taken at its [metadata]. *)
Definition files_search (dbx : client) (folder_path search_query : string)
  : M S search_call (list metadata) :=
  out <- call serve (SearchCall (oauth2_access_token dbx) (session_headers dbx)
                       folder_path search_query);;
  match out with
  | Matches matches => ret matches
  | SearchFails e => raise e
  end.
End Client.

End Sdk.

(** ** dbox_search_account.py *)

Module SearchAccount.
Import Py Sdk.
#[local] Open Scope py_scope.

Section Script.
Context {S : Type}.
Variable serve : S → search_call → search_outcome * S.
(** [os.path.expanduser] of [~]. *)
Variable home : string.
(** The SDK that is installed. *)
Variable sdk : library.

Let M := (Py.M S search_call).

(** [fuel] bounds the depth of the recursion.  [csv_writer] is the path of
    the file the writer was opened on. *)
Fixpoint search_files_recursively (fuel : nat) (folder_path csv_writer : string)
    (dbx : client) (search_query : string) : M unit :=
  match fuel with
  | O => λ w, (OutOfFuel, w)
  | Datatypes.S fuel' =>
      results <- files_search serve dbx folder_path search_query;;
      for_each
        (λ entry,
           if is_FolderMetadata entry then
             search_files_recursively fuel' (path_lower entry) csv_writer
               dbx search_query
           else
             csv_writerow csv_writer [JStr (name entry); JStr (path_lower entry)])
        results
  end.

Definition csv_path : string := home +:+ "/Desktop/dropbox_files_search.csv".

Definition export_files_to_csv (fuel : nat) (token selected_user search_query : string)
  : M unit :=
  dbx <- Dropbox sdk token;;
  let dbx := set_header dbx "Dropbox-API-Select-User" selected_user in
  csv_open csv_path;;;
  csv_writerow csv_path [JStr "File Name"; JStr "Path"];;;
  search_files_recursively fuel EmptyString csv_path dbx search_query;;;
  print "CSV export complete!".

Definition read_token (token_file_path : string) : M string :=
  try_except
    (text <- read_file token_file_path;; ret (strip text))
    (λ e, match e with
          | FileNotFoundError _ =>
              Some (print ("Error: The file " +:+ token_file_path +:+ " was not found.");;;
                    exit 1)
          | _ => None
          end).

Definition script (fuel : nat) : M unit :=
  token_file_path <- input "Enter the path to the Dropbox token file: ";;
  token <- read_token token_file_path;;
  selected_user <- input "Enter the selected user: ";;
  search_query <- input "Enter the search query: ";;
  export_files_to_csv fuel token selected_user search_query.
End Script.

End SearchAccount.

(** ** dbox_search_list_ids.py *)

Module SearchListIds.
Import Py Sdk.
#[local] Open Scope py_scope.

Section Script.
Context {S : Type}.
Variable serve : S → search_call → search_outcome * S.
(** [os.path.expanduser] of [~]. *)
Variable home : string.
(** [csv.DictReader] on the text of a file: one dict per data row, keyed
    by the header row. *)
Variable dict_reader : string → list (gmap string string).
(** The SDK that is installed. *)
Variable sdk : library.

Let M := (Py.M S search_call).

Fixpoint search_files_recursively (fuel : nat) (folder_path csv_writer : string)
    (dbx : client) (search_query dbmid : string) : M unit :=
  match fuel with
  | O => λ w, (OutOfFuel, w)
  | Datatypes.S fuel' =>
      results <- files_search serve dbx folder_path search_query;;
      for_each
        (λ entry,
           if is_FolderMetadata entry then
             search_files_recursively fuel' (path_lower entry) csv_writer
               dbx search_query dbmid
           else
             csv_writerow csv_writer
               [JStr (name entry); JStr (path_lower entry); JStr dbmid])
        results
  end.

Definition csv_path : string := home +:+ "/Desktop/dropbox_files_search.csv".

(** [[row['dbmid'] for row in csv_reader]] *)
Fixpoint dbmid_column (rows : list (gmap string string)) : M (list string) :=
  match rows with
  | [] => ret []
  | row :: rest =>
      match row !! "dbmid" with
      | Some dbmid => dbmids <- dbmid_column rest;; ret (dbmid :: dbmids)
      | None => raise (KeyError "dbmid")
      end
  end.

(** The [for dbmid in dbmid_list] loop: the header of the shared client
    is set, then the account is searched. *)
Fixpoint for_dbmids (fuel : nat) (dbmid_list : list string) (dbx : client)
    (search_query : string) : M unit :=
  match dbmid_list with
  | [] => ret ()
  | dbmid :: rest =>
      let dbx := set_header dbx "Dropbox-API-Select-User" dbmid in
      search_files_recursively fuel EmptyString csv_path dbx search_query dbmid;;;
      for_dbmids fuel rest dbx search_query
  end.

Definition export_files_to_csv (fuel : nat) (token dbmid_file search_query : string)
  : M unit :=
  text <- read_file dbmid_file;;
  dbmid_list <- dbmid_column (dict_reader text);;
  dbx <- Dropbox sdk token;;
  csv_open csv_path;;;
  csv_writerow csv_path [JStr "File Name"; JStr "Path"; JStr "Dropbox ID"];;;
  for_dbmids fuel dbmid_list dbx search_query;;;
  print "CSV export complete!".

Definition read_token (token_file_path : string) : M string :=
  try_except
    (text <- read_file token_file_path;; ret (strip text))
    (λ e, match e with
          | FileNotFoundError _ =>
              Some (print ("Error: The file " +:+ token_file_path +:+ " was not found.");;;
                    exit 1)
          | _ => None
          end).

Definition script (fuel : nat) : M unit :=
  token_file_path <- input "Enter the path to the Dropbox token file: ";;
  token <- read_token token_file_path;;
  dbmid_file <- input "Enter the CSV file name containing Dropbox IDs: ";;
  search_query <- input "Enter the search query: ";;
  export_files_to_csv fuel token dbmid_file search_query.
End Script.

End SearchListIds.

(** ** Backends to run the scripts against *)

(** A scripted backend, as a test double would be: it answers the calls
    with the outcomes of a list, one after the other whatever the call is,
    and with [exhausted] once the list is used up. *)
Module Mock.
Definition scripted {Req Out : Type} (exhausted : Out)
  : list Out → Req → Out * list Out :=
  λ script _,
    match script with
    | [] => (exhausted, [])
    | out :: rest => (out, rest)
    end.

(** The outcomes of the first [n] calls of a backend that is sent the same
    call [rq] again and again from state [s], and the state it is left in. *)
Fixpoint replies {S Req Out : Type} (serve : S → Req → Out * S) (s : S) (rq : Req)
    (n : nat) : list Out * S :=
  match n with
  | O => ([], s)
  | Datatypes.S n' =>
      let '(out, s1) := serve s rq in
      let '(outs, s') := replies serve s1 rq n' in
      (out :: outs, s')
  end.
End Mock.

(** The files and folders of one account as a tree, and a backend that
    searches it the way the Dropbox search endpoint is documented to: a
    search in a folder covers everything below that folder, at any depth. *)
Module Namespace.
Import Py Sdk.

Inductive node :=
| File (name : string)
| Folder (name : string) (children : list node).

(** The entries of a tree whose root hangs below [parent]: every node with
    its lower-cased path, a folder before its content. *)
Fixpoint flatten (parent : string) (n : node) : list metadata :=
  match n with
  | File nm => [FileMetadata nm (parent +:+ "/" +:+ lower nm)]
  | Folder nm children =>
      let path := parent +:+ "/" +:+ lower nm in
      FolderMetadata nm path :: flat_map (flatten path) children
  end.

(** The entries of an account whose root folder holds [tree]; the path of
    the root folder is the empty string. *)
Definition namespace (tree : list node) : list metadata :=
  flat_map (flatten EmptyString) tree.

(** What is left of [s] after [start], when [s] starts with it. *)
Fixpoint remainder (start s : string) : option string :=
  match start, s with
  | EmptyString, _ => Some s
  | String a start', String b s' => if Ascii.eqb a b then remainder start' s' else None
  | String _ _, EmptyString => None
  end.

Fixpoint has_slash (s : string) : bool :=
  match s with
  | String c s' => Ascii.eqb c "/" || has_slash s'
  | EmptyString => false
  end.

(** [path] lies below the folder at [folder_path], at any depth. *)
Definition is_under (folder_path path : string) : bool :=
  match remainder (folder_path +:+ "/") path with
  | Some _ => true
  | None => false
  end.

(** [path] lies in the folder at [folder_path] itself. *)
Definition is_child (folder_path path : string) : bool :=
  match remainder (folder_path +:+ "/") path with
  | Some rest => negb (has_slash rest)
  | None => false
  end.

(** The entries a search call matches, given which names a query matches. *)
Definition search_matches (name_matches : string → string → bool)
    (tree : list node) (folder_path query : string) : list metadata :=
  List.filter
    (λ entry, is_under folder_path (path_lower entry) && name_matches query (name entry))
    (namespace tree).

(** The backend of that account; it has no state of its own. *)
Definition search_subtree (name_matches : string → string → bool) (tree : list node)
  : unit → search_call → search_outcome * unit :=
  λ _ c, (Matches (search_matches name_matches tree (call_path c) (call_query c)), ()).

(** Another backend for the same account, one that would look at the
    searched folder only and not below it. *)
Definition search_children (name_matches : string → string → bool) (tree : list node)
  : unit → search_call → search_outcome * unit :=
  λ _ c, (Matches (List.filter
                     (λ entry, is_child (call_path c) (path_lower entry)
                               && name_matches (call_query c) (name entry))
                     (namespace tree)), ()).

(** The backend of a team: the account searched is the one that the
    [Dropbox-API-Select-User] header of the call names. *)
Definition search_team (name_matches : string → string → bool)
    (accounts : gmap string (list node))
  : unit → search_call → search_outcome * unit :=
  λ _ c,
    match call_headers c !! "Dropbox-API-Select-User" with
    | Some dbmid =>
        match accounts !! dbmid with
        | Some tree =>
            (Matches (search_matches name_matches tree (call_path c) (call_query c)), ())
        | None => (SearchFails (ApiError "invalid_select_user"), ())
        end
    | None => (SearchFails (ApiError "select_user required"), ())
    end.

(** [entry] is an entry of the account of the member [dbmid]. *)
Definition in_account (accounts : gmap string (list node)) (dbmid : string)
    (entry : metadata) : Prop :=
  ∃ tree, accounts !! dbmid = Some tree ∧ In entry (namespace tree).

(** A way for a query to match a name: the query occurs in the name, letter
    case apart. *)
Fixpoint contains (fragment s : string) : bool :=
  match remainder fragment s with Some _ => true | None => false end ||
  match s with
  | String _ s' => contains fragment s'
  | EmptyString => false
  end.

Definition name_contains (query name : string) : bool :=
  contains (lower query) (lower name).

(** The row the single-account script writes for an entry. *)
Definition row_of (entry : metadata) : list json :=
  [JStr (name entry); JStr (path_lower entry)].

(** The row the multi-account script writes for an entry found in the
    account of [dbmid]. *)
Definition member_row_of (dbmid : string) (entry : metadata) : list json :=
  [JStr (name entry); JStr (path_lower entry); JStr dbmid].

(** The folders of the tree that the query matches and below which [path]
    lies, at any depth. *)
Definition matched_folders_above (name_matches : string → string → bool)
    (tree : list node) (query path : string) : list metadata :=
  List.filter
    (λ entry, is_FolderMetadata entry && name_matches query (name entry)
              && is_under (path_lower entry) path)
    (namespace tree).

(** How many times [entry] occurs in [written]. *)
Definition times_written (entry : metadata) (written : list metadata) : nat :=
  length (List.filter (λ e, bool_decide (e = entry)) written).

(** The entries for which the recursive search of the scripts writes a row
    when it runs against [search_subtree] from the folder at [folder_path],
    in the order of the rows: the search matches of the folder, each folder
    among them replaced by what the search of that folder writes. *)
Fixpoint written_below (name_matches : string → string → bool) (tree : list node)
    (query : string) (fuel : nat) (folder_path : string) : list metadata :=
  match fuel with
  | O => []
  | Datatypes.S fuel' =>
      flat_map
        (λ entry,
           if is_FolderMetadata entry then
             written_below name_matches tree query fuel' (path_lower entry)
           else [entry])
        (search_matches name_matches tree folder_path query)
  end.

(** The length of the longest path among [entries]. *)
Definition longest_path (entries : list metadata) : nat :=
  foldr (λ entry longest, Nat.max (String.length (path_lower entry)) longest) 0 entries.

(** [row] is the row of an entry that is not a folder and satisfies [P]. *)
Definition is_row_of (P : metadata → Prop) (row : list json) : Prop :=
  ∃ entry, P entry ∧ is_FolderMetadata entry = false ∧ row = row_of entry.

End Namespace.

(** ** Sample runs *)

Module Samples.
Import Py.

(** What a scripted backend answers when its script is used up. *)
Definition exhausted {B} : outcome B := Fails (OtherError "StopIteration").

(** What the decoder says of a body that does not start as a JSON value
    does. *)
Definition expecting_value : string := "Expecting value: line 1 column 1 (char 0)".

(** A world in which nothing has happened yet. *)
Definition fresh {S Req} (s : S) (typed_lines : list string)
    (text_files : gmap string string) : world S Req :=
  World s [] [] typed_lines [] text_files ∅ ∅.

Definition file_a : record := {[ "name" := JStr "a.txt" ]}.
Definition file_b : record := {[ "name" := JStr "b.txt"; "size" := JNum 7 ]}.

(** A last page of a folder listing, with two entries. *)
Definition last_body : UserFileExport.listing :=
  UserFileExport.Listing (Some [file_a; file_b]) (Some "c2") (Some false).
Definition last_listing : response UserFileExport.listing :=
  Response 200 "OK" UserFileExport.url "{...}" (Some last_body) EmptyString.

Definition not_found : response UserFileExport.listing :=
  Response 404 "Not Found" UserFileExport.url "not found" None expecting_value.

Definition unavailable : response UserFileExport.listing :=
  Response 503 "Service Unavailable" UserFileExport.url "try later" None expecting_value.

Definition timed_out : exn := RequestException "Read timed out.".

(** A backend that answers 404 once and then with a listing, in a fresh
    world. *)
Definition not_found_once_world : world (list (outcome UserFileExport.listing)) request :=
  fresh [Responds not_found; Responds last_listing] [] ∅.

Definition file_c : record := {[ "name" := JStr "c.txt"; ".tag" := JStr "file" ]}.

(** A first page of a folder listing, with more to come. *)
Definition first_body : UserFileExport.listing :=
  UserFileExport.Listing (Some [file_c]) (Some "c1") (Some true).
Definition first_listing : response UserFileExport.listing :=
  Response 200 "OK" UserFileExport.url "{...}" (Some first_body) EmptyString.

(** A backend that serves a folder in two pages, the first one at the
    second attempt. *)
Definition two_listings_world : world (list (outcome UserFileExport.listing)) request :=
  fresh [Fails timed_out; Responds first_listing; Responds last_listing] [] ∅.

(** A run of the export script: the user, the token file and the folder
    are typed in, the token file exists, the folder comes in two pages. *)
Definition export_world : world (list (outcome UserFileExport.listing)) request :=
  fresh [Fails timed_out; Responds first_listing; Responds last_listing]
        ["dbmid:1"; "/home/ada/token.txt"; "/docs"]
        {[ "/home/ada/token.txt" := " sl.t0ken " ]}.


Definition ada : record :=
  {[ "profile" := JDict {[ "team_member_id" := JStr "dbmid:1"; "email" := JStr "ada@example.org" ]} ]}.
Definition bob : record :=
  {[ "profile" := JDict {[ "team_member_id" := JStr "dbmid:2"; "email" := JStr "bob@example.org" ]} ]}.

Definition members_first : response MembersList.members_page :=
  Response 200 "OK" MembersList.url "{...}"
    (Some (MembersList.MembersPage (Some [ada]) (Some "m1") (Some true))) EmptyString.
Definition members_last : response MembersList.members_page :=
  Response 200 "OK" MembersList.url "{...}"
    (Some (MembersList.MembersPage (Some [bob]) (Some "m2") (Some false))) EmptyString.
(** A last page that holds a member of the first page again. *)
Definition members_again : response MembersList.members_page :=
  Response 200 "OK" MembersList.url "{...}"
    (Some (MembersList.MembersPage (Some [ada]) (Some "m2") (Some false))) EmptyString.

Definition two_pages_world : world (list (outcome MembersList.members_page)) request :=
  fresh [Responds members_first; Responds members_last] [] ∅.
Definition repeating_world : world (list (outcome MembersList.members_page)) request :=
  fresh [Responds members_first; Responds members_again] [] ∅.
(** A run of the members script: the token file exists, removed accounts
    are asked for, the members come in two pages. *)
Definition members_world : world (list (outcome MembersList.members_page)) request :=
  fresh [Responds members_first; Responds members_last]
        ["/home/ada/token.txt"; " YES "]
        {[ "/home/ada/token.txt" := " sl.t0ken " ]}.
Definition one_page_world : world (list (outcome MembersList.members_page)) request :=
  fresh [Responds members_last; Responds members_first] [] ∅.

(** A run of the members script in which the user names a token file that
    does not exist. *)
Definition no_token_world : world (list (outcome MembersList.members_page)) request :=
  fresh [Responds members_last] ["/home/ada/token.txt"] ∅.

(** The tree of the account [dbmid:1]: [a.txt] and [b/c.txt]. *)
Definition small_tree : list Namespace.node :=
  [Namespace.File "a.txt"; Namespace.Folder "b" [Namespace.File "c.txt"]].

(** The same tree with one more folder, named [txt], that holds [d.txt]. *)
Definition txt_tree : list Namespace.node :=
  [Namespace.File "a.txt"; Namespace.Folder "b" [Namespace.File "c.txt"];
   Namespace.Folder "txt" [Namespace.File "d.txt"]].

(** The tree of the account [dbmid:2]. *)
Definition other_tree : list Namespace.node :=
  [Namespace.Folder "Notes" [Namespace.File "Plan.TXT"]].

(** An SDK of version 11 on version 2 of the requests library. *)
Definition sdk : Sdk.library :=
  Sdk.Library
    {[ "User-Agent" := "python-requests/2.31.0";
       "Accept-Encoding" := "gzip, deflate";
       "Accept" := "*/*";
       "Connection" := "keep-alive" ]}
    (OtherError "OAuth2 access token or refresh token or app key/secret must be set").

(** The client that [dropbox.Dropbox] builds for the token [sl.t0ken]. *)
Definition new_dbx : Sdk.client := Sdk.Client "sl.t0ken" (Sdk.default_headers sdk).

(** The client of the single-account script once the user is selected. *)
Definition dbx : Sdk.client :=
  Sdk.set_header new_dbx "Dropbox-API-Select-User" "dbmid:1".

Definition search_world : world unit Sdk.search_call := fresh () [] ∅.

(** A run of a search script in which the token file named does not
    exist. *)
Definition typed_only_world : world unit Sdk.search_call :=
  fresh () ["/home/ada/token.txt"; "dbmid:1"; "txt"] ∅.

(** A run of the export script in which the token file named does not
    exist. *)
Definition no_token_export_world : world (list (outcome UserFileExport.listing)) request :=
  fresh [Responds last_listing] ["dbmid:1"; "/home/ada/token.txt"; "/docs"] ∅.

(** A tree in which the query [txt] matches a folder inside a folder that
    it matches too: [a.txt], [txt/d.txt] and [txt/old txt/e.txt]. *)
Definition nested_tree : list Namespace.node :=
  [Namespace.File "a.txt";
   Namespace.Folder "txt"
     [Namespace.File "d.txt"; Namespace.Folder "old txt" [Namespace.File "e.txt"]]].

(** A backend in which every folder holds a folder [loop]. *)
Definition loop_backend : unit → Sdk.search_call → Sdk.search_outcome * unit :=
  λ _ c, (Sdk.Matches [Sdk.FolderMetadata "loop" (Sdk.call_path c +:+ "/loop")], ()).

(** Where the search scripts write, for the home folder [/home/ada]. *)
Definition search_csv : string := "/home/ada/Desktop/dropbox_files_search.csv".

(** A world in which an earlier run has left its output file. *)
Definition stale_world : world unit Sdk.search_call :=
  World () [] [] [] [] ∅ ∅
    {[ search_csv := [[JStr "File Name"; JStr "Path"]; [JStr "old.txt"; JStr "/old.txt"]] ]}.

(** The same with the file of member ids of the multi-account script. *)
Definition stale_team_world : world unit Sdk.search_call :=
  World () [] [] [] [] {[ "ids.csv" := "dbmid,dbmid:1,dbmid:2" ]} ∅
    {[ search_csv := [[JStr "File Name"; JStr "Path"]; [JStr "old.txt"; JStr "/old.txt"]] ]}.

(** A team of two accounts. *)
Definition team : gmap string (list Namespace.node) :=
  {[ "dbmid:1" := small_tree; "dbmid:2" := other_tree ]}.

(** What [csv.DictReader] yields for a file that lists the two accounts. *)
Definition ids_reader (file_text : string) : list (gmap string string) :=
  [{[ "dbmid" := "dbmid:1" ]}; {[ "dbmid" := "dbmid:2" ]}].

(** A run of the multi-account script's export on that team. *)
Definition team_world : world unit Sdk.search_call :=
  fresh () [] {[ "ids.csv" := "dbmid,dbmid:1,dbmid:2" ]}.

Definition forbidden : response MembersList.members_page :=
  Response 403 "Forbidden" MembersList.url "no access" None expecting_value.

Definition forbidden_world : world (list (outcome MembersList.members_page)) request :=
  fresh [Responds forbidden] [] ∅.

(** A backend that fails three times before it answers, in a fresh world. *)
Definition failing_world : world (list (outcome UserFileExport.listing)) request :=
  fresh [Responds unavailable; Fails timed_out; Responds not_found;
         Responds last_listing] [] ∅.

(** A backend whose first call is interrupted by an error that is no
    RequestException. *)
Definition interrupted_world : world (list (outcome UserFileExport.listing)) request :=
  fresh [Fails (OtherError "KeyboardInterrupt"); Responds last_listing] [] ∅.


(** A response whose body is a page of HTML. *)
Definition html_page : response UserFileExport.listing :=
  Response 200 "OK" UserFileExport.url "<html>" None expecting_value.
Definition html_world : world (list (outcome UserFileExport.listing)) request :=
  fresh [Responds html_page; Responds last_listing] [] ∅.

(** A response whose body is the start of a JSON array, cut off. *)
Definition cut_off_page : response UserFileExport.listing :=
  Response 200 "OK" UserFileExport.url "[1, 2" None
    "Expecting ',' delimiter: line 1 column 6 (char 5)".
Definition cut_off_world : world (list (outcome UserFileExport.listing)) request :=
  fresh [Responds cut_off_page; Responds last_listing] [] ∅.


(** A members page that announces more but carries an empty cursor, and a
    backend that answers every request with it. *)
Definition stuck_page : response MembersList.members_page :=
  Response 200 "OK" MembersList.url "{...}"
    (Some (MembersList.MembersPage (Some [ada]) (Some EmptyString) (Some true))) EmptyString.
Definition stuck_backend : unit → request → outcome MembersList.members_page * unit :=
  λ _ _, (Responds stuck_page, ()).
Definition stuck_world : world unit request := fresh () [] ∅.

(** The answer [Yes] between two no-break spaces, U+00A0, and a token
    followed by a next-line character, U+0085. *)
Definition padded_answer : string := utf8 [194; 160] +:+ "Yes" +:+ utf8 [194; 160].
Definition padded_token : string := "sl.t0ken" +:+ utf8 [194; 133].

(** A run of the members script with that answer and that token file. *)
Definition padded_world : world (list (outcome MembersList.members_page)) request :=
  fresh [Responds members_first; Responds members_last]
        ["/home/ada/token.txt"; padded_answer]
        {[ "/home/ada/token.txt" := padded_token ]}.


(** A member whose profile is a string, not an object. *)
Definition broken : record := {[ "profile" := JStr "n/a" ]}.

(** A backend that fails twice before it answers, in a fresh world. *)
Definition flaky_world : world (list (outcome UserFileExport.listing)) request :=
  fresh [Responds unavailable; Fails timed_out; Responds last_listing;
         Responds not_found] [] ∅.
End Samples.

(** * Properties *)

(** ** Sequencing *)

Module MonadFacts.
Import Py.

Lemma bind_returns {S Req A B} (c : M S Req A) (k : A → M S Req B) w a w' :
  c w = (Ret a, w') → bind c k w = k a w'.
Proof. intros H. unfold bind. by rewrite H. Qed.

Lemma bind_raises {S Req A B} (c : M S Req A) (k : A → M S Req B) w e w' :
  c w = (Raise e, w') → bind c k w = (Raise e, w').
Proof. intros H. unfold bind. by rewrite H. Qed.

Lemma bind_exits {S Req A B} (c : M S Req A) (k : A → M S Req B) w code w' :
  c w = (Exit code, w') → bind c k w = (Exit code, w').
Proof. intros H. unfold bind. by rewrite H. Qed.

Lemma same_local_refl {S Req} (w : world S Req) : same_local w w.
Proof. by unfold same_local. Qed.

End MonadFacts.

(** ** The retry loop of [make_request] *)

Module RetryProofs.
Import Py UserFileExport MonadFacts.

Section Retry.
Context {S : Type} (post : S → request → outcome listing * S).
Variables (url : string) (headers : gmap string string) (payload : json).
Variables (retries timeout : Z).

Let rq := Request url headers payload (Some timeout).
Let from range := make_request_from post range url headers payload retries timeout.

(** An attempt that gets a response with a good status returns it. *)
Lemma attempt_success i range w r s1 :
  post (backend w) rq = (Responds r, s1) →
  http_error_msg r = None →
  from (i :: range) w = (Ret (Some r), called rq s1 w).
Proof.
  intros Hpost Hok. unfold from. cbn [make_request_from].
  unfold try_except, bind, call. fold rq. rewrite Hpost. cbn.
  unfold raise_for_status. rewrite Hok. reflexivity.
Qed.

(** An attempt that fails, and is not the last one, is reported and
    followed by a pause of [2 ^ i] seconds and the next attempt. *)
Lemma attempt_retried i range w out e s1 :
  post (backend w) rq = (out, s1) →
  failure_of out = Some e →
  (Z.of_nat i <? retries - 1)%Z = true →
  from (i :: range) w
  = from range (asleep (2 ^ Z.of_nat i) (printed (attempt_message i e) (called rq s1 w))).
Proof.
  intros Hpost Hfail Hlt. unfold from. cbn [make_request_from].
  unfold try_except at 1. unfold bind at 1 2, call. fold rq. rewrite Hpost.
  destruct out as [r|e']; cbn in Hfail |- *.
  - unfold raise_for_status. destruct (http_error_msg r) as [msg|]; [|done].
    injection Hfail as <-. cbn. rewrite Hlt. reflexivity.
  - destruct (is_RequestException e') eqn:Hre; [|done].
    injection Hfail as <-. cbn. rewrite Hlt. reflexivity.
Qed.

(** The last attempt, when it fails, is reported and its error raised. *)
Lemma attempt_last i range w out e s1 :
  post (backend w) rq = (out, s1) →
  failure_of out = Some e →
  (Z.of_nat i <? retries - 1)%Z = false →
  from (i :: range) w = (Raise e, printed (attempt_message i e) (called rq s1 w)).
Proof.
  intros Hpost Hfail Hlt. unfold from. cbn [make_request_from].
  unfold try_except at 1. unfold bind at 1 2, call. fold rq. rewrite Hpost.
  destruct out as [r|e']; cbn in Hfail |- *.
  - unfold raise_for_status. destruct (http_error_msg r) as [msg|]; [|done].
    injection Hfail as <-. cbn. rewrite Hlt. reflexivity.
  - destruct (is_RequestException e') eqn:Hre; [|done].
    injection Hfail as <-. cbn. rewrite Hlt. reflexivity.
Qed.

(** An error of another class leaves the loop at once. *)
Lemma attempt_aborted i range w e s1 :
  post (backend w) rq = (Fails e, s1) →
  is_RequestException e = false →
  from (i :: range) w = (Raise e, called rq s1 w).
Proof.
  intros Hpost Hre. unfold from. cbn [make_request_from].
  unfold try_except, bind, call. fold rq. rewrite Hpost.
  cbn -[is_RequestException]. rewrite Hre. reflexivity.
Qed.

Lemma replies_length {Out} (serve : S → request → Out * S) n : ∀ s outs s',
  Mock.replies serve s rq n = (outs, s') → length outs = n.
Proof.
  induction n as [|n IH]; intros s outs s' H; cbn in H.
  - by injection H as <- <-.
  - destruct (serve s rq) as [out s1]. destruct (Mock.replies serve s1 rq n) as [outs1 s2] eqn:E.
    injection H as <- <-. cbn. f_equal. eauto.
Qed.

Lemma replies_cons {Out} (serve : S → request → Out * S) n s out outs s' :
  Mock.replies serve s rq (Datatypes.S n) = (out :: outs, s') →
  ∃ s1, serve s rq = (out, s1) ∧ Mock.replies serve s1 rq n = (outs, s').
Proof.
  cbn. destruct (serve s rq) as [out1 s1].
  destruct (Mock.replies serve s1 rq n) as [outs1 s2] eqn:E.
  intros H. injection H as -> -> ->. exists s1. by split.
Qed.

Lemma replies_snoc {Out} (serve : S → request → Out * S) : ∀ outs s out s',
  Mock.replies serve s rq (length outs + 1) = (outs ++ [out], s') →
  ∃ s1, Mock.replies serve s rq (length outs) = (outs, s1) ∧ serve s1 rq = (out, s').
Proof.
  induction outs as [|o outs IH]; intros s out s' H.
  - cbn in H. destruct (serve s rq) as [out1 s1] eqn:E. injection H as -> ->.
    exists s. by split.
  - cbn [length Nat.add app] in H. apply replies_cons in H as (s1 & Hs & Hrest).
    apply IH in Hrest as (s2 & Hrest & Hlast).
    exists s2. split; [|done]. cbn. by rewrite Hs, Hrest.
Qed.

(** The pause before the attempt after attempt [i]. *)
Let backoff (i : nat) : Z := (2 ^ Z.of_nat i)%Z.

(** Failed attempts that are not the last one are all retried. *)
Lemma failures_retried failures : ∀ errors i range w s',
  failure_of <$> failures = Some <$> errors →
  (Z.of_nat (i + length failures) ≤ retries - 1)%Z →
  Mock.replies post (backend w) rq (length failures) = (failures, s') →
  ∃ w', from (seq i (length failures) ++ range) w = from range w'
    ∧ backend w' = s'
    ∧ sent w' = sent w ++ replicate (length failures) rq
    ∧ slept w' = slept w ++ (backoff <$> seq i (length failures))
    ∧ stdout w' = stdout w ++ zip_with attempt_message (seq i (length failures)) errors
    ∧ same_local w w'.
Proof.
  induction failures as [|out failures IH]; intros errors i range w s' Herr Hi Hrep.
  - cbn in Hrep. injection Hrep as <-. exists w. cbn.
    rewrite !app_nil_r. by repeat split.
  - destruct errors as [|e errors]; [done|]. cbn in Herr. injection Herr as He Herr.
    cbn [length] in Hi, Hrep |- *.
    apply replies_cons in Hrep as (s1 & Hpost & Hrep).
    cbn [seq app]. rewrite (attempt_retried i _ w out e s1 Hpost He) by lia.
    set (w1 := asleep _ _).
    destruct (IH errors (Datatypes.S i) range w1 s' Herr) as (w' & Heq & Hb & Hs & Hz & Ho & Hl).
    { lia. } { exact Hrep. }
    exists w'. split; [exact Heq|]. split; [exact Hb|].
    rewrite Hs, Hz, Ho. subst w1. cbn.
    rewrite <- !app_assoc. repeat split; try done; apply Hl.
Qed.

(** With [n] failures and then a good response, [n] below the bound, the
    good response is returned. *)
Lemma make_request_success_after failures errors r s' w :
  (Z.of_nat (length failures) < retries)%Z →
  failure_of <$> failures = Some <$> errors →
  http_error_msg r = None →
  Mock.replies post (backend w) rq (length failures + 1)
    = (failures ++ [Responds r], s') →
  ∃ w', make_request post url headers payload retries timeout w = (Ret (Some r), w')
    ∧ backend w' = s'
    ∧ sent w' = sent w ++ replicate (length failures + 1) rq
    ∧ slept w' = slept w ++ (backoff <$> seq 0 (length failures))
    ∧ stdout w' = stdout w ++ zip_with attempt_message (seq 0 (length failures)) errors
    ∧ same_local w w'.
Proof.
  intros Hn Herr Hok Hrep.
  apply replies_snoc in Hrep as (s1 & Hrep & Hlast).
  remember (length failures) as n eqn:En.
  assert (Z.to_nat retries = n + (1 + (Z.to_nat retries - n - 1))) as Hsplit by lia.
  unfold make_request. rewrite Hsplit, seq_app. cbn [seq Nat.add].
  destruct (failures_retried failures errors 0
              (n :: seq (Datatypes.S n) (Z.to_nat retries - n - 1)) w s1)
    as (w1 & Heq & Hb & Hs & Hz & Ho & Hl);
    [done|rewrite <- En; lia|by rewrite <- En|].
  rewrite <- En in Heq, Hs, Hz, Ho. fold (from (seq 0 n ++ n :: seq (Datatypes.S n) (Z.to_nat retries - n - 1))).
  rewrite Heq. rewrite <- Hb in Hlast.
  rewrite (attempt_success n _ w1 r s' Hlast Hok).
  eexists. split; [reflexivity|]. cbn.
  rewrite Hs, Hz, Ho. rewrite Nat.add_1_r, replicate_S_end, <- app_assoc.
  repeat split; try done; apply Hl.
Qed.

(** With as many failures as the bound allows attempts, the error of the
    last attempt is raised. *)
Lemma make_request_all_failed failures errors e s' w :
  length failures = Z.to_nat retries →
  failure_of <$> failures = Some <$> errors →
  last errors = Some e →
  Mock.replies post (backend w) rq (Z.to_nat retries) = (failures, s') →
  ∃ w', make_request post url headers payload retries timeout w = (Raise e, w')
    ∧ backend w' = s'
    ∧ sent w' = sent w ++ replicate (Z.to_nat retries) rq
    ∧ slept w' = slept w ++ (backoff <$> seq 0 (Z.to_nat retries - 1))
    ∧ stdout w' = stdout w ++ zip_with attempt_message (seq 0 (Z.to_nat retries)) errors
    ∧ same_local w w'.
Proof.
  intros Hlen Herr Hlast Hrep.
  destruct (decide (errors = [])) as [->|Hne]; [done|].
  destruct (exists_last Hne) as (errors' & e' & ->).
  rewrite last_snoc in Hlast. injection Hlast as ->.
  assert (length (failure_of <$> failures) = length (Some <$> (errors' ++ [e]))) as Hl
    by (by rewrite Herr).
  rewrite !length_fmap, length_app in Hl. cbn in Hl.
  destruct (decide (failures = [])) as [->|Hnf]; [cbn in Hl; lia|].
  destruct (exists_last Hnf) as (failures' & out & ->).
  rewrite !fmap_app in Herr. apply app_inj_tail in Herr as [Herr Hout].
  rewrite length_app in Hlen, Hl. cbn in Hlen, Hl.
  remember (length failures') as n eqn:En.
  rewrite <- Hlen in Hrep |- *. rewrite En in Hrep.
  apply replies_snoc in Hrep as (s1 & Hrep & Hpost).
  unfold make_request. rewrite <- Hlen, seq_app. cbn [seq Nat.add].
  destruct (failures_retried failures' errors' 0 [n] w s1)
    as (w1 & Heq & Hb & Hs & Hz & Ho & Hloc);
    [done|rewrite <- En; lia|done|].
  rewrite <- En in Heq, Hs, Hz, Ho. fold (from (seq 0 n ++ [n])).
  rewrite Heq. rewrite <- Hb in Hpost.
  rewrite (attempt_last n [] w1 out e s' Hpost Hout) by lia.
  eexists. split; [reflexivity|]. cbn.
  rewrite Hs, Hz, Ho. rewrite Nat.add_1_r, replicate_S_end, <- !app_assoc.
  replace (Datatypes.S n - 1) with n by lia.
  rewrite zip_with_app by (rewrite length_seq; lia). cbn.
  repeat split; try done; apply Hloc.
Qed.
End Retry.

(** C3: when the backend answers the request of a [make_request] call with
    [N] failures (errors of class RequestException, bad statuses included)
    and then with a good response, and [N] is below [retries], the call does
    not raise: it returns that response, the first good one, after [N + 1]
    requests and pauses of 1, 2, ..., [2 ^ (N - 1)] seconds. *)
Theorem make_request_returns_first_success {S} (post : S → request → outcome listing * S)
    (url : string) (headers : gmap string string) (payload : json)
    (retries timeout : Z) (N : nat) (failures : list (outcome listing))
    (errors : list exn) (r : response listing) (s' : S) (w : world S request) :
  (Z.of_nat N < retries)%Z →
  length failures = N →
  failure_of <$> failures = Some <$> errors →
  http_error_msg r = None →
  Mock.replies post (backend w) (Request url headers payload (Some timeout)) (N + 1)
    = (failures ++ [Responds r], s') →
  ∃ w', make_request post url headers payload retries timeout w = (Ret (Some r), w')
    ∧ backend w' = s'
    ∧ sent w' = sent w ++ replicate (N + 1) (Request url headers payload (Some timeout))
    ∧ slept w' = slept w ++ ((λ i, 2 ^ Z.of_nat i)%Z <$> seq 0 N)
    ∧ same_local w w'.
Proof.
  intros HN <- Herr Hok Hrep.
  destruct (make_request_success_after post url headers payload retries timeout
              failures errors r s' w HN Herr Hok Hrep)
    as (w' & Hrun & Hb & Hs & Hz & _ & Hl).
  exists w'. repeat (split; [assumption|]). assumption.
Qed.

Lemma make_request_returns_first_success_witness :
  ∃ w', make_request (Mock.scripted Samples.exhausted) UserFileExport.url ∅ JNull 3 10
          Samples.flaky_world
        = (Ret (Some Samples.last_listing), w')
    ∧ backend w' = [Responds Samples.not_found]
    ∧ sent w' = sent Samples.flaky_world
                ++ replicate (2 + 1) (Request UserFileExport.url ∅ JNull (Some 10%Z))
    ∧ slept w' = slept Samples.flaky_world ++ ((λ i, 2 ^ Z.of_nat i)%Z <$> seq 0 2)
    ∧ same_local Samples.flaky_world w'.
Proof.
  apply (make_request_returns_first_success (Mock.scripted Samples.exhausted)
           UserFileExport.url ∅ JNull 3 10 2
           [Responds Samples.unavailable; Fails Samples.timed_out]
           [HTTPError 503 "503 Server Error: Service Unavailable for url: https://api.dropboxapi.com/2/files/list_folder";
            Samples.timed_out]
           Samples.last_listing [Responds Samples.not_found] Samples.flaky_world).
  - lia.
  - reflexivity.
  - reflexivity.
  - reflexivity.
  - reflexivity.
Defined.

(** The script of [dbox_user_file_export.py] up to its first request. *)
Lemma script_reads_inputs {S} (post : S → request → outcome listing * S) (home : string)
    (fuel : nat) (w : world S request) (user path folder : string) (rest : list string)
    (token_text : string) :
  stdin w = user :: path :: folder :: rest →
  files w !! path = Some token_text →
  script post home fuel w
  = bind (fetch_entries post fuel (UserFileExport.headers user (strip token_text))
            (UserFileExport.payload folder))
         (export home) (inputs_read rest w).
Proof.
  intros Hin Hfile. destruct w as [s sn sl si so fs js cs]. cbn in Hin, Hfile. subst si.
  unfold script, read_token, inputs_read.
  unfold bind at 1, input at 1. cbn [stdin typed printed].
  unfold bind at 1, input at 1. cbn [stdin typed printed].
  unfold bind at 1, try_except, bind at 1, read_file. cbn [files typed printed].
  rewrite Hfile. unfold ret at 1.
  unfold bind at 1, input at 1. cbn [stdin typed printed backend sent slept stdout files json_files csv_files].
  reflexivity.
Qed.

(** C4: when the backend answers the request of a [make_request] call
    (retries = 3) with three failures, the call makes exactly three
    requests, pauses 1 and 2 seconds, and raises the error of the third
    attempt.  The error is not caught: it is the result of the first fetch
    and of the pagination loop, and the script ends with it (exit status 1)
    without writing a file. *)
Theorem make_request_raises_last_error {S} (post : S → request → outcome listing * S)
    (home : string) (url : string) (headers : gmap string string) (payload : json)
    (failures : list (outcome listing)) (errors : list exn) (e : exn) (s' : S)
    (w : world S request) :
  length failures = 3 →
  failure_of <$> failures = Some <$> errors →
  last errors = Some e →
  Mock.replies post (backend w) (Request url headers payload (Some 10%Z)) 3
    = (failures, s') →
  ∃ w', make_request post url headers payload 3 10 w = (Raise e, w')
    ∧ backend w' = s'
    ∧ sent w' = sent w ++ replicate 3 (Request url headers payload (Some 10%Z))
    ∧ slept w' = slept w ++ [1%Z; 2%Z]
    ∧ same_local w w'
    ∧ exit_status (Raise e : res unit) = Some 1%Z
    ∧ (∀ fuel, url = UserFileExport.url →
         fetch_entries post fuel headers payload w = (Raise e, w'))
    ∧ (∀ fuel data entries c,
         default false (has_more data) = true → cursor data = Some c →
         url = continue_url → payload = JDict {[ "cursor" := JStr c ]} →
         pagination_loop post (Datatypes.S fuel) headers data entries w = (Raise e, w'))
    ∧ (∀ fuel w0 user path folder rest token_text,
         stdin w0 = user :: path :: folder :: rest →
         files w0 !! path = Some token_text →
         url = UserFileExport.url →
         headers = UserFileExport.headers user (strip token_text) →
         payload = UserFileExport.payload folder →
         w = inputs_read rest w0 →
         script post home fuel w0 = (Raise e, w')
         ∧ json_files w' = json_files w0 ∧ csv_files w' = csv_files w0).
Proof.
  intros Hlen Herr Hlast Hrep.
  destruct (make_request_all_failed post url headers payload 3 10
              failures errors e s' w Hlen Herr Hlast Hrep)
    as (w' & Hrun & Hb & Hs & Hz & _ & Hl).
  exists w'. split; [exact Hrun|]. split; [exact Hb|]. split; [exact Hs|].
  split; [exact Hz|]. split; [exact Hl|]. split; [reflexivity|].
  split; [|split].
  - intros fuel ->. unfold fetch_entries. by apply bind_raises.
  - intros fuel data entries c Hmore Hc -> ->.
    cbn [pagination_loop]. rewrite Hmore, Hc.
    unfold bind at 1, ret at 1. by apply bind_raises.
  - intros fuel w0 user path folder rest token_text Hin Hfile -> -> -> ->.
    rewrite (script_reads_inputs post home fuel w0 user path folder rest token_text Hin Hfile).
    split.
    + apply bind_raises. unfold fetch_entries. by apply bind_raises.
    + destruct Hl as (_ & _ & Hj & Hc). by rewrite Hj, Hc.
Qed.

Lemma make_request_raises_last_error_witness :
  ∃ w', make_request (Mock.scripted Samples.exhausted) UserFileExport.url ∅ JNull 3 10
          Samples.failing_world
        = (Raise (HTTPError 404 "404 Client Error: Not Found for url: https://api.dropboxapi.com/2/files/list_folder"), w')
    ∧ length (sent w') = 3.
Proof.
  destruct (make_request_raises_last_error (Mock.scripted Samples.exhausted)
              "/home/ada" UserFileExport.url ∅ JNull
              [Responds Samples.unavailable; Fails Samples.timed_out;
               Responds Samples.not_found]
              [HTTPError 503 "503 Server Error: Service Unavailable for url: https://api.dropboxapi.com/2/files/list_folder";
               Samples.timed_out;
               HTTPError 404 "404 Client Error: Not Found for url: https://api.dropboxapi.com/2/files/list_folder"]
              (HTTPError 404 "404 Client Error: Not Found for url: https://api.dropboxapi.com/2/files/list_folder")
              [Responds Samples.last_listing] Samples.failing_world
              eq_refl eq_refl eq_refl eq_refl)
    as (w' & Hrun & _ & Hs & _).
  exists w'. split; [exact Hrun|]. rewrite Hs. reflexivity.
Defined.

(** What [get_members] does with an outcome it cannot use: it raises after
    that one request. *)
Lemma get_members_aborts {S} (post : S → request → outcome MembersList.members_page * S)
    (token : string) (include_removed : bool) (cursor : option string)
    (w : world S request) out e s1 :
  post (backend w) (Request MembersList.url (MembersList.headers token)
                      (MembersList.request_data include_removed cursor) None) = (out, s1) →
  MembersList.abort_of out = Some e →
  MembersList.get_members post token include_removed cursor w
  = (Raise e, called (Request MembersList.url (MembersList.headers token)
                        (MembersList.request_data include_removed cursor) None) s1 w).
Proof.
  intros Hpost Habort. unfold MembersList.get_members.
  unfold bind at 1, call. rewrite Hpost.
  destruct out as [r|e']; cbn in Habort.
  - unfold bind at 1, ret at 1. destruct (bool_decide (status_code r ≠ 200%Z)).
    + by injection Habort as <-.
    + unfold bind, response_json. destruct (json_body r); [done|].
      by injection Habort as <-.
  - by injection Habort as <-.
Qed.

(** C5, as the code has it: [make_request] treats a response with an error
    status like a failure of the network.  Either is a RequestException in
    its [try] body; on an attempt before the last it is printed, the script
    sleeps [2 ^ i] seconds and tries again, and on the last attempt it is
    raised.  [get_members] does not retry at all: an outcome it cannot use
    makes it raise after that one request. *)
Theorem request_failures_retried_alike {S Sm}
    (post : S → request → outcome listing * S)
    (postm : Sm → request → outcome MembersList.members_page * Sm)
    (url : string) (headers : gmap string string) (payload : json)
    (retries timeout : Z) (i : nat) (range : list nat) (w : world S request)
    (out : outcome listing) (e : exn) (s1 : S)
    (token : string) (include_removed : bool) (cursor : option string)
    (wm : world Sm request) (outm : outcome MembersList.members_page) (em : exn) (sm : Sm) :
  post (backend w) (Request url headers payload (Some timeout)) = (out, s1) →
  failure_of out = Some e →
  postm (backend wm) (Request MembersList.url (MembersList.headers token)
                        (MembersList.request_data include_removed cursor) None)
    = (outm, sm) →
  MembersList.abort_of outm = Some em →
  make_request_from post (i :: range) url headers payload retries timeout w
  = (if (Z.of_nat i <? retries - 1)%Z then
       make_request_from post range url headers payload retries timeout
         (asleep (2 ^ Z.of_nat i)
            (printed (attempt_message i e)
               (called (Request url headers payload (Some timeout)) s1 w)))
     else
       (Raise e, printed (attempt_message i e)
                   (called (Request url headers payload (Some timeout)) s1 w)))
  ∧ MembersList.get_members postm token include_removed cursor wm
    = (Raise em, called (Request MembersList.url (MembersList.headers token)
                           (MembersList.request_data include_removed cursor) None) sm wm).
Proof.
  intros Hpost Hfail Hpostm Habort. split.
  - destruct (Z.of_nat i <? retries - 1)%Z eqn:Hlt.
    + by apply (attempt_retried post url headers payload retries timeout i range w out).
    + by apply (attempt_last post url headers payload retries timeout i range w out).
  - by apply (get_members_aborts postm token include_removed cursor wm outm).
Qed.

Lemma request_failures_retried_alike_witness :
  make_request_from (Mock.scripted Samples.exhausted) [0; 1; 2] UserFileExport.url ∅ JNull
    3 10 Samples.not_found_once_world
  = (if (Z.of_nat 0 <? 3 - 1)%Z then
       make_request_from (Mock.scripted Samples.exhausted) [1; 2] UserFileExport.url ∅
         JNull 3 10
         (asleep (2 ^ Z.of_nat 0)
            (printed (attempt_message 0 (HTTPError 404 "404 Client Error: Not Found for url: https://api.dropboxapi.com/2/files/list_folder"))
               (called (Request UserFileExport.url ∅ JNull (Some 10%Z))
                  [Responds Samples.last_listing] Samples.not_found_once_world)))
     else
       (Raise (HTTPError 404 "404 Client Error: Not Found for url: https://api.dropboxapi.com/2/files/list_folder"),
        printed (attempt_message 0 (HTTPError 404 "404 Client Error: Not Found for url: https://api.dropboxapi.com/2/files/list_folder"))
          (called (Request UserFileExport.url ∅ JNull (Some 10%Z))
             [Responds Samples.last_listing] Samples.not_found_once_world)))
  ∧ MembersList.get_members (Mock.scripted Samples.exhausted) "t0ken" false None
      Samples.forbidden_world
    = (Raise (Exception "API Request Failed: no access"),
       called (Request MembersList.url (MembersList.headers "t0ken")
                 (MembersList.request_data false None) None) [] Samples.forbidden_world).
Proof.
  apply (request_failures_retried_alike (Mock.scripted Samples.exhausted)
           (Mock.scripted Samples.exhausted) UserFileExport.url ∅ JNull 3 10 0 [1; 2]
           Samples.not_found_once_world (Responds Samples.not_found) _
           [Responds Samples.last_listing] "t0ken" false None Samples.forbidden_world
           (Responds Samples.forbidden) _ []);
    reflexivity.
Defined.

(** C5 does not hold as stated: a 404 answer to the first attempt does not
    end [make_request].  The request is sent again after a pause of one
    second, and the answer to the second attempt is returned. *)
Lemma http_error_status_is_retried :
  http_error_msg Samples.not_found
  = Some "404 Client Error: Not Found for url: https://api.dropboxapi.com/2/files/list_folder"
  ∧ fst (make_request (Mock.scripted Samples.exhausted) UserFileExport.url ∅ JNull 3 10
           Samples.not_found_once_world)
    = Ret (Some Samples.last_listing)
  ∧ sent (snd (make_request (Mock.scripted Samples.exhausted) UserFileExport.url ∅ JNull
                 3 10 Samples.not_found_once_world))
    = [Request UserFileExport.url ∅ JNull (Some 10%Z);
       Request UserFileExport.url ∅ JNull (Some 10%Z)]
  ∧ slept (snd (make_request (Mock.scripted Samples.exhausted) UserFileExport.url ∅ JNull
                  3 10 Samples.not_found_once_world))
    = [1%Z]
  ∧ ¬ ∃ e w', make_request (Mock.scripted Samples.exhausted) UserFileExport.url ∅ JNull
                3 10 Samples.not_found_once_world = (Raise e, w').
Proof.
  split; [reflexivity|]. split; [reflexivity|]. split; [reflexivity|].
  split; [reflexivity|]. intros (e & w' & H). discriminate H.
Qed.

End RetryProofs.

(** ** The pagination loops *)

Module PaginationProofs.
Import Py MonadFacts.

Lemma bind_assoc {S Req A B C} (c : M S Req A) (f : A → M S Req B) (g : B → M S Req C) w :
  bind (bind c f) g w = bind c (λ a, bind (f a) g) w.
Proof. unfold bind. destruct (c w) as [[a|e|code|] w1]; reflexivity. Qed.

Section Members.
Import MembersList.
Context {S : Type} (post : S → request → outcome members_page * S).
Variables (token : string) (include_removed : bool).

(** The loop appends the pages it receives, in the order it receives them. *)
Lemma fetch_loop_concat w cursor pages w' :
  pages_received post token include_removed w cursor pages w' →
  ∀ fuel all_members, length pages ≤ fuel →
    fetch_loop post fuel token include_removed all_members cursor true w
    = (Ret (all_members ++ concat pages), w').
Proof.
  induction 1 as [w cursor members cursor' w' Hget
                 |w cursor members cursor' w1 pages w' Hget _ IH];
    intros fuel all_members Hfuel; (destruct fuel as [|fuel]; [cbn in Hfuel; lia|]);
    cbn [fetch_loop]; rewrite (bind_returns _ _ _ _ _ Hget).
  - destruct fuel; cbn; by rewrite app_nil_r.
  - cbn [length] in Hfuel. rewrite IH by lia. cbn. by rewrite app_assoc.
Qed.
End Members.

Section Listings.
Import UserFileExport.
Context {S : Type} (post : S → request → outcome listing * S).
Variable headers : gmap string string.

(** The entries of a page: [data.get('entries', [])]. *)
Let entries_of (data : listing) : list record := default [] (entries data).

Lemma pagination_loop_done fuel data entries w :
  default false (has_more data) = false →
  pagination_loop post fuel headers data entries w = (Ret entries, w).
Proof. intros H. destruct fuel; cbn; by rewrite H. Qed.

Lemma pagination_loop_step fuel data c entries data' w w1 :
  default false (has_more data) = true →
  cursor data = Some c →
  fetch_page post continue_url headers (JDict {[ "cursor" := JStr c ]}) w = (Ret data', w1) →
  pagination_loop post (Datatypes.S fuel) headers data entries w
  = pagination_loop post fuel headers data' (entries ++ entries_of data') w1.
Proof.
  intros Hmore Hc Hpage. cbn [pagination_loop]. rewrite Hmore, Hc.
  unfold bind at 1, ret at 1. rewrite <- bind_assoc.
  unfold fetch_page in Hpage. by rewrite (bind_returns _ _ _ _ _ Hpage).
Qed.

Lemma pagination_loop_concat w url payload pages w' :
  listings_received post headers w url payload pages w' →
  ∀ fuel data c entries,
    url = continue_url → payload = JDict {[ "cursor" := JStr c ]} →
    default false (has_more data) = true → cursor data = Some c →
    length pages ≤ fuel →
    pagination_loop post fuel headers data entries w
    = (Ret (entries ++ concat (entries_of <$> pages)), w').
Proof.
  induction 1 as [w url payload data' w' Hpage Hlast
                 |w url payload data' c' w1 pages w' Hpage Hmore' Hc' _ IH];
    intros fuel data c entries -> -> Hmore Hc Hfuel;
    (destruct fuel as [|fuel]; [cbn in Hfuel; lia|]);
    rewrite (pagination_loop_step fuel data c entries data' _ _ Hmore Hc Hpage).
  - rewrite pagination_loop_done by done. cbn. by rewrite app_nil_r.
  - cbn [length] in Hfuel. rewrite (IH fuel data' c' _ eq_refl eq_refl Hmore' Hc') by lia.
    cbn. by rewrite app_assoc.
Qed.

Lemma fetch_entries_concat w payload pages w' :
  listings_received post headers w url payload pages w' →
  ∀ fuel, length pages ≤ Datatypes.S fuel →
    fetch_entries post fuel headers payload w
    = (Ret (concat (entries_of <$> pages)), w').
Proof.
  intros Hrec fuel Hfuel. unfold fetch_entries. rewrite <- bind_assoc.
  inversion Hrec as [w0 url0 payload0 data w0' Hpage Hlast
                    |w0 url0 payload0 data c w1 pages' w0' Hpage Hmore Hc Hrest]; subst.
  - unfold fetch_page in Hpage. rewrite (bind_returns _ _ _ _ _ Hpage).
    rewrite pagination_loop_done by done. cbn. by rewrite app_nil_r.
  - unfold fetch_page in Hpage. rewrite (bind_returns _ _ _ _ _ Hpage).
    cbn [length] in Hfuel.
    rewrite (pagination_loop_concat _ _ _ _ _ Hrest fuel data c _ eq_refl eq_refl Hmore Hc)
      by lia.
    reflexivity.
Qed.
End Listings.

(** Whatever [make_request] ends with, all it sent are copies of its one
    request. *)
Lemma make_request_sends_copies {S} (post : S → request → outcome UserFileExport.listing * S)
    (url : string) (headers : gmap string string) (payload : json) (retries timeout : Z)
    (range : list nat) :
  ∀ w result w',
    UserFileExport.make_request_from post range url headers payload retries timeout w
    = (result, w') →
    ∃ n, sent w' = sent w ++ replicate n (Request url headers payload (Some timeout)).
Proof.
  induction range as [|i range IH]; intros w result w' Hrun.
  - cbn in Hrun. injection Hrun as <- <-. exists 0. cbn. by rewrite app_nil_r.
  - destruct (post (backend w) (Request url headers payload (Some timeout)))
      as [out s1] eqn:Hpost.
    destruct (UserFileExport.failure_of out) as [e|] eqn:Hfail.
    + destruct (Z.of_nat i <? retries - 1)%Z eqn:Hlt.
      * rewrite (RetryProofs.attempt_retried post url headers payload retries timeout
                   i range w out e s1 Hpost Hfail Hlt) in Hrun.
        apply IH in Hrun as [n Hn]. exists (Datatypes.S n).
        rewrite Hn. cbn. by rewrite <- app_assoc.
      * rewrite (RetryProofs.attempt_last post url headers payload retries timeout
                   i range w out e s1 Hpost Hfail Hlt) in Hrun.
        injection Hrun as <- <-. by exists 1.
    + destruct out as [r|e]; cbn in Hfail.
      * destruct (http_error_msg r) eqn:Hmsg; [done|].
        rewrite (RetryProofs.attempt_success post url headers payload retries timeout
                   i range w r s1 Hpost Hmsg) in Hrun.
        injection Hrun as <- <-. by exists 1.
      * destruct (is_RequestException e) eqn:Hre; [done|].
        rewrite (RetryProofs.attempt_aborted post url headers payload retries timeout
                   i range w e s1 Hpost Hre) in Hrun.
        injection Hrun as <- <-. by exists 1.
Qed.

(** C1, as the code has it: when a paginated fetch ends, what it has
    accumulated is the concatenation of the record lists of the pages in the
    order the pages were received, each list in its own order.  Nothing is
    added, dropped or deduplicated.  This holds for the members loop and for
    the file-listing loop, given enough fuel for the pages there are. *)
Theorem fetched_pages_are_concatenated {S Sm}
    (post : S → request → outcome UserFileExport.listing * S)
    (postm : Sm → request → outcome MembersList.members_page * Sm)
    (token : string) (include_removed : bool)
    (headers : gmap string string) (payload : json)
    (wm wm' : world Sm request) (pages : list (list record))
    (w w' : world S request) (listings : list UserFileExport.listing) :
  MembersList.pages_received postm token include_removed wm None pages wm' →
  UserFileExport.listings_received post headers w UserFileExport.url payload listings w' →
  (∀ fuel, length pages ≤ fuel →
     MembersList.fetch_all_members postm fuel token include_removed wm
     = (Ret (concat pages), wm'))
  ∧ (∀ fuel, length listings ≤ Datatypes.S fuel →
       UserFileExport.fetch_entries post fuel headers payload w
       = (Ret (concat ((λ data, default [] (UserFileExport.entries data)) <$> listings)),
          w')).
Proof.
  intros Hpages Hlistings. split.
  - intros fuel Hfuel. unfold MembersList.fetch_all_members.
    by rewrite (fetch_loop_concat postm token include_removed wm None pages wm' Hpages).
  - intros fuel Hfuel.
    by apply (fetch_entries_concat post headers w payload listings w').
Qed.

Lemma fetched_pages_are_concatenated_witness :
  MembersList.fetch_all_members (Mock.scripted Samples.exhausted) 2 "t0ken" false
    Samples.two_pages_world
  = (Ret (concat [[Samples.ada]; [Samples.bob]]),
     snd (MembersList.fetch_all_members (Mock.scripted Samples.exhausted) 2 "t0ken" false
            Samples.two_pages_world))
  ∧ UserFileExport.fetch_entries (Mock.scripted Samples.exhausted) 1 ∅
      (UserFileExport.payload "/docs") Samples.two_listings_world
    = (Ret (concat ((λ data, default [] (UserFileExport.entries data))
                      <$> [Samples.first_body; Samples.last_body])),
       snd (UserFileExport.fetch_entries (Mock.scripted Samples.exhausted) 1 ∅
              (UserFileExport.payload "/docs") Samples.two_listings_world)).
Proof.
  destruct (fetched_pages_are_concatenated
              (Mock.scripted Samples.exhausted) (Mock.scripted Samples.exhausted)
              "t0ken" false ∅ (UserFileExport.payload "/docs")
              Samples.two_pages_world
              (snd (MembersList.fetch_all_members (Mock.scripted Samples.exhausted) 2
                      "t0ken" false Samples.two_pages_world))
              [[Samples.ada]; [Samples.bob]]
              Samples.two_listings_world
              (snd (UserFileExport.fetch_entries (Mock.scripted Samples.exhausted) 1 ∅
                      (UserFileExport.payload "/docs") Samples.two_listings_world))
              [Samples.first_body; Samples.last_body])
    as [Hmembers Hlistings].
  - eapply MembersList.page_next; [vm_compute; reflexivity|].
    eapply MembersList.page_last. vm_compute; reflexivity.
  - eapply UserFileExport.listing_next; [vm_compute; reflexivity|reflexivity|reflexivity|].
    eapply UserFileExport.listing_last; [vm_compute; reflexivity|reflexivity].
  - split; [apply Hmembers; cbn; lia|apply Hlistings; cbn; lia].
Defined.

(** C1 does not hold as stated: when the backend delivers a member on two
    pages, the member is twice in the accumulated list. *)
Lemma repeated_record_is_kept :
  fst (MembersList.fetch_all_members (Mock.scripted Samples.exhausted) 2 "t0ken" false
         Samples.repeating_world)
  = Ret [Samples.ada; Samples.ada]
  ∧ ¬ NoDup [Samples.ada; Samples.ada].
Proof.
  split; [vm_compute; reflexivity|].
  intros Hnodup. apply NoDup_cons in Hnodup as [Hnotin _]. apply Hnotin. left.
Qed.

(** The members script on a team that comes in two pages: one row per
    member, in the order of the pages; the second request carries the cursor
    of the first page. *)
Example members_of_two_pages :
  let run := MembersList.main (Mock.scripted Samples.exhausted) 2 Samples.members_world in
  fst run = Ret ()
  ∧ csv_files (snd run) !! "dropbox_users.csv"
    = Some [JStr <$> MembersList.fields;
            [JStr "dbmid:1"; JNull; JStr "ada@example.org"; JNull; JNull; JNull;
             JStr EmptyString; JNull; JNull];
            [JStr "dbmid:2"; JNull; JStr "bob@example.org"; JNull; JNull; JNull;
             JStr EmptyString; JNull; JNull]]
  ∧ data <$> sent (snd run)
    = [MembersList.request_data true None; MembersList.request_data true (Some "m1")].
Proof. repeat split; vm_compute; reflexivity. Qed.

(** C2: when the first page comes without [has_more], both loops return
    the records of that page, as they are, and send nothing more: the
    members loop has sent its one request without cursor, and the listing
    fetch has sent the requests of its first [make_request] call only, all
    to the listing endpoint, none to the continuation endpoint. *)
Theorem single_page_is_returned {S Sm}
    (post : S → request → outcome UserFileExport.listing * S)
    (postm : Sm → request → outcome MembersList.members_page * Sm)
    (token : string) (include_removed : bool)
    (headers : gmap string string) (payload : json)
    (wm : world Sm request) (rm : response MembersList.members_page)
    (page : MembersList.members_page) (sm : Sm)
    (w w1 : world S request) (r : response UserFileExport.listing)
    (data : UserFileExport.listing) :
  postm (backend wm) (Request MembersList.url (MembersList.headers token)
                        (MembersList.request_data include_removed None) None)
    = (Responds rm, sm) →
  status_code rm = 200%Z →
  json_body rm = Some page →
  default false (MembersList.has_more page) = false →
  UserFileExport.make_request post UserFileExport.url headers payload 3 10 w
    = (Ret (Some r), w1) →
  json_body r = Some data →
  default false (UserFileExport.has_more data) = false →
  (∀ fuel, 1 ≤ fuel →
     MembersList.fetch_all_members postm fuel token include_removed wm
     = (Ret (default [] (MembersList.members page)),
        called (Request MembersList.url (MembersList.headers token)
                  (MembersList.request_data include_removed None) None) sm wm))
  ∧ (∀ fuel,
       UserFileExport.fetch_entries post fuel headers payload w
       = (Ret (default [] (UserFileExport.entries data)), w1))
  ∧ (∃ n, sent w1 = sent w ++ replicate n (Request UserFileExport.url headers payload
                                             (Some 10%Z))).
Proof.
  intros Hpost Hstatus Hbody Hlast Hrun Hdata Hlast'. split; [|split].
  - intros fuel Hfuel. destruct fuel as [|fuel]; [lia|].
    unfold MembersList.fetch_all_members. cbn [MembersList.fetch_loop].
    unfold bind at 1, MembersList.get_members, bind at 1, call.
    rewrite Hpost. unfold bind at 1, ret at 1. rewrite Hstatus.
    cbn [bool_decide decide_rel]. rewrite bool_decide_eq_false_2 by (intros H; by apply H).
    unfold bind, response_json. rewrite Hbody. unfold ret at 1 2. rewrite Hlast.
    destruct fuel; reflexivity.
  - intros fuel. unfold UserFileExport.fetch_entries.
    rewrite (bind_returns _ _ _ _ _ Hrun).
    unfold bind, UserFileExport.decode, try_except, response_json. rewrite Hdata.
    unfold ret at 1. by apply pagination_loop_done.
  - by apply (make_request_sends_copies post UserFileExport.url headers payload 3 10
                (seq 0 (Z.to_nat 3)) w (Ret (Some r)) w1).
Qed.

Lemma single_page_is_returned_witness :
  (∀ fuel, 1 ≤ fuel →
     MembersList.fetch_all_members (Mock.scripted Samples.exhausted) fuel "t0ken" true
       Samples.one_page_world
     = (Ret (default [] (MembersList.members
                           (MembersList.MembersPage (Some [Samples.bob]) (Some "m2")
                              (Some false)))),
        called (Request MembersList.url (MembersList.headers "t0ken")
                  (MembersList.request_data true None) None)
          [Responds Samples.members_first] Samples.one_page_world))
  ∧ (∀ fuel,
       UserFileExport.fetch_entries (Mock.scripted Samples.exhausted) fuel ∅
         (UserFileExport.payload "/docs") Samples.flaky_world
       = (Ret (default [] (UserFileExport.entries Samples.last_body)),
          snd (UserFileExport.make_request (Mock.scripted Samples.exhausted)
                 UserFileExport.url ∅ (UserFileExport.payload "/docs") 3 10
                 Samples.flaky_world)))
  ∧ (∃ n, sent (snd (UserFileExport.make_request (Mock.scripted Samples.exhausted)
                       UserFileExport.url ∅ (UserFileExport.payload "/docs") 3 10
                       Samples.flaky_world))
          = sent Samples.flaky_world
            ++ replicate n (Request UserFileExport.url ∅ (UserFileExport.payload "/docs")
                              (Some 10%Z))).
Proof.
  apply (single_page_is_returned (Mock.scripted Samples.exhausted)
           (Mock.scripted Samples.exhausted) "t0ken" true ∅ (UserFileExport.payload "/docs")
           Samples.one_page_world Samples.members_last
           (MembersList.MembersPage (Some [Samples.bob]) (Some "m2") (Some false))
           [Responds Samples.members_first]
           Samples.flaky_world
           (snd (UserFileExport.make_request (Mock.scripted Samples.exhausted)
                   UserFileExport.url ∅ (UserFileExport.payload "/docs") 3 10
                   Samples.flaky_world))
           Samples.last_listing Samples.last_body).
  - reflexivity.
  - reflexivity.
  - reflexivity.
  - reflexivity.
  - vm_compute; reflexivity.
  - reflexivity.
  - reflexivity.
Defined.

End PaginationProofs.

(** ** The token file *)

Module TokenProofs.
Import Py MonadFacts.

Lemma search_account_missing_token {S} (serve : S → Sdk.search_call → Sdk.search_outcome * S)
    (home : string) (sdk : Sdk.library) (fuel : nat) (w : world S Sdk.search_call) path rest :
  stdin w = path :: rest →
  files w !! path = None →
  SearchAccount.script serve home sdk fuel w
  = (Exit 1, printed ("Error: The file " +:+ path +:+ " was not found.")
               (typed rest (printed "Enter the path to the Dropbox token file: " w))).
Proof.
  intros Hin Hfile. destruct w as [s sn sl si so fs js cs]. cbn in Hin, Hfile. subst si.
  unfold SearchAccount.script, SearchAccount.read_token.
  unfold bind at 1, input at 1. cbn [stdin typed printed].
  unfold bind at 1, try_except, bind at 1, read_file. cbn [files typed printed].
  by rewrite Hfile.
Qed.

Lemma search_list_ids_missing_token {S}
    (serve : S → Sdk.search_call → Sdk.search_outcome * S) (home : string)
    (dict_reader : string → list (gmap string string)) (sdk : Sdk.library) (fuel : nat)
    (w : world S Sdk.search_call) path rest :
  stdin w = path :: rest →
  files w !! path = None →
  SearchListIds.script serve home dict_reader sdk fuel w
  = (Exit 1, printed ("Error: The file " +:+ path +:+ " was not found.")
               (typed rest (printed "Enter the path to the Dropbox token file: " w))).
Proof.
  intros Hin Hfile. destruct w as [s sn sl si so fs js cs]. cbn in Hin, Hfile. subst si.
  unfold SearchListIds.script, SearchListIds.read_token.
  unfold bind at 1, input at 1. cbn [stdin typed printed].
  unfold bind at 1, try_except, bind at 1, read_file. cbn [files typed printed].
  by rewrite Hfile.
Qed.

Lemma user_file_export_missing_token {S}
    (post : S → request → outcome UserFileExport.listing * S) (home : string) (fuel : nat)
    (w : world S request) user path rest :
  stdin w = user :: path :: rest →
  files w !! path = None →
  UserFileExport.script post home fuel w
  = (Exit 1, printed ("Error: The file " +:+ path +:+ " was not found.")
               (typed rest (printed "Enter the path to the Dropbox token file: "
                              (printed "Enter the Dropbox user: " w)))).
Proof.
  intros Hin Hfile. destruct w as [s sn sl si so fs js cs]. cbn in Hin, Hfile. subst si.
  unfold UserFileExport.script, UserFileExport.read_token.
  unfold bind at 1, input at 1. cbn [stdin typed printed].
  unfold bind at 1, input at 1. cbn [stdin typed printed].
  unfold bind at 1, try_except, bind at 1, read_file. cbn [files typed printed].
  by rewrite Hfile.
Qed.

(** C6 fails for the members script: when the token file does not exist,
    [main] prints the same line as the other three scripts but then
    returns, so the interpreter ends the run with status 0.  The other
    three scripts call [exit(1)]. *)
Theorem members_main_missing_token {S}
    (post : S → request → outcome MembersList.members_page * S) (fuel : nat)
    (w : world S request) (path : string) (rest : list string) :
  stdin w = path :: rest →
  files w !! path = None →
  MembersList.main post fuel w
  = (Ret (), printed ("Error: The file " +:+ path +:+ " was not found.")
               (typed rest
                  (printed "Please enter the path to the Dropbox token file: " w)))
  ∧ exit_status (fst (MembersList.main post fuel w)) = Some 0%Z.
Proof.
  intros Hin Hfile.
  assert (MembersList.main post fuel w
          = (Ret (), printed ("Error: The file " +:+ path +:+ " was not found.")
                       (typed rest
                          (printed "Please enter the path to the Dropbox token file: " w))))
    as Hrun.
  { destruct w as [s sn sl si so fs js cs]. cbn in Hin, Hfile. subst si.
    unfold MembersList.main, MembersList.read_token.
    unfold bind at 1, input at 1. cbn [stdin typed printed].
    unfold bind at 1, try_except, bind at 1, read_file. cbn [files typed printed].
    by rewrite Hfile. }
  split; [exact Hrun|]. by rewrite Hrun.
Qed.

Lemma members_main_missing_token_witness :
  MembersList.main (Mock.scripted Samples.exhausted) 3 Samples.no_token_world
  = (Ret (), printed ("Error: The file " +:+ "/home/ada/token.txt" +:+ " was not found.")
               (typed []
                  (printed "Please enter the path to the Dropbox token file: "
                     Samples.no_token_world)))
  ∧ exit_status (fst (MembersList.main (Mock.scripted Samples.exhausted) 3
                        Samples.no_token_world)) = Some 0%Z.
Proof.
  apply (members_main_missing_token (Mock.scripted Samples.exhausted) 3
           Samples.no_token_world "/home/ada/token.txt" []); reflexivity.
Defined.

End TokenProofs.

(** ** The exports of [dbox_user_file_export.py] *)

Module ExportProofs.
Import Py MonadFacts UserFileExport.

(** The keys collected by the loop over the entries. *)
Lemma elem_of_collected_keys (entries : list record) : ∀ (acc : gset string) key,
  key ∈ foldl (λ (acc : gset string) (entry : record), acc ∪ dom entry) acc entries
  ↔ key ∈ acc ∨ ∃ entry, entry ∈ entries ∧ is_Some (entry !! key).
Proof.
  induction entries as [|entry entries IH]; intros acc key; cbn.
  - split; [by left|]. intros [H|(entry & H & _)]; [done|]. by apply elem_of_nil in H.
  - rewrite IH, elem_of_union, elem_of_dom. split.
    + intros [[H|H]|(entry' & Hin & H)].
      * by left.
      * right. exists entry. split; [left|done].
      * right. exists entry'. split; [by right|done].
    + intros [H|(entry' & Hin & H)].
      * left. by left.
      * apply elem_of_cons in Hin as [->|Hin].
        -- left. by right.
        -- right. by exists entry'.
Qed.

Lemma elem_of_csv_headers (entries : list record) key :
  key ∈ csv_headers entries ↔ ∃ entry, entry ∈ entries ∧ is_Some (entry !! key).
Proof.
  unfold csv_headers. etrans; [apply elem_of_elements|].
  rewrite elem_of_collected_keys.
  split; [|by right]. intros [H|H]; [|done]. by apply elem_of_empty in H.
Qed.

Lemma NoDup_csv_headers (entries : list record) : NoDup (csv_headers entries).
Proof. unfold csv_headers. apply NoDup_elements. Qed.

(** An entry has no key outside the header computed from a list it is in,
    so [DictWriter] accepts it. *)
Lemma dict_to_list_accepts (entries : list record) (entry : record) :
  entry ∈ entries →
  dict_to_list (csv_headers entries) entry
  = Ret ((λ key, default (JStr EmptyString) (entry !! key)) <$> csv_headers entries).
Proof.
  intros Hin. unfold dict_to_list. rewrite bool_decide_eq_true_2; [done|].
  intros key Hkey. apply elem_of_list_to_set, elem_of_csv_headers.
  exists entry. split; [done|]. by apply elem_of_dom.
Qed.

Section Exports.
Context {S : Type}.
Variable home : string.
Implicit Type w : world S request.

(** The row of an entry under a header. *)
Let row (fieldnames : list string) (entry : record) : list json :=
  (λ key, default (JStr EmptyString) (entry !! key)) <$> fieldnames.

Lemma write_rows_appends fieldnames (entries : list record) : ∀ w,
  (∀ entry, entry ∈ entries → dict_to_list fieldnames entry = Ret (row fieldnames entry)) →
  ∃ w', write_rows home fieldnames entries w = (Ret (), w')
    ∧ rows_of (csv_file home) w' = rows_of (csv_file home) w ++ (row fieldnames <$> entries)
    ∧ json_files w' = json_files w.
Proof.
  induction entries as [|entry entries IH]; intros w Hok.
  - exists w. cbn. by rewrite app_nil_r.
  - cbn [write_rows]. rewrite (Hok entry) by left.
    unfold bind at 1, csv_writerow.
    destruct (IH (with_csv (<[csv_file home := rows_of (csv_file home) w
                                               ++ [row fieldnames entry]]> (csv_files w)) w))
      as (w' & Hrun & Hrows & Hjson).
    { intros e He. apply Hok. by right. }
    exists w'. split; [exact Hrun|]. rewrite Hrows, Hjson.
    unfold rows_of at 1. cbn. rewrite lookup_insert_eq. cbn.
    by rewrite <- app_assoc.
Qed.

(** What the two exports leave in the files. *)
Lemma export_writes (entries : list record) w :
  ∃ w', export home entries w = (Ret (), w')
    ∧ json_files w' !! json_export_location home = Some (JList (JDict <$> entries))
    ∧ csv_files w' !! csv_file home
      = Some ((JStr <$> csv_headers entries)
              :: (row (csv_headers entries) <$> entries)).
Proof.
  unfold export.
  unfold bind at 1, json_dump. unfold bind at 1, csv_open.
  unfold bind at 1, csv_writerow.
  set (w1 := with_csv _ (with_csv _ (with_json _ w))).
  destruct (write_rows_appends (csv_headers entries) entries w1)
    as (w' & Hrun & Hrows & Hjson).
  { intros entry Hin. by apply dict_to_list_accepts. }
  unfold bind at 1. rewrite Hrun. unfold print.
  eexists. split; [reflexivity|]. cbn. rewrite Hjson. subst w1. cbn.
  split; [by rewrite lookup_insert_eq|].
  unfold rows_of in Hrows. cbn in Hrows.
  rewrite !lookup_insert_eq in Hrows. cbn in Hrows.
  destruct (csv_files w' !! csv_file home) as [rows|] eqn:Hfile; cbn in Hrows.
  - by rewrite Hrows.
  - done.
Qed.
End Exports.

(** C8: whatever the entries are, the CSV export succeeds and leaves a file
    whose first row is a header holding every key that occurs in some entry,
    each once, and nothing else; then comes one row per entry, in the order
    of the entries; the cell of a row under a key is the value the entry has
    for the key, and the empty string when the entry lacks the key. *)
Theorem csv_export_header_and_rows {S} (home : string) (entries : list record)
    (w : world S request) :
  ∃ w' header rows,
    export home entries w = (Ret (), w')
    ∧ csv_files w' !! csv_file home = Some ((JStr <$> header) :: rows)
    ∧ NoDup header
    ∧ (∀ key, key ∈ header ↔ ∃ entry, entry ∈ entries ∧ is_Some (entry !! key))
    ∧ length rows = length entries
    ∧ (∀ i j entry key,
         entries !! i = Some entry → header !! j = Some key →
         ∃ row, rows !! i = Some row
           ∧ length row = length header
           ∧ row !! j = Some match entry !! key with
                             | Some value => value
                             | None => JStr EmptyString
                             end).
Proof.
  destruct (export_writes home entries w) as (w' & Hrun & _ & Hcsv).
  exists w', (csv_headers entries). eexists.
  split; [exact Hrun|]. split; [exact Hcsv|].
  split; [apply NoDup_csv_headers|]. split; [apply elem_of_csv_headers|].
  split; [by rewrite length_fmap|].
  intros i j entry key Hi Hj. eexists. rewrite list_lookup_fmap, Hi. cbn.
  split; [reflexivity|]. rewrite length_fmap. split; [reflexivity|].
  rewrite list_lookup_fmap, Hj. cbn. by destruct (entry !! key).
Qed.

(** C10: the script hands the entries it has accumulated to both exports.
    The JSON file is the array of these entries in their order, the CSV file
    has, below its header, one row per entry in the same order, so the array
    is as long as the CSV has data rows. *)
Theorem exports_share_the_entries {S} (post : S → request → outcome listing * S)
    (home : string) (fuel : nat) (w0 w : world S request)
    (user path folder token_text : string) (rest : list string)
    (entries : list record) :
  stdin w0 = user :: path :: folder :: rest →
  files w0 !! path = Some token_text →
  fetch_entries post fuel (headers user (strip token_text)) (payload folder)
    (inputs_read rest w0) = (Ret entries, w) →
  ∃ w' rows,
    script post home fuel w0 = (Ret (), w')
    ∧ json_files w' !! json_export_location home = Some (JList (JDict <$> entries))
    ∧ csv_files w' !! csv_file home = Some ((JStr <$> csv_headers entries) :: rows)
    ∧ (∀ i entry, entries !! i = Some entry →
         rows !! i = Some ((λ key, default (JStr EmptyString) (entry !! key))
                             <$> csv_headers entries))
    ∧ length rows = length entries
    ∧ length (JDict <$> entries) = length rows.
Proof.
  intros Hin Hfile Hfetch.
  rewrite (RetryProofs.script_reads_inputs post home fuel w0 user path folder rest
             token_text Hin Hfile).
  rewrite (bind_returns _ _ _ _ _ Hfetch).
  destruct (export_writes home entries w) as (w' & Hrun & Hjson & Hcsv).
  exists w'. eexists. split; [exact Hrun|]. split; [exact Hjson|]. split; [exact Hcsv|].
  split; [|by rewrite !length_fmap].
  intros i entry Hi. by rewrite list_lookup_fmap, Hi.
Qed.

Lemma exports_share_the_entries_witness :
  ∃ w' rows,
    script (Mock.scripted Samples.exhausted) "/home/ada" 1 Samples.export_world
    = (Ret (), w')
    ∧ json_files w' !! json_export_location "/home/ada"
      = Some (JList (JDict <$> [Samples.file_c; Samples.file_a; Samples.file_b]))
    ∧ csv_files w' !! csv_file "/home/ada"
      = Some ((JStr <$> csv_headers [Samples.file_c; Samples.file_a; Samples.file_b])
              :: rows)
    ∧ (∀ i entry, [Samples.file_c; Samples.file_a; Samples.file_b] !! i = Some entry →
         rows !! i = Some ((λ key, default (JStr EmptyString) (entry !! key))
                             <$> csv_headers [Samples.file_c; Samples.file_a;
                                              Samples.file_b]))
    ∧ length rows = length [Samples.file_c; Samples.file_a; Samples.file_b]
    ∧ length (JDict <$> [Samples.file_c; Samples.file_a; Samples.file_b]) = length rows.
Proof.
  apply (exports_share_the_entries (Mock.scripted Samples.exhausted) "/home/ada" 1
           Samples.export_world
           (snd (fetch_entries (Mock.scripted Samples.exhausted) 1
                   (headers "dbmid:1" (strip " sl.t0ken ")) (payload "/docs")
                   (inputs_read [] Samples.export_world)))
           "dbmid:1" "/home/ada/token.txt" "/docs" " sl.t0ken " []).
  - reflexivity.
  - reflexivity.
  - vm_compute; reflexivity.
Defined.

(** The export script on a folder that comes in two pages: the header is
    the union of the keys, a missing field is an empty cell. *)
Example export_of_two_pages :
  let w' := snd (script (Mock.scripted Samples.exhausted) "/home/ada" 1
                   Samples.export_world) in
  csv_files w' !! csv_file "/home/ada"
  = Some [[JStr "size"; JStr "name"; JStr ".tag"];
          [JStr EmptyString; JStr "c.txt"; JStr "file"];
          [JStr EmptyString; JStr "a.txt"; JStr EmptyString];
          [JNum 7; JStr "b.txt"; JStr EmptyString]]
  ∧ stdout w'
    = ["Enter the Dropbox user: "; "Enter the path to the Dropbox token file: ";
       "Enter the path of the Dropbox folder (leave blank for root): ";
       "Attempt 1 failed: Read timed out.";
       "Data exported to /home/ada/Desktop/merged_data.csv and /home/ada/Desktop/merged_data.json."].
Proof. split; vm_compute; reflexivity. Qed.

End ExportProofs.

(** ** The recursive search *)

Module SearchProofs.
Import Py MonadFacts Sdk.

Section Appends.
Context {S Req : Type}.
Variables (R : list json → Prop) (C : Req → Prop) (path : string).
Implicit Type w : world S Req.

Lemma appends_nothing {A} (r : res A) w : appends R C path w (r, w).
Proof. exists [], []. cbn. by rewrite !app_nil_r. Qed.

Lemma appends_then {A B} w (r1 : res A) w1 (result : res B * world S Req) :
  appends R C path w (r1, w1) → appends R C path w1 result → appends R C path w result.
Proof.
  intros (rows1 & calls1 & Hr1 & Hc1 & HR1 & HC1) (rows2 & calls2 & Hr2 & Hc2 & HR2 & HC2).
  cbn in Hr1, Hc1. exists (rows1 ++ rows2), (calls1 ++ calls2).
  rewrite Hr2, Hc2, Hr1, Hc1, <- !app_assoc.
  repeat split; try done; by apply Forall_app.
Qed.

Lemma appends_bind {A B} (c : M S Req A) (k : A → M S Req B) w :
  appends R C path w (c w) →
  (∀ a w1, c w = (Ret a, w1) → appends R C path w1 (k a w1)) →
  appends R C path w (bind c k w).
Proof.
  intros Hc Hk. unfold bind. destruct (c w) as [[a|e|code|] w1] eqn:E.
  - apply (appends_then w (Ret a) w1); [exact Hc|]. by apply Hk.
  - exact Hc.
  - exact Hc.
  - exact Hc.
Qed.

Lemma appends_for_each {A} (body : A → M S Req unit) (items : list A) : ∀ w,
  (∀ item w1, item ∈ items → appends R C path w1 (body item w1)) →
  appends R C path w (for_each body items w).
Proof.
  induction items as [|item rest IH]; intros w Hbody.
  - apply appends_nothing.
  - cbn [for_each]. apply appends_bind.
    + apply Hbody. left.
    + intros _ w1 _. apply IH. intros item' w2 Hin. apply Hbody. by right.
Qed.

Lemma appends_call {Out} (serve : S → Req → Out * S) (rq : Req) w :
  C rq → appends R C path w (call serve rq w).
Proof.
  intros HC. unfold call. destruct (serve (backend w) rq) as [out s1].
  exists [], [rq]. cbn. rewrite app_nil_r. repeat split; try done. by constructor.
Qed.

Lemma appends_writerow (row : list json) w :
  R row → appends R C path w (csv_writerow path row w).
Proof.
  intros HR. exists [row], []. unfold csv_writerow, rows_of. cbn.
  rewrite lookup_insert_eq, app_nil_r. repeat split; try done. by constructor.
Qed.
End Appends.

Section ListIds.
Import SearchListIds.
Context {S : Type} (serve : S → search_call → search_outcome * S).
Variables (home : string) (search_query : string).

(** Whatever a search for [dbmid] ends with: when the backend answers the
    calls of the client with entries that satisfy [P] only, every row written
    is the row of such an entry, and of one that is not a folder, with
    [dbmid] as third field; and the calls were made with the headers of the
    client. *)
Lemma search_for_member_appends (P : metadata → Prop) (dbmid csv_writer : string)
    (dbx : client) :
  (∀ s c matches s',
     made_by dbx c → serve s c = (Matches matches, s') → Forall P matches) →
  ∀ fuel folder_path w,
    appends (is_member_row_of P dbmid) (made_by dbx) csv_writer w
      (search_files_recursively serve fuel folder_path csv_writer dbx search_query dbmid w).
Proof.
  intros Hserve. induction fuel as [|fuel IH]; intros folder_path w.
  - apply appends_nothing.
  - cbn [search_files_recursively]. apply appends_bind.
    + unfold files_search. apply appends_bind.
      * by apply appends_call.
      * intros [matches|e] w1 _; apply appends_nothing.
    + intros results w1 Hcall.
      assert (Forall P results) as HP.
      { unfold files_search, bind, call in Hcall.
        destruct (serve (backend w) _) as [[matches|e] s1] eqn:Hs; cbn in Hcall; [|done].
        injection Hcall as <- _. eapply Hserve; [|exact Hs]. by split. }
      apply appends_for_each. intros entry w2 Hin.
      destruct (is_FolderMetadata entry) eqn:Hfolder.
      * apply IH.
      * apply appends_writerow. exists entry. split; [|done].
        by apply (proj1 (Forall_forall _ _) HP).
Qed.

Lemma made_by_selected (dbx : client) (dbmid : string) (c : search_call) :
  made_by (set_header dbx "Dropbox-API-Select-User" dbmid) c → made_for dbmid c.
Proof. intros [_ H]. unfold made_for. rewrite H. cbn. apply lookup_insert_eq. Qed.
End ListIds.

(** C9: no row is attributed to the wrong account.  Let the backend answer
    a call made for a member, that is with the [Dropbox-API-Select-User]
    header set to the member's id, only with entries found for that member.
    The loop over the member ids then writes its rows, and makes its calls,
    in one segment per member id, in the order of the list (a run that ends
    early leaves segments for the first ids only).  Every row of the segment
    of an id is the name and the path of an entry found for that id, and of
    no folder, followed by that id, and every call of the segment was made
    for that id. *)
Theorem rows_carry_their_member_id {S} (serve : S → search_call → search_outcome * S)
    (home : string) (fuel : nat) (search_query : string) (dbmid_list : list string)
    (found_for : string → metadata → Prop) (dbx : client) (w : world S search_call) :
  (∀ s c matches s' dbmid,
     made_for dbmid c → serve s c = (Matches matches, s') →
     Forall (found_for dbmid) matches) →
  ∃ segments : list (list (list json) * list search_call),
    rows_of (SearchListIds.csv_path home)
      (snd (SearchListIds.for_dbmids serve home fuel dbmid_list dbx search_query w))
    = rows_of (SearchListIds.csv_path home) w ++ concat (fst <$> segments)
    ∧ sent (snd (SearchListIds.for_dbmids serve home fuel dbmid_list dbx search_query w))
      = sent w ++ concat (snd <$> segments)
    ∧ length segments ≤ length dbmid_list
    ∧ (fst (SearchListIds.for_dbmids serve home fuel dbmid_list dbx search_query w) = Ret ()
       → length segments = length dbmid_list)
    ∧ (∀ i dbmid rows calls,
         dbmid_list !! i = Some dbmid → segments !! i = Some (rows, calls) →
         Forall (is_member_row_of (found_for dbmid) dbmid) rows
         ∧ Forall (made_for dbmid) calls).
Proof.
  intros Hserve. revert dbx w.
  induction dbmid_list as [|dbmid rest IH]; intros dbx w.
  - exists []. cbn. rewrite !app_nil_r. repeat split; done.
  - cbn [SearchListIds.for_dbmids].
    set (dbx' := set_header dbx "Dropbox-API-Select-User" dbmid).
    destruct (search_for_member_appends serve search_query (found_for dbmid) dbmid
                (SearchListIds.csv_path home) dbx') with (fuel := fuel)
                (folder_path := EmptyString) (w := w)
      as (rows1 & calls1 & Hrows1 & Hcalls1 & HR1 & HC1).
    { intros s c matches s' Hby. apply Hserve. by apply (made_by_selected dbx). }
    assert (Forall (made_for dbmid) calls1) as HC1'.
    { eapply Forall_impl; [exact HC1|]. intros c. apply made_by_selected. }
    unfold bind.
    destruct (SearchListIds.search_files_recursively serve fuel EmptyString
                (SearchListIds.csv_path home) dbx' search_query dbmid w)
      as [[[]|e|code|] w1] eqn:Hsearch; cbn in Hrows1, Hcalls1.
    + destruct (IH dbx' w1) as (segments & Hrows & Hcalls & Hlen & Hall & Hseg).
      exists ((rows1, calls1) :: segments). cbn.
      rewrite Hrows, Hcalls, Hrows1, Hcalls1, <- !app_assoc.
      split; [done|]. split; [done|]. split; [lia|]. split.
      * intros Hret. by rewrite (Hall Hret).
      * intros [|i] dbmid' rows calls Hi Hs; cbn in Hi, Hs.
        -- injection Hi as <-. by injection Hs as <- <-.
        -- by apply (Hseg i).
    + exists [(rows1, calls1)]. cbn. rewrite !app_nil_r.
      split; [done|]. split; [done|]. split; [lia|]. split; [done|].
      intros [|i] dbmid' rows calls Hi Hs; cbn in Hi, Hs.
      * injection Hi as <-. by injection Hs as <- <-.
      * done.
    + exists [(rows1, calls1)]. cbn. rewrite !app_nil_r.
      split; [done|]. split; [done|]. split; [lia|]. split; [done|].
      intros [|i] dbmid' rows calls Hi Hs; cbn in Hi, Hs.
      * injection Hi as <-. by injection Hs as <- <-.
      * done.
    + exists [(rows1, calls1)]. cbn. rewrite !app_nil_r.
      split; [done|]. split; [done|]. split; [lia|]. split; [done|].
      intros [|i] dbmid' rows calls Hi Hs; cbn in Hi, Hs.
      * injection Hi as <-. by injection Hs as <- <-.
      * done.
Qed.

(** The backend of a team answers a call made for a member with entries of
    that member's account. *)
Lemma search_team_in_account (name_matches : string → string → bool)
    (accounts : gmap string (list Namespace.node)) s c matches s' dbmid :
  made_for dbmid c →
  Namespace.search_team name_matches accounts s c = (Matches matches, s') →
  Forall (Namespace.in_account accounts dbmid) matches.
Proof.
  unfold made_for, Namespace.search_team. intros -> Hserve.
  destruct (accounts !! dbmid) as [tree|] eqn:Htree; [|done].
  injection Hserve as <- _. apply Forall_forall. intros entry Hin.
  apply list_elem_of_In in Hin. unfold Namespace.search_matches in Hin.
  apply filter_In in Hin as [Hin _]. by exists tree.
Qed.

Lemma rows_carry_their_member_id_witness :
  ∃ segments : list (list (list json) * list search_call),
    rows_of (SearchListIds.csv_path "/home/ada")
      (snd (SearchListIds.for_dbmids
              (Namespace.search_team Namespace.name_contains Samples.team) "/home/ada" 4
              ["dbmid:1"; "dbmid:2"] Samples.new_dbx "txt" Samples.team_world))
    = rows_of (SearchListIds.csv_path "/home/ada") Samples.team_world
      ++ concat (fst <$> segments)
    ∧ sent (snd (SearchListIds.for_dbmids
                   (Namespace.search_team Namespace.name_contains Samples.team)
                   "/home/ada" 4 ["dbmid:1"; "dbmid:2"] Samples.new_dbx "txt"
                   Samples.team_world))
      = sent Samples.team_world ++ concat (snd <$> segments)
    ∧ length segments ≤ length ["dbmid:1"; "dbmid:2"]
    ∧ (fst (SearchListIds.for_dbmids
              (Namespace.search_team Namespace.name_contains Samples.team) "/home/ada" 4
              ["dbmid:1"; "dbmid:2"] Samples.new_dbx "txt" Samples.team_world) = Ret ()
       → length segments = length ["dbmid:1"; "dbmid:2"])
    ∧ (∀ i dbmid rows calls,
         ["dbmid:1"; "dbmid:2"] !! i = Some dbmid → segments !! i = Some (rows, calls) →
         Forall (is_member_row_of (Namespace.in_account Samples.team dbmid) dbmid) rows
         ∧ Forall (made_for dbmid) calls).
Proof.
  apply (rows_carry_their_member_id
           (Namespace.search_team Namespace.name_contains Samples.team) "/home/ada" 4
           "txt" ["dbmid:1"; "dbmid:2"] (Namespace.in_account Samples.team)
           Samples.new_dbx Samples.team_world).
  intros s c matches s' dbmid.
  apply (search_team_in_account Namespace.name_contains Samples.team).
Defined.

(** *** Paths of a tree *)

Section Paths.
Import Namespace.

Lemma append_assoc (a b c : string) : (a +:+ b) +:+ c = a +:+ (b +:+ c).
Proof. induction a as [|x a IH]; [done|]. change (String x ((a +:+ b) +:+ c) = String x (a +:+ (b +:+ c))). by f_equal. Qed.

Lemma remainder_append (start rest : string) : remainder start (start +:+ rest) = Some rest.
Proof.
  induction start as [|x start IH]; [done|].
  change (remainder (String x start) (String x (start +:+ rest)) = Some rest).
  cbn [remainder]. by rewrite Ascii.eqb_refl.
Qed.

(** Induction on a tree, the children of a folder included. *)
Lemma node_induction (P : node → Prop) :
  (∀ nm, P (File nm)) →
  (∀ nm children, Forall P children → P (Folder nm children)) →
  ∀ n, P n.
Proof.
  intros Hfile Hfolder. fix IH 1. intros [nm|nm children].
  - apply Hfile.
  - apply Hfolder. induction children as [|child children IHc]; constructor.
    + apply IH.
    + exact IHc.
Qed.

(** Every entry of a tree lies below the folder the tree hangs in. *)
Lemma flatten_below (n : node) : ∀ parent entry,
  In entry (flatten parent n) → ∃ rest, path_lower entry = parent +:+ "/" +:+ rest.
Proof.
  induction n as [nm|nm children IH] using node_induction; intros parent entry Hin.
  - destruct Hin as [<-|[]]. by eexists.
  - destruct Hin as [<-|Hin]; [by eexists|].
    apply in_flat_map in Hin as (child & Hchild & Hin).
    rewrite Forall_forall in IH.
    destruct (IH child (proj2 (list_elem_of_In _ _) Hchild) _ _ Hin) as (rest & ->).
    exists (lower nm +:+ "/" +:+ rest). by rewrite append_assoc.
Qed.

Lemma namespace_under_root (tree : list node) (entry : metadata) :
  In entry (namespace tree) → is_under EmptyString (path_lower entry) = true.
Proof.
  intros Hin. apply in_flat_map in Hin as (n & _ & Hin).
  apply flatten_below in Hin as (rest & ->).
  unfold is_under. by rewrite <- append_assoc, remainder_append.
Qed.

Lemma matched_entry name_matches tree folder_path query entry :
  In entry (search_matches name_matches tree folder_path query) →
  In entry (namespace tree) ∧ name_matches query (name entry) = true.
Proof.
  unfold search_matches. rewrite filter_In. intros [Hin Hm].
  apply andb_true_iff in Hm as [_ Hm]. by split.
Qed.

End Paths.

(** *** The single-account search *)

Section Account.
Import SearchAccount Namespace.
Context {S : Type} (serve : S → search_call → search_outcome * S).
Variables (csv_writer : string) (dbx : client) (search_query : string).

(** Whatever the backend and however the search ends: when the backend
    answers the query with entries that satisfy [P] only, every row written
    is the row of such an entry, and of one that is not a folder. *)
Lemma search_account_appends (P : metadata → Prop) :
  (∀ s c matches s',
     call_query c = search_query → serve s c = (Matches matches, s') → Forall P matches) →
  ∀ fuel folder_path w,
    appends (is_row_of P) (made_by dbx) csv_writer w
      (search_files_recursively serve fuel folder_path csv_writer dbx search_query w).
Proof.
  intros Hserve. induction fuel as [|fuel IH]; intros folder_path w.
  - apply appends_nothing.
  - cbn [search_files_recursively]. apply appends_bind.
    + unfold files_search. apply appends_bind.
      * by apply appends_call.
      * intros [matches|e] w1 _; apply appends_nothing.
    + intros results w1 Hcall.
      assert (Forall P results) as HP.
      { unfold files_search, bind, call in Hcall.
        destruct (serve (backend w) _) as [[matches|e] s1] eqn:Hs; cbn in Hcall; [|done].
        injection Hcall as <- _. eapply Hserve; [|exact Hs]. reflexivity. }
      apply appends_for_each. intros entry w2 Hin.
      destruct (is_FolderMetadata entry) eqn:Hfolder.
      * apply IH.
      * apply appends_writerow. exists entry. split; [|done].
        by apply (proj1 (Forall_forall _ _) HP).
Qed.
End Account.

(** The tree [a.txt], [b/c.txt] searched for [txt]: two rows, one per file,
    and none for the folder [b]. *)
Example search_of_small_tree :
  rows_of Samples.search_csv
    (snd (SearchAccount.export_files_to_csv
            (Namespace.search_subtree Namespace.name_contains Samples.small_tree)
            "/home/ada" Samples.sdk 4 "sl.t0ken" "dbmid:1" "txt" Samples.search_world))
  = [[JStr "File Name"; JStr "Path"];
     [JStr "a.txt"; JStr "/a.txt"];
     [JStr "c.txt"; JStr "/b/c.txt"]].
Proof. vm_compute. reflexivity. Qed.

(** C7 does not hold as stated.  In the tree [a.txt], [b/c.txt],
    [txt/d.txt] the query [txt] matches the three files and the folder
    [txt].  The search from the root writes [d.txt], which the backend
    returns for the root already, a second time when it recurses into the
    folder.  (And with a backend that looked at the searched folder only,
    [b/c.txt] would not be written at all, the folder [b] not being a
    match.) *)
Lemma file_in_matched_folder_written_twice :
  In (FileMetadata "a.txt" "/a.txt") (Namespace.namespace Samples.txt_tree)
  ∧ In (FileMetadata "c.txt" "/b/c.txt") (Namespace.namespace Samples.txt_tree)
  ∧ Namespace.name_contains "txt" "a.txt" = true
  ∧ Namespace.name_contains "txt" "c.txt" = true
  ∧ fst (SearchAccount.search_files_recursively
           (Namespace.search_subtree Namespace.name_contains Samples.txt_tree) 3
           EmptyString Samples.search_csv Samples.dbx "txt" Samples.search_world)
    = Ret ()
  ∧ rows_of Samples.search_csv
      (snd (SearchAccount.search_files_recursively
              (Namespace.search_subtree Namespace.name_contains Samples.txt_tree) 3
              EmptyString Samples.search_csv Samples.dbx "txt" Samples.search_world))
    = [[JStr "a.txt"; JStr "/a.txt"];
       [JStr "c.txt"; JStr "/b/c.txt"];
       [JStr "d.txt"; JStr "/txt/d.txt"];
       [JStr "d.txt"; JStr "/txt/d.txt"]]
  ∧ rows_of Samples.search_csv
      (snd (SearchAccount.search_files_recursively
              (Namespace.search_children Namespace.name_contains Samples.small_tree) 3
              EmptyString Samples.search_csv Samples.dbx "txt" Samples.search_world))
    = [[JStr "a.txt"; JStr "/a.txt"]].
Proof.
  split; [by left|]. split; [right; right; by left|].
  repeat split; vm_compute; reflexivity.
Qed.

(** The multi-account script on a team of two: the rows of each account
    carry its member id. *)
Example search_of_a_team :
  rows_of Samples.search_csv
    (snd (SearchListIds.export_files_to_csv
            (Namespace.search_team Namespace.name_contains Samples.team)
            "/home/ada" Samples.ids_reader Samples.sdk 4 "sl.t0ken" "ids.csv" "txt"
            Samples.team_world))
  = [[JStr "File Name"; JStr "Path"; JStr "Dropbox ID"];
     [JStr "a.txt"; JStr "/a.txt"; JStr "dbmid:1"];
     [JStr "c.txt"; JStr "/b/c.txt"; JStr "dbmid:1"];
     [JStr "Plan.TXT"; JStr "/notes/plan.txt"; JStr "dbmid:2"]].
Proof. vm_compute. reflexivity. Qed.

End SearchProofs.

(** ** More on [make_request] *)

Module RetryBounds.
Import Py MonadFacts UserFileExport.

Section Bounds.
Context {S : Type} (post : S → request → outcome listing * S).
Variables (url : string) (headers : gmap string string) (payload : json).
Variables (retries timeout : Z).

Let rq := Request url headers payload (Some timeout).

(** The attempts [i], ..., [i + len - 1], the last of which is attempt
    [retries - 1]: [n] requests are sent, with [n - 1] pauses between them. *)
Lemma attempts_bounded (len : nat) : ∀ i w,
  len = 0 ∨ Z.of_nat (i + len) = retries →
  ∃ n, n ≤ len ∧ (1 ≤ len → 1 ≤ n)
    ∧ sent (snd (make_request_from post (seq i len) url headers payload retries timeout w))
      = sent w ++ replicate n rq
    ∧ slept (snd (make_request_from post (seq i len) url headers payload retries timeout w))
      = slept w ++ ((λ k, 2 ^ Z.of_nat k)%Z <$> seq i (n - 1))
    ∧ same_local w
        (snd (make_request_from post (seq i len) url headers payload retries timeout w)).
Proof.
  unfold rq. induction len as [|len IH]; intros i w Hlen.
  - exists 0. cbn. rewrite !app_nil_r. repeat split; try done; lia.
  - destruct Hlen as [Hlen|Hlen]; [done|]. cbn [seq].
    destruct (post (backend w) (Request url headers payload (Some timeout)))
      as [out s1] eqn:Hpost.
    destruct (failure_of out) as [e|] eqn:Hfail.
    + destruct (Z.of_nat i <? retries - 1)%Z eqn:Hlt.
      * rewrite (RetryProofs.attempt_retried post url headers payload retries timeout
                   i _ w out e s1 Hpost Hfail Hlt).
        apply Z.ltb_lt in Hlt.
        destruct (IH (Datatypes.S i)
                    (asleep (2 ^ Z.of_nat i)
                       (printed (attempt_message i e)
                          (called (Request url headers payload (Some timeout)) s1 w))))
          as (n & Hn & Hpos & Hsent & Hslept & Hloc); [right; lia|].
        assert (1 ≤ n) as Hn1 by (apply Hpos; lia).
        exists (Datatypes.S n). split; [lia|]. split; [lia|].
        rewrite Hsent, Hslept. cbn [sent slept asleep printed called].
        rewrite <- !app_assoc. split; [done|]. split.
        -- replace (Datatypes.S n - 1) with (Datatypes.S (n - 1)) by lia. done.
        -- destruct Hloc as (H1 & H2 & H3 & H4). by repeat split.
      * rewrite (RetryProofs.attempt_last post url headers payload retries timeout
                   i _ w out e s1 Hpost Hfail Hlt).
        exists 1. cbn. rewrite app_nil_r. repeat split; try done; lia.
    + destruct out as [r|e]; cbn in Hfail.
      * destruct (http_error_msg r) eqn:Hmsg; [done|].
        rewrite (RetryProofs.attempt_success post url headers payload retries timeout
                   i _ w r s1 Hpost Hmsg).
        exists 1. cbn. rewrite app_nil_r. repeat split; try done; lia.
      * destruct (is_RequestException e) eqn:Hre; [done|].
        rewrite (RetryProofs.attempt_aborted post url headers payload retries timeout
                   i _ w e s1 Hpost Hre).
        exists 1. cbn. rewrite app_nil_r. repeat split; try done; lia.
Qed.
End Bounds.

(** Whatever the backend does, a [make_request] call sends its one request
    at most [retries] times, pauses 1, 2, 4, ... seconds between two
    attempts and not after the last one, and touches neither the terminal
    input nor any file. *)
Theorem make_request_attempts_bounded {S} (post : S → request → outcome listing * S)
    (url : string) (headers : gmap string string) (payload : json)
    (retries timeout : Z) (w : world S request) :
  ∃ n, (Z.of_nat n ≤ Z.max 0 retries)%Z
    ∧ sent (snd (make_request post url headers payload retries timeout w))
      = sent w ++ replicate n (Request url headers payload (Some timeout))
    ∧ slept (snd (make_request post url headers payload retries timeout w))
      = slept w ++ ((λ k, 2 ^ Z.of_nat k)%Z <$> seq 0 (n - 1))
    ∧ same_local w (snd (make_request post url headers payload retries timeout w)).
Proof.
  unfold make_request.
  destruct (attempts_bounded post url headers payload retries timeout
              (Z.to_nat retries) 0 w) as (n & Hn & _ & Hsent & Hslept & Hloc).
  { destruct (decide (Z.to_nat retries = 0)); [by left|right; lia]. }
  exists n. split; [lia|]. split; [exact Hsent|]. split; [exact Hslept|exact Hloc].
Qed.

(** An error of [requests.post] that is no RequestException is not retried:
    with at least one attempt allowed, [make_request] raises it after the
    first request, without a message and without a pause. *)
Theorem make_request_other_error_not_retried {S}
    (post : S → request → outcome listing * S)
    (url : string) (headers : gmap string string) (payload : json)
    (retries timeout : Z) (w : world S request) (e : exn) (s1 : S) :
  (1 ≤ retries)%Z →
  post (backend w) (Request url headers payload (Some timeout)) = (Fails e, s1) →
  is_RequestException e = false →
  make_request post url headers payload retries timeout w
  = (Raise e, called (Request url headers payload (Some timeout)) s1 w).
Proof.
  intros Hretries Hpost Hre. unfold make_request.
  replace (Z.to_nat retries) with (Datatypes.S (Z.to_nat retries - 1)) by lia.
  cbn [seq]. by apply RetryProofs.attempt_aborted.
Qed.

Lemma make_request_other_error_not_retried_witness :
  make_request (Mock.scripted Samples.exhausted) UserFileExport.url ∅ JNull 3 10
    Samples.interrupted_world
  = (Raise (OtherError "KeyboardInterrupt"),
     called (Request UserFileExport.url ∅ JNull (Some 10%Z))
       [Responds Samples.last_listing] Samples.interrupted_world).
Proof.
  apply (make_request_other_error_not_retried (Mock.scripted Samples.exhausted)
           UserFileExport.url ∅ JNull 3 10 Samples.interrupted_world
           (OtherError "KeyboardInterrupt") [Responds Samples.last_listing]).
  - lia.
  - reflexivity.
  - reflexivity.
Defined.

(** With no attempt allowed ([retries] zero or negative) the loop of
    [make_request] does not run: nothing is sent and the call returns
    [None], on which the caller's [response.json()] raises AttributeError. *)
Theorem make_request_without_attempts {S} (post : S → request → outcome listing * S)
    (url : string) (headers : gmap string string) (payload : json)
    (retries timeout : Z) (w : world S request) :
  (retries ≤ 0)%Z →
  make_request post url headers payload retries timeout w = (Ret None, w)
  ∧ decode None w
    = (Raise (AttributeError "'NoneType' object has no attribute 'json'"), w).
Proof.
  intros Hretries. unfold make_request.
  replace (Z.to_nat retries) with 0 by lia. done.
Qed.

Lemma make_request_without_attempts_witness :
  make_request (Mock.scripted Samples.exhausted) UserFileExport.url ∅ JNull 0 10
    Samples.flaky_world = (Ret None, Samples.flaky_world)
  ∧ decode None Samples.flaky_world
    = (Raise (AttributeError "'NoneType' object has no attribute 'json'"),
       Samples.flaky_world).
Proof.
  apply (make_request_without_attempts (Mock.scripted Samples.exhausted)
           UserFileExport.url ∅ JNull 0 10 Samples.flaky_world).
  lia.
Defined.

End RetryBounds.

(** ** Edges of the file-listing fetch *)

Module ListingEdges.
Import Py MonadFacts UserFileExport.

Section Local.
Context {S : Type} (post : S → request → outcome listing * S).





End Local.



(** A response whose body is not JSON ends the run at once: the script
    prints the message of the decoder and the second line of its [except]
    clause and exits with status 1, having made no further request. *)
Theorem body_not_json_exits {S} (post : S → request → outcome listing * S)
    (fuel : nat) (headers : gmap string string) (payload : json)
    (w w1 : world S request) (r : response listing) :
  make_request post url headers payload 3 10 w = (Ret (Some r), w1) →
  json_body r = None →
  fetch_entries post fuel headers payload w
  = (Exit 1,
     printed "Response content was not valid JSON."
       (printed ("Error decoding JSON: " +:+ json_error r) w1))
  ∧ exit_status (fst (fetch_entries post fuel headers payload w)) = Some 1%Z.
Proof.
  intros Hrun Hbody.
  assert (fetch_entries post fuel headers payload w
          = (Exit 1,
             printed "Response content was not valid JSON."
               (printed ("Error decoding JSON: " +:+ json_error r) w1))) as Hfetch.
  { unfold fetch_entries. rewrite (bind_returns _ _ _ _ _ Hrun).
    unfold bind at 1, decode, try_except, response_json. by rewrite Hbody. }
  split; [exact Hfetch|]. by rewrite Hfetch.
Qed.

Lemma body_not_json_exits_witness :
  fetch_entries (Mock.scripted Samples.exhausted) 3 ∅ JNull Samples.cut_off_world
  = (Exit 1,
     printed "Response content was not valid JSON."
       (printed ("Error decoding JSON: " +:+ json_error Samples.cut_off_page)
          (snd (make_request (Mock.scripted Samples.exhausted) url ∅ JNull 3 10
                  Samples.cut_off_world))))
  ∧ exit_status (fst (fetch_entries (Mock.scripted Samples.exhausted) 3 ∅ JNull
                        Samples.cut_off_world)) = Some 1%Z.
Proof.
  apply (body_not_json_exits (Mock.scripted Samples.exhausted) 3 ∅ JNull
           Samples.cut_off_world _ Samples.cut_off_page).
  - vm_compute; reflexivity.
  - reflexivity.
Defined.



End ListingEdges.

(** ** Edges of the members script *)

Module MembersEdges.
Import Py MonadFacts MembersList.

Section Local.
Context {S : Type} (post : S → request → outcome members_page * S).



(** The script of [dropbox_members_listv2.py] up to its first request. *)
Lemma main_reads_inputs (fuel : nat) (w : world S request) path answer rest token_text :
  stdin w = path :: answer :: rest →
  files w !! path = Some token_text →
  main post fuel w
  = bind (fetch_all_members post fuel (strip token_text)
            (bool_decide (lower (strip answer) = "yes")))
         (λ all_members,
            bind (export_to_csv all_members "dropbox_users.csv")
                 (λ _, print "Data exported to dropbox_users.csv"))
         (typed rest
            (printed "Include removed accounts? (yes/no): "
               (printed "Please enter the path to the Dropbox token file: " w))).
Proof.
  intros Hin Hfile. destruct w as [s sn sl si so fs js cs]. cbn in Hin, Hfile. subst si.
  unfold main, read_token.
  unfold bind at 1, input at 1. cbn [stdin typed printed].
  unfold bind at 1, try_except, bind at 1, read_file. cbn [files typed printed].
  rewrite Hfile. unfold ret at 1.
  unfold bind at 1, input at 1.
  cbn [stdin typed printed backend sent slept stdout files json_files csv_files].
  reflexivity.
Qed.
End Local.



Lemma fetch_loop_restarts {S} (post : S → request → outcome members_page * S)
    (token : string) (include_removed : bool) (r : response members_page)
    (page : members_page) :
  (∀ s, fst (post s (Request url (headers token) (request_data include_removed None) None))
        = Responds r) →
  status_code r = 200%Z →
  json_body r = Some page →
  has_more page = Some true →
  cursor page = None ∨ cursor page = Some EmptyString →
  ∀ fuel (w : world S request) cursor0 all_members,
    cursor0 = None ∨ cursor0 = Some EmptyString →
    ∃ w', fetch_loop post fuel token include_removed all_members cursor0 true w
          = (OutOfFuel, w')
      ∧ sent w' = sent w ++ replicate fuel
                    (Request url (headers token) (request_data include_removed None) None).
Proof.
  intros Hpost Hstatus Hbody Hmore Hcursor.
  induction fuel as [|fuel IH]; intros w cursor0 all_members Hc0.
  - exists w. cbn. by rewrite app_nil_r.
  - assert (request_data include_removed cursor0 = request_data include_removed None)
      as Hdata by (by destruct Hc0 as [->| ->]).
    cbn [fetch_loop]. unfold bind at 1, get_members, bind at 1, call.
    rewrite Hdata. specialize (Hpost (backend w)).
    destruct (post (backend w) _) as [out s1]. cbn in Hpost. subst out.
    unfold bind at 1, ret at 1. rewrite Hstatus.
    rewrite bool_decide_eq_false_2 by (intros H; by apply H).
    unfold bind, response_json. rewrite Hbody. unfold ret. rewrite Hmore. cbn [default].
    destruct (IH (called (Request url (headers token) (request_data include_removed None)
                            None) s1 w) (cursor page)
                (all_members ++ default [] (members page)) Hcursor) as (w' & Hrun & Hsent).
    exists w'. split; [exact Hrun|]. rewrite Hsent. cbn. by rewrite <- app_assoc.
Qed.

(** A page that says [has_more] but whose cursor is missing or empty makes
    [get_members] ask without cursor again, that is for the first page.
    With a backend that answers this request with such a page each time,
    the loop of [main] never ends: whatever the fuel, it is used up, every
    request sent being the first one. *)
Theorem members_loop_restarts_without_cursor {S}
    (post : S → request → outcome members_page * S) (token : string)
    (include_removed : bool) (r : response members_page) (page : members_page)
    (fuel : nat) (w : world S request) :
  (∀ s, fst (post s (Request url (headers token) (request_data include_removed None) None))
        = Responds r) →
  status_code r = 200%Z →
  json_body r = Some page →
  has_more page = Some true →
  cursor page = None ∨ cursor page = Some EmptyString →
  fst (fetch_all_members post fuel token include_removed w) = OutOfFuel
  ∧ sent (snd (fetch_all_members post fuel token include_removed w))
    = sent w ++ replicate fuel
                  (Request url (headers token) (request_data include_removed None) None).
Proof.
  intros Hpost Hstatus Hbody Hmore Hcursor. unfold fetch_all_members.
  destruct (fetch_loop_restarts post token include_removed r page Hpost Hstatus Hbody
              Hmore Hcursor fuel w None []) as (w' & Hrun & Hsent); [by left|].
  by rewrite Hrun.
Qed.

Lemma members_loop_restarts_without_cursor_witness :
  fst (fetch_all_members Samples.stuck_backend 7 "sl.t0ken" false Samples.stuck_world)
  = OutOfFuel
  ∧ sent (snd (fetch_all_members Samples.stuck_backend 7 "sl.t0ken" false
                 Samples.stuck_world))
    = sent Samples.stuck_world
      ++ replicate 7 (Request url (headers "sl.t0ken") (request_data false None) None).
Proof.
  apply (members_loop_restarts_without_cursor Samples.stuck_backend "sl.t0ken" false
           Samples.stuck_page
           (MembersPage (Some [Samples.ada]) (Some EmptyString) (Some true))
           7 Samples.stuck_world).
  - intros s. reflexivity.
  - reflexivity.
  - reflexivity.
  - reflexivity.
  - right. reflexivity.
Defined.

End MembersEdges.

(** ** The CSV of the members script *)

Module MembersCsv.
Import Py MonadFacts MembersList.

(** The cells of a row are collected until one of them fails. *)
Lemma collected_length (cells : list (res json)) : ∀ row,
  foldr (λ cell acc,
           match cell with
           | Ret v => match acc with Ret vs => Ret (v :: vs) | other => other end
           | Raise e => Raise e
           | Exit code => Exit code
           | OutOfFuel => OutOfFuel
           end) (Ret []) cells = Ret row →
  length row = length cells.
Proof.
  induction cells as [|cell cells IH]; intros row H; cbn in H.
  - by injection H as <-.
  - destruct cell as [v|e|code|]; try done.
    destruct (foldr _ _ cells) as [vs|e|code|]; try done.
    injection H as <-. cbn. f_equal. by apply IH.
Qed.

Lemma member_row_length (member : record) (row : list json) :
  member_row member = Ret row → length row = length fields.
Proof. intros H. unfold member_row in H. by apply collected_length in H. Qed.

Section Writing.
Context {S : Type}.
Implicit Type w : world S request.

Lemma write_members_good filename (members : list record) : ∀ rows w,
  Forall2 (λ member row, member_row member = Ret row) members rows →
  ∃ w', write_members (S:=S) filename members w = (Ret (), w')
    ∧ rows_of filename w' = rows_of filename w ++ rows.
Proof.
  induction members as [|member members IH]; intros rows w Hrows.
  - apply Forall2_nil_inv_l in Hrows as ->. exists w. cbn. by rewrite app_nil_r.
  - apply Forall2_cons_inv_l in Hrows as (row & rows' & Hrow & Hrows & ->).
    cbn [write_members]. rewrite Hrow. unfold bind at 1, csv_writerow.
    destruct (IH rows' (with_csv (<[filename := rows_of filename w ++ [row]]>
                                    (csv_files w)) w) Hrows) as (w' & Hrun & Hfile).
    exists w'. split; [exact Hrun|]. rewrite Hfile.
    unfold rows_of at 1. cbn. rewrite lookup_insert_eq. cbn. by rewrite <- app_assoc.
Qed.

Lemma write_members_bad filename (good : list record) : ∀ rows bad rest e w,
  Forall2 (λ member row, member_row member = Ret row) good rows →
  member_row bad = Raise e →
  ∃ w', write_members (S:=S) filename (good ++ bad :: rest) w = (Raise e, w')
    ∧ rows_of filename w' = rows_of filename w ++ rows.
Proof.
  induction good as [|member good IH]; intros rows bad rest e w Hrows Hbad.
  - apply Forall2_nil_inv_l in Hrows as ->. exists w.
    cbn [write_members app]. rewrite Hbad. by rewrite app_nil_r.
  - apply Forall2_cons_inv_l in Hrows as (row & rows' & Hrow & Hrows & ->).
    cbn [write_members app]. rewrite Hrow. unfold bind at 1, csv_writerow.
    destruct (IH rows' bad rest e
                (with_csv (<[filename := rows_of filename w ++ [row]]> (csv_files w)) w)
                Hrows Hbad) as (w' & Hrun & Hfile).
    exists w'. split; [exact Hrun|]. rewrite Hfile.
    unfold rows_of at 1. cbn. rewrite lookup_insert_eq. cbn. by rewrite <- app_assoc.
Qed.
End Writing.

(** When every member gives a row, [export_to_csv] replaces the file by the
    fixed header of nine names followed by one row of nine cells per member,
    in the order of the members; what the file held before is gone. *)
Theorem export_to_csv_rows {S} (members : list record) (rows : list (list json))
    (filename : string) (w : world S request) :
  Forall2 (λ member row, member_row member = Ret row) members rows →
  ∃ w', export_to_csv members filename w = (Ret (), w')
    ∧ csv_files w' !! filename = Some ((JStr <$> fields) :: rows)
    ∧ Forall (λ row, length row = length fields) rows
    ∧ length rows = length members.
Proof.
  intros Hrows. unfold export_to_csv. unfold bind at 1, csv_open.
  unfold bind at 1, csv_writerow.
  set (w1 := with_csv _ (with_csv _ w)).
  destruct (write_members_good filename members rows w1 Hrows) as (w' & Hrun & Hfile).
  exists w'. split; [exact Hrun|]. split; [|split].
  - subst w1. unfold rows_of in Hfile. cbn in Hfile.
    rewrite !lookup_insert_eq in Hfile. cbn in Hfile.
    destruct (csv_files w' !! filename) as [old|] eqn:Hold; cbn in Hfile; [by subst|done].
  - clear Hrun Hfile. induction Hrows as [|member row members rows Hrow _ IH];
      constructor; [by apply (member_row_length member)|exact IH].
  - symmetry. eapply Forall2_length. exact Hrows.
Qed.

Lemma export_to_csv_rows_witness :
  ∃ w', export_to_csv [Samples.ada; Samples.bob] "dropbox_users.csv" Samples.two_pages_world
        = (Ret (), w')
    ∧ csv_files w' !! "dropbox_users.csv"
      = Some ((JStr <$> fields)
              :: [[JStr "dbmid:1"; JNull; JStr "ada@example.org"; JNull; JNull; JNull;
                   JStr EmptyString; JNull; JNull];
                  [JStr "dbmid:2"; JNull; JStr "bob@example.org"; JNull; JNull; JNull;
                   JStr EmptyString; JNull; JNull]])
    ∧ Forall (λ row, length row = length fields)
        [[JStr "dbmid:1"; JNull; JStr "ada@example.org"; JNull; JNull; JNull;
          JStr EmptyString; JNull; JNull];
         [JStr "dbmid:2"; JNull; JStr "bob@example.org"; JNull; JNull; JNull;
          JStr EmptyString; JNull; JNull]]
    ∧ length [[JStr "dbmid:1"; JNull; JStr "ada@example.org"; JNull; JNull; JNull;
               JStr EmptyString; JNull; JNull];
              [JStr "dbmid:2"; JNull; JStr "bob@example.org"; JNull; JNull; JNull;
               JStr EmptyString; JNull; JNull]]
      = length [Samples.ada; Samples.bob].
Proof.
  apply (export_to_csv_rows [Samples.ada; Samples.bob]).
  repeat constructor.
Defined.

(** A member that gives no row (a profile that is no object, groups that
    are no strings) stops [export_to_csv] with the error: the file is left
    with the header and the rows of the members before it. *)
Theorem export_to_csv_stops_at_bad_member {S} (good rest : list record) (bad : record)
    (rows : list (list json)) (e : exn) (filename : string) (w : world S request) :
  Forall2 (λ member row, member_row member = Ret row) good rows →
  member_row bad = Raise e →
  ∃ w', export_to_csv (good ++ bad :: rest) filename w = (Raise e, w')
    ∧ csv_files w' !! filename = Some ((JStr <$> fields) :: rows).
Proof.
  intros Hrows Hbad. unfold export_to_csv. unfold bind at 1, csv_open.
  unfold bind at 1, csv_writerow.
  set (w1 := with_csv _ (with_csv _ w)).
  destruct (write_members_bad filename good rows bad rest e w1 Hrows Hbad)
    as (w' & Hrun & Hfile).
  exists w'. split; [exact Hrun|].
  subst w1. unfold rows_of in Hfile. cbn in Hfile.
  rewrite !lookup_insert_eq in Hfile. cbn in Hfile.
  destruct (csv_files w' !! filename) as [old|] eqn:Hold; cbn in Hfile; [by subst|done].
Qed.

Lemma export_to_csv_stops_at_bad_member_witness :
  ∃ w', export_to_csv ([Samples.ada] ++ Samples.broken :: [Samples.bob])
          "dropbox_users.csv" Samples.two_pages_world
        = (Raise (AttributeError "object has no attribute 'get'"), w')
    ∧ csv_files w' !! "dropbox_users.csv"
      = Some ((JStr <$> fields)
              :: [[JStr "dbmid:1"; JNull; JStr "ada@example.org"; JNull; JNull; JNull;
                   JStr EmptyString; JNull; JNull]]).
Proof.
  apply (export_to_csv_stops_at_bad_member [Samples.ada] [Samples.bob] Samples.broken).
  - repeat constructor.
  - reflexivity.
Defined.

(** A member without a [profile] key gives a row all the same: every cell
    is [None], which the CSV writer prints as nothing, and the groups cell
    is the empty string. *)
Theorem member_row_without_profile (member : record) :
  member !! "profile" = None →
  member_row member
  = Ret [JNull; JNull; JNull; JNull; JNull; JNull; JStr EmptyString; JNull; JNull].
Proof. intros H. unfold member_row. rewrite H. reflexivity. Qed.

Lemma member_row_without_profile_witness :
  member_row Samples.file_a
  = Ret [JNull; JNull; JNull; JNull; JNull; JNull; JStr EmptyString; JNull; JNull].
Proof. apply (member_row_without_profile Samples.file_a). reflexivity. Defined.

End MembersCsv.

(** ** Edges of the recursive search *)

Module SearchEdges.
Import Py MonadFacts Sdk.

Lemma for_each_returns {S Req A} (body : A → M S Req unit) (items : list A) : ∀ w,
  (∀ item w1, In item items → ∃ w2, body item w1 = (Ret (), w2)) →
  ∃ w', for_each body items w = (Ret (), w').
Proof.
  induction items as [|item rest IH]; intros w Hbody.
  - by exists w.
  - cbn [for_each]. unfold bind.
    destruct (Hbody item w) as (w1 & ->); [by left|].
    apply IH. intros item' w2 Hin. apply Hbody. by right.
Qed.

Section Lengths.
Import Namespace.

Lemma length_append (a b : string) :
  String.length (a +:+ b) = String.length a + String.length b.
Proof.
  induction a as [|x a IH]; [done|].
  change (Datatypes.S (String.length (a +:+ b))
          = Datatypes.S (String.length a + String.length b)).
  by rewrite IH.
Qed.

Lemma remainder_length (start : string) : ∀ s rest,
  remainder start s = Some rest →
  String.length s = String.length start + String.length rest.
Proof.
  induction start as [|x start IH]; intros s rest H.
  - cbn in H. by injection H as ->.
  - destruct s as [|y s]; [done|]. cbn [remainder] in H.
    destruct (Ascii.eqb x y); [|done]. cbn. f_equal. by apply IH.
Qed.

(** An entry below a folder has a longer path than the folder. *)
Lemma is_under_longer (folder_path path : string) :
  is_under folder_path path = true →
  String.length folder_path < String.length path.
Proof.
  unfold is_under. destruct (remainder (folder_path +:+ "/") path) as [rest|] eqn:H;
    [intros _|done].
  apply remainder_length in H. rewrite length_append in H. cbn in H. lia.
Qed.

Lemma path_at_most_longest (entries : list metadata) (entry : metadata) :
  In entry entries → String.length (path_lower entry) ≤ longest_path entries.
Proof.
  unfold longest_path.
  induction entries as [|e entries IH]; [done|]. intros [->|Hin]; cbn [foldr].
  - lia.
  - specialize (IH Hin). lia.
Qed.
End Lengths.

Section Termination.
Import SearchAccount Namespace.
Variables (name_matches : string → string → bool) (tree : list node).
Variables (csv_writer : string) (dbx : client) (search_query : string).

(** Each recursive call searches a folder with a longer path, and no path
    is longer than the longest of the tree. *)
Lemma search_of_tree_returns (fuel : nat) : ∀ folder_path (w : world unit search_call),
  1 ≤ fuel →
  longest_path (namespace tree) < fuel + String.length folder_path →
  ∃ w', search_files_recursively (search_subtree name_matches tree) fuel folder_path
          csv_writer dbx search_query w = (Ret (), w').
Proof.
  induction fuel as [|fuel IH]; intros folder_path w Hfuel Hlong; [lia|].
  cbn [search_files_recursively].
  unfold bind at 1, files_search, bind at 1, call, search_subtree.
  cbn [call_path call_query]. unfold ret at 1.
  apply for_each_returns. intros entry w1 Hin.
  unfold search_matches in Hin. apply filter_In in Hin as [Hin Hmatch].
  apply andb_true_iff in Hmatch as [Hunder _].
  apply is_under_longer in Hunder.
  pose proof (path_at_most_longest _ _ Hin) as Hmax.
  destruct (is_FolderMetadata entry).
  - apply IH; lia.
  - unfold csv_writerow. by eexists.
Qed.
End Termination.

(** On a finite tree the recursive search ends: with the backend that
    searches the tree, a search from the root returns as soon as the depth
    allowed exceeds the length of the longest path of the tree. *)
Theorem search_of_finite_tree_ends (name_matches : string → string → bool)
    (tree : list Namespace.node) (csv_writer : string) (dbx : client)
    (search_query : string) (fuel : nat) (w : world unit search_call) :
  Namespace.longest_path (Namespace.namespace tree) < fuel →
  ∃ w', SearchAccount.search_files_recursively
          (Namespace.search_subtree name_matches tree) fuel EmptyString csv_writer dbx
          search_query w = (Ret (), w').
Proof.
  intros Hfuel. apply search_of_tree_returns; cbn; lia.
Qed.

Lemma search_of_finite_tree_ends_witness :
  ∃ w', SearchAccount.search_files_recursively
          (Namespace.search_subtree Namespace.name_contains Samples.txt_tree) 11
          EmptyString Samples.search_csv Samples.dbx "txt" Samples.search_world
        = (Ret (), w').
Proof.
  apply (search_of_finite_tree_ends Namespace.name_contains Samples.txt_tree
           Samples.search_csv Samples.dbx "txt" 11 Samples.search_world).
  vm_compute. lia.
Defined.

(** There is no cycle detection and no bound on the depth: with a backend
    that answers every search with a folder first, the recursive search
    never returns, whatever depth is allowed, and writes no row. *)
Theorem search_follows_folders_forever {S} (serve : S → search_call → search_outcome * S)
    (csv_writer : string) (dbx : client) (search_query : string) (fuel : nat) :
  (∀ s c, ∃ folder_name folder_path more s',
     serve s c = (Matches (FolderMetadata folder_name folder_path :: more), s')) →
  ∀ folder_path (w : world S search_call),
    ∃ w', SearchAccount.search_files_recursively serve fuel folder_path csv_writer dbx
            search_query w = (OutOfFuel, w')
      ∧ csv_files w' = csv_files w.
Proof.
  intros Hserve. induction fuel as [|fuel IH]; intros folder_path w; [by exists w|].
  cbn [SearchAccount.search_files_recursively].
  unfold bind at 1, files_search, bind at 1, call.
  destruct (Hserve (backend w)
              (SearchCall (oauth2_access_token dbx) (session_headers dbx) folder_path
                 search_query)) as (n & p & more & s' & ->).
  unfold ret at 1. cbn [for_each is_FolderMetadata path_lower].
  unfold bind.
  destruct (IH p (called (SearchCall (oauth2_access_token dbx) (session_headers dbx)
                            folder_path search_query) s' w)) as (w' & -> & Hcsv).
  by exists w'.
Qed.

Lemma search_follows_folders_forever_witness :
  ∃ w', SearchAccount.search_files_recursively Samples.loop_backend 50 EmptyString
          Samples.search_csv Samples.dbx "txt" Samples.search_world = (OutOfFuel, w')
    ∧ csv_files w' = csv_files Samples.search_world.
Proof.
  apply (search_follows_folders_forever Samples.loop_backend Samples.search_csv
           Samples.dbx "txt" 50).
  intros s c. by eexists _, _, _, _.
Defined.

End SearchEdges.

(** ** How often the recursive search writes a file *)

Module SearchCount.
Import Py MonadFacts Sdk Namespace.

(** *** Paths below paths *)

Lemma append_empty (s : string) : s +:+ EmptyString = s.
Proof.
  induction s as [|a s IH]; [done|].
  change (String a (s +:+ EmptyString) = String a s). by rewrite IH.
Qed.

Lemma remainder_spec (start : string) : ∀ s rest,
  remainder start s = Some rest ↔ s = start +:+ rest.
Proof.
  induction start as [|a start IH]; intros s rest.
  - cbn. split; [by intros [= ->]|by intros ->].
  - change (String a start +:+ rest) with (String a (start +:+ rest)).
    destruct s as [|b s]; cbn [remainder]; [done|].
    destruct (Ascii.eqb_spec a b) as [->|Hne].
    + rewrite IH. split; [by intros ->|by intros [= ->]].
    + split; [done|]. intros [= <- _]. done.
Qed.

Lemma is_under_spec (folder_path path : string) :
  is_under folder_path path = true ↔ ∃ rest, path = (folder_path +:+ "/") +:+ rest.
Proof.
  unfold is_under. split.
  - destruct (remainder (folder_path +:+ "/") path) as [rest|] eqn:H; [|done].
    intros _. exists rest. by apply remainder_spec.
  - intros [rest H]. apply remainder_spec in H. by rewrite H.
Qed.

(** Two ways to cut one string: the shorter start is a start of the
    longer. *)
Lemma append_split (s1 : string) : ∀ t1 s2 t2,
  s1 +:+ t1 = s2 +:+ t2 → String.length s1 ≤ String.length s2 →
  ∃ u, s2 = s1 +:+ u ∧ t1 = u +:+ t2.
Proof.
  induction s1 as [|a s1 IH]; intros t1 s2 t2 Heq Hlen.
  - exists s2. by split.
  - destruct s2 as [|b s2]; [cbn in Hlen; lia|].
    change (String a (s1 +:+ t1) = String b (s2 +:+ t2)) in Heq.
    injection Heq as -> Heq. cbn in Hlen.
    destruct (IH t1 s2 t2 Heq) as (u & -> & ->); [lia|]. by exists u.
Qed.

Lemma is_under_trans (a b c : string) :
  is_under a b = true → is_under b c = true → is_under a c = true.
Proof.
  rewrite !is_under_spec. intros [r1 ->] [r2 ->].
  exists (r1 +:+ "/" +:+ r2). by rewrite !SearchProofs.append_assoc.
Qed.

(** Of two folders above one path, the one with the shorter path is above
    the other. *)
Lemma is_under_chain (a b p : string) :
  is_under a p = true → is_under b p = true →
  String.length a < String.length b → is_under a b = true.
Proof.
  rewrite !is_under_spec. intros [r1 ->] [r2 Heq] Hlen.
  rewrite (SearchProofs.append_assoc b) in Heq.
  destruct (append_split (a +:+ "/") r1 b ("/" +:+ r2) Heq) as (u & -> & _).
  - rewrite SearchEdges.length_append. cbn. lia.
  - by exists u.
Qed.

Lemma is_under_same_length (a b p : string) :
  is_under a p = true → is_under b p = true →
  String.length a = String.length b → a = b.
Proof.
  rewrite !is_under_spec. intros [r1 ->] [r2 Heq] Hlen.
  rewrite !SearchProofs.append_assoc in Heq.
  destruct (append_split a ("/" +:+ r1) b ("/" +:+ r2) Heq) as (u & -> & _); [lia|].
  rewrite SearchEdges.length_append in Hlen.
  destruct u as [|x u]; [by rewrite append_empty|cbn in Hlen; lia].
Qed.

(** *** Sums over lists *)

Lemma sum_list_with_ext_in {A} (f g : A → nat) (l : list A) :
  (∀ x, In x l → f x = g x) → sum_list_with f l = sum_list_with g l.
Proof.
  induction l as [|x l IH]; intros H; [done|]. cbn.
  rewrite (H x) by (by left). rewrite IH; [done|]. intros y Hy. apply H. by right.
Qed.

Lemma sum_list_with_add {A} (f g : A → nat) (l : list A) :
  sum_list_with (λ x, f x + g x) l = sum_list_with f l + sum_list_with g l.
Proof. induction l as [|x l IH]; [done|]. cbn. rewrite IH. lia. Qed.

Lemma sum_list_with_filter {A} (P : A → bool) (f : A → nat) (l : list A) :
  sum_list_with (λ x, if P x then f x else 0) l = sum_list_with f (List.filter P l).
Proof.
  induction l as [|x l IH]; [done|]. cbn. destruct (P x); cbn; by rewrite IH.
Qed.

Lemma length_filter_sum {A} (P : A → bool) (l : list A) :
  length (List.filter P l) = sum_list_with (λ x, if P x then 1 else 0) l.
Proof.
  induction l as [|x l IH]; [done|]. cbn. destruct (P x); cbn; by rewrite IH.
Qed.

Lemma filter_filter {A} (P Q : A → bool) (l : list A) :
  List.filter Q (List.filter P l) = List.filter (λ x, P x && Q x) l.
Proof.
  induction l as [|x l IH]; [done|]. cbn.
  destruct (P x); cbn; [destruct (Q x)|]; by rewrite IH.
Qed.

Lemma length_filter_Permutation {A} (P : A → bool) (l1 l2 : list A) :
  l1 ≡ₚ l2 → length (List.filter P l1) = length (List.filter P l2).
Proof.
  induction 1 as [|x l1 l2 _ IH|x y l|l1 l2 l3 _ IH1 _ IH2]; cbn.
  - done.
  - destruct (P x); cbn; by rewrite IH.
  - by destruct (P x), (P y).
  - by rewrite IH1.
Qed.

Lemma sum_list_with_Permutation {A} (f : A → nat) (l1 l2 : list A) :
  l1 ≡ₚ l2 → sum_list_with f l1 = sum_list_with f l2.
Proof.
  induction 1 as [|x l1 l2 _ IH|x y l|l1 l2 l3 _ IH1 _ IH2]; cbn.
  - done.
  - by rewrite IH.
  - lia.
  - by rewrite IH1.
Qed.

Lemma times_written_app entry (l1 l2 : list metadata) :
  times_written entry (l1 ++ l2) = times_written entry l1 + times_written entry l2.
Proof. unfold times_written. by rewrite List.filter_app, length_app. Qed.

Lemma times_written_flat_map {A} entry (g : A → list metadata) (l : list A) :
  times_written entry (flat_map g l) = sum_list_with (λ x, times_written entry (g x)) l.
Proof.
  induction l as [|x l IH]; [done|]. cbn [flat_map sum_list_with].
  by rewrite times_written_app, IH.
Qed.

Lemma times_written_absent entry (l : list metadata) :
  ¬ In entry l → times_written entry l = 0.
Proof.
  unfold times_written. induction l as [|x l IH]; intros Hnot; [done|]. cbn.
  rewrite bool_decide_eq_false_2; [|intros ->; apply Hnot; by left].
  apply IH. intros Hin. apply Hnot. by right.
Qed.

(** An entry of a list without repetition occurs once among the entries
    that pass a test when it passes the test, and not at all otherwise. *)
Lemma times_written_filter entry (P : metadata → bool) (l : list metadata) :
  NoDup l → In entry l →
  times_written entry (List.filter P l) = if P entry then 1 else 0.
Proof.
  induction l as [|x l IH]; intros Hnodup Hin; [done|].
  apply NoDup_cons in Hnodup as [Hx Hnodup]. rewrite list_elem_of_In in Hx.
  cbn [List.filter]. destruct Hin as [->|Hin].
  - destruct (P entry) eqn:HP.
    + unfold times_written. cbn. rewrite bool_decide_eq_true_2 by done. cbn.
      fold (times_written entry (List.filter P l)).
      rewrite times_written_absent; [done|]. intros Hin. apply filter_In in Hin as [Hin _].
      by apply Hx.
    + apply times_written_absent. intros Hin. apply filter_In in Hin as [Hin _].
      by apply Hx.
  - destruct (P x) eqn:HPx; [|by apply IH].
    unfold times_written. cbn. rewrite bool_decide_eq_false_2; [by apply IH|].
    intros ->. by apply Hx.
Qed.

(** *** Ranks *)

(** In a list whose elements have distinct sizes, let the weight of an
    element be two to the number of elements that are larger.  The weights
    add up to one less than two to the length of the list. *)
Section Ranks.
Context {A : Type} (size : A → nat).

Let weight (l : list A) (x : A) : nat :=
  2 ^ length (List.filter (λ y, size x <? size y) l).

Lemma smallest_exists (l : list A) :
  l ≠ [] → ∃ m, m ∈ l ∧ ∀ y, y ∈ l → size m ≤ size y.
Proof.
  induction l as [|x l IH]; [done|]. intros _. destruct l as [|x' l].
  - exists x. split; [by left|]. intros y Hy. apply list_elem_of_singleton in Hy. by subst.
  - destruct IH as (m & Hm & Hleast); [done|].
    destruct (decide (size x ≤ size m)) as [Hle|Hgt].
    + exists x. split; [by left|]. intros y Hy. apply elem_of_cons in Hy as [->|Hy]; [done|].
      specialize (Hleast y Hy). lia.
    + exists m. split; [by right|]. intros y Hy. apply elem_of_cons in Hy as [->|Hy]; [lia|].
      by apply Hleast.
Qed.

Lemma sum_weights_Permutation (l1 l2 : list A) :
  l1 ≡ₚ l2 → sum_list_with (weight l1) l1 = sum_list_with (weight l2) l2.
Proof.
  intros Hperm. transitivity (sum_list_with (weight l2) l1).
  - apply sum_list_with_ext_in. intros x _. unfold weight.
    by rewrite (length_filter_Permutation _ l1 l2 Hperm).
  - by apply sum_list_with_Permutation.
Qed.

Lemma sum_weights (n : nat) : ∀ l : list A,
  length l = n → NoDup (size <$> l) →
  sum_list_with (weight l) l + 1 = 2 ^ length l.
Proof.
  induction n as [|n IH]; intros l Hlen Hnodup.
  - by destruct l.
  - destruct (smallest_exists l) as (m & Hm & Hleast); [by destruct l|].
    apply elem_of_Permutation in Hm as [l' Hperm].
    rewrite (sum_weights_Permutation _ _ Hperm), (Permutation_length Hperm).
    rewrite Hperm in Hnodup. rewrite (Permutation_length Hperm) in Hlen.
    cbn in Hlen, Hnodup. apply NoDup_cons in Hnodup as [Hfresh Hnodup].
    assert (∀ y, y ∈ l' → size m < size y) as Hless.
    { intros y Hy. assert (size m ≤ size y) by (apply Hleast; rewrite Hperm; by right).
      assert (size m ≠ size y); [|lia].
      intros Heq. apply Hfresh. rewrite Heq. by apply list_elem_of_fmap_2. }
    cbn [sum_list_with length].
    assert (weight (m :: l') m = 2 ^ length l') as ->.
    { unfold weight. cbn [List.filter]. rewrite Nat.ltb_irrefl. f_equal.
      clear -Hless. induction l' as [|y l' IHl]; [done|]. cbn [List.filter].
      rewrite (proj2 (Nat.ltb_lt _ _)) by (apply Hless; by left). cbn [length].
      rewrite IHl; [done|]. intros z Hz. apply Hless. by right. }
    rewrite (sum_list_with_ext_in (weight (m :: l')) (weight l')).
    + specialize (IH l' ltac:(lia) Hnodup). rewrite Nat.pow_succ_r'. lia.
    + intros y Hy. apply list_elem_of_In in Hy. unfold weight. cbn [List.filter].
      by rewrite (proj2 (Nat.ltb_ge _ _)) by (specialize (Hless y Hy); lia).
Qed.
End Ranks.

Lemma NoDup_fmap_elements {A B} (f : A → B) (l : list A) (x y : A) :
  NoDup (f <$> l) → x ∈ l → y ∈ l → f x = f y → x = y.
Proof.
  induction l as [|z l IH]; intros Hnodup Hx Hy Heq; [by apply elem_of_nil in Hx|].
  cbn in Hnodup. apply NoDup_cons in Hnodup as [Hz Hnodup].
  apply elem_of_cons in Hx as [->|Hx]; apply elem_of_cons in Hy as [->|Hy].
  - done.
  - exfalso. apply Hz. rewrite Heq. by apply list_elem_of_fmap_2.
  - exfalso. apply Hz. rewrite <- Heq. by apply list_elem_of_fmap_2.
  - by apply IH.
Qed.

(** *** The count *)

Section Count.
Variables (name_matches : string → string → bool) (tree : list node) (query : string).
Hypothesis distinct_paths : NoDup (path_lower <$> namespace tree).
(** A file of the tree that the query matches. *)
Variable file : metadata.
Hypothesis file_in_tree : In file (namespace tree).
Hypothesis file_matched : name_matches query (name file) = true.
Hypothesis file_no_folder : is_FolderMetadata file = false.

(** The matched folders between the folder at [folder_path] and the
    file. *)
Let between (folder_path : string) : list metadata :=
  List.filter
    (λ entry, is_FolderMetadata entry && name_matches query (name entry)
              && is_under (path_lower entry) (path_lower file)
              && is_under folder_path (path_lower entry))
    (namespace tree).

Lemma between_root :
  between EmptyString = matched_folders_above name_matches tree query (path_lower file).
Proof.
  unfold between, matched_folders_above. apply filter_ext_in. intros entry Hin.
  by rewrite (SearchProofs.namespace_under_root tree entry Hin), andb_true_r.
Qed.

Lemma between_elements folder_path entry :
  In entry (between folder_path) →
  In entry (namespace tree) ∧ is_FolderMetadata entry = true
  ∧ name_matches query (name entry) = true
  ∧ is_under (path_lower entry) (path_lower file) = true
  ∧ is_under folder_path (path_lower entry) = true.
Proof.
  unfold between. rewrite filter_In. intros [Hin H].
  apply andb_true_iff in H as [H H4]. apply andb_true_iff in H as [H H3].
  by apply andb_true_iff in H as [H1 H2].
Qed.

Lemma between_nothing folder_path :
  is_under folder_path (path_lower file) = false → between folder_path = [].
Proof.
  intros Hnot. destruct (between folder_path) as [|entry l] eqn:E; [done|].
  assert (In entry (between folder_path)) as Hin by (rewrite E; by left).
  apply between_elements in Hin as (_ & _ & _ & H1 & H2).
  by rewrite (is_under_trans _ _ _ H2 H1) in Hnot.
Qed.

(** The matched folders between one of them and the file are those of the
    list whose path is longer. *)
Lemma between_inner folder_path entry :
  In entry (between folder_path) →
  between (path_lower entry)
  = List.filter (λ other, String.length (path_lower entry)
                          <? String.length (path_lower other))
      (between folder_path).
Proof.
  intros Hin. apply between_elements in Hin as (_ & _ & _ & Hfile & Hfolder).
  unfold between. rewrite filter_filter. apply filter_ext_in. intros other _.
  destruct (is_FolderMetadata other && name_matches query (name other)
            && is_under (path_lower other) (path_lower file)) eqn:H1; [|done].
  apply andb_true_iff in H1 as [_ Hother]. cbn [andb].
  destruct (is_under (path_lower entry) (path_lower other)) eqn:H2.
  - rewrite (is_under_trans _ _ _ Hfolder H2). cbn. symmetry. apply Nat.ltb_lt.
    by apply SearchEdges.is_under_longer.
  - destruct (String.length (path_lower entry) <? String.length (path_lower other))
      eqn:H3; [|by rewrite andb_false_r].
    apply Nat.ltb_lt in H3. by rewrite (is_under_chain _ _ _ Hfile Hother H3) in H2.
Qed.

Lemma between_distinct_lengths folder_path :
  NoDup ((λ entry, String.length (path_lower entry)) <$> between folder_path).
Proof.
  apply (NoDup_fmap_2_strong (λ entry, String.length (path_lower entry))).
  - intros x y Hx Hy Hlen. apply list_elem_of_In in Hx, Hy.
    apply between_elements in Hx as (Hx & _ & _ & Hxf & _).
    apply between_elements in Hy as (Hy & _ & _ & Hyf & _).
    apply (NoDup_fmap_elements path_lower (namespace tree)); try done.
    + by apply list_elem_of_In.
    + by apply list_elem_of_In.
    + by apply (is_under_same_length _ _ (path_lower file)).
  - unfold between. apply NoDup_ListNoDup, List.NoDup_filter, NoDup_ListNoDup.
    by apply (NoDup_fmap_1 path_lower).
Qed.

(** The file is written two to the [k] times by the search of a folder it
    lies below, [k] being the number of matched folders in between: once by
    the search of the folder itself, and as often as the search of each of
    these folders writes it. *)
Lemma written_below_count (fuel : nat) : ∀ folder_path,
  longest_path (namespace tree) < fuel + String.length folder_path →
  times_written file (written_below name_matches tree query fuel folder_path)
  = if is_under folder_path (path_lower file) then 2 ^ length (between folder_path)
    else 0.
Proof.
  induction fuel as [|fuel IH]; intros folder_path Hfuel.
  - destruct (is_under folder_path (path_lower file)) eqn:Hunder; [|done].
    apply SearchEdges.is_under_longer in Hunder.
    pose proof (SearchEdges.path_at_most_longest _ _ file_in_tree). cbn in Hfuel. lia.
  - cbn [written_below]. rewrite times_written_flat_map.
    rewrite (sum_list_with_ext_in _
               (λ entry,
                  (if bool_decide (entry = file) then 1 else 0)
                  + (if is_FolderMetadata entry
                        && is_under (path_lower entry) (path_lower file)
                     then 2 ^ length (between (path_lower entry)) else 0))).
    2:{ intros entry Hin. unfold search_matches in Hin. apply filter_In in Hin as [Hin Hm].
        apply andb_true_iff in Hm as [Hunder _].
        apply SearchEdges.is_under_longer in Hunder.
        destruct (is_FolderMetadata entry) eqn:Hfolder.
        - rewrite bool_decide_eq_false_2 by (intros ->; congruence).
          cbn [andb]. rewrite IH by lia. by cbn.
        - unfold times_written. cbn. by destruct (bool_decide (entry = file)). }
    rewrite sum_list_with_add.
    rewrite <- (length_filter_sum (λ e, bool_decide (e = file))).
    fold (times_written file (search_matches name_matches tree folder_path query)).
    unfold search_matches at 1.
    rewrite times_written_filter;
      [|by apply (NoDup_fmap_1 path_lower)|done].
    rewrite file_matched, andb_true_r.
    rewrite sum_list_with_filter. unfold search_matches. rewrite filter_filter.
    rewrite (filter_ext_in _
               (λ entry, is_FolderMetadata entry && name_matches query (name entry)
                         && is_under (path_lower entry) (path_lower file)
                         && is_under folder_path (path_lower entry))).
    2:{ intros entry _.
        by destruct (is_under folder_path (path_lower entry)),
             (name_matches query (name entry)), (is_FolderMetadata entry),
             (is_under (path_lower entry) (path_lower file)). }
    fold (between folder_path).
    destruct (is_under folder_path (path_lower file)) eqn:Hunder.
    + rewrite (sum_list_with_ext_in _
                 (λ entry, 2 ^ length (List.filter
                                         (λ other, String.length (path_lower entry)
                                                   <? String.length (path_lower other))
                                         (between folder_path)))).
      2:{ intros entry Hin. by rewrite (between_inner folder_path entry Hin). }
      pose proof (sum_weights (λ entry, String.length (path_lower entry)) _
                    (between folder_path) eq_refl (between_distinct_lengths folder_path)).
      lia.
    + by rewrite (between_nothing folder_path Hunder).
Qed.

Lemma written_from_root_count (fuel : nat) :
  longest_path (namespace tree) < fuel →
  times_written file (written_below name_matches tree query fuel EmptyString)
  = 2 ^ length (matched_folders_above name_matches tree query (path_lower file)).
Proof.
  intros Hfuel. rewrite written_below_count by (cbn; lia).
  by rewrite (SearchProofs.namespace_under_root tree file file_in_tree), between_root.
Qed.
End Count.

(** *** The runs *)

Lemma fmap_flat_map {A B C} (f : B → C) (g : A → list B) (l : list A) :
  f <$> flat_map g l = flat_map (λ x, f <$> g x) l.
Proof. induction l as [|x l IH]; [done|]. cbn. by rewrite fmap_app, IH. Qed.

Lemma for_each_rows {S Req A} (path : string) (rows_for : A → list (list json))
    (body : A → M S Req unit) (items : list A) : ∀ w,
  (∀ item w1, In item items →
     ∃ w2, body item w1 = (Ret (), w2)
           ∧ rows_of path w2 = rows_of path w1 ++ rows_for item) →
  ∃ w', for_each body items w = (Ret (), w')
        ∧ rows_of path w' = rows_of path w ++ flat_map rows_for items.
Proof.
  induction items as [|item rest IH]; intros w Hbody.
  - exists w. cbn. by rewrite app_nil_r.
  - cbn [for_each flat_map]. unfold bind.
    destruct (Hbody item w) as (w1 & -> & Hrows1); [by left|].
    destruct (IH w1) as (w' & Hrun & Hrows).
    { intros item' w2 Hin. apply Hbody. by right. }
    exists w'. split; [exact Hrun|]. by rewrite Hrows, Hrows1, <- app_assoc.
Qed.

Section Runs.
Variables (name_matches : string → string → bool) (tree : list node).
Variables (csv_writer : string) (dbx : client) (search_query : string).

Lemma search_account_writes (fuel : nat) : ∀ folder_path (w : world unit search_call),
  1 ≤ fuel →
  longest_path (namespace tree) < fuel + String.length folder_path →
  ∃ w', SearchAccount.search_files_recursively (search_subtree name_matches tree) fuel
          folder_path csv_writer dbx search_query w = (Ret (), w')
        ∧ rows_of csv_writer w'
          = rows_of csv_writer w
            ++ (row_of <$> written_below name_matches tree search_query fuel folder_path).
Proof.
  induction fuel as [|fuel IH]; intros folder_path w Hfuel Hlong; [lia|].
  cbn [SearchAccount.search_files_recursively written_below].
  unfold bind at 1, files_search, bind at 1, call, search_subtree.
  cbn [call_path call_query]. unfold ret at 1. rewrite fmap_flat_map.
  match goal with
  | |- ∃ w', for_each ?body ?items ?w1 = _ ∧ _ =>
      destruct (for_each_rows csv_writer
                  (λ entry,
                     row_of <$> (if is_FolderMetadata entry
                                 then written_below name_matches tree search_query fuel
                                        (path_lower entry)
                                 else [entry]))
                  body items w1) as (w' & Hrun & Hrows)
  end.
  - intros entry w1 Hin.
    unfold search_matches in Hin. apply filter_In in Hin as [Hin Hmatch].
    apply andb_true_iff in Hmatch as [Hunder _].
    apply SearchEdges.is_under_longer in Hunder.
    pose proof (SearchEdges.path_at_most_longest _ _ Hin) as Hmax.
    destruct (is_FolderMetadata entry).
    + apply IH; lia.
    + eexists. split; [reflexivity|]. unfold rows_of at 1. cbn.
      by rewrite lookup_insert_eq.
  - exists w'. split; [exact Hrun|]. by rewrite Hrows.
Qed.

Lemma search_member_writes (dbmid : string) (fuel : nat) :
  ∀ folder_path (w : world unit search_call),
  1 ≤ fuel →
  longest_path (namespace tree) < fuel + String.length folder_path →
  ∃ w', SearchListIds.search_files_recursively (search_subtree name_matches tree) fuel
          folder_path csv_writer dbx search_query dbmid w = (Ret (), w')
        ∧ rows_of csv_writer w'
          = rows_of csv_writer w
            ++ (member_row_of dbmid
                  <$> written_below name_matches tree search_query fuel folder_path).
Proof.
  induction fuel as [|fuel IH]; intros folder_path w Hfuel Hlong; [lia|].
  cbn [SearchListIds.search_files_recursively written_below].
  unfold bind at 1, files_search, bind at 1, call, search_subtree.
  cbn [call_path call_query]. unfold ret at 1. rewrite fmap_flat_map.
  match goal with
  | |- ∃ w', for_each ?body ?items ?w1 = _ ∧ _ =>
      destruct (for_each_rows csv_writer
                  (λ entry,
                     member_row_of dbmid
                       <$> (if is_FolderMetadata entry
                            then written_below name_matches tree search_query fuel
                                   (path_lower entry)
                            else [entry]))
                  body items w1) as (w' & Hrun & Hrows)
  end.
  - intros entry w1 Hin.
    unfold search_matches in Hin. apply filter_In in Hin as [Hin Hmatch].
    apply andb_true_iff in Hmatch as [Hunder _].
    apply SearchEdges.is_under_longer in Hunder.
    pose proof (SearchEdges.path_at_most_longest _ _ Hin) as Hmax.
    destruct (is_FolderMetadata entry).
    + apply IH; lia.
    + eexists. split; [reflexivity|]. unfold rows_of at 1. cbn.
      by rewrite lookup_insert_eq.
  - exists w'. split; [exact Hrun|]. by rewrite Hrows.
Qed.

(** What is written are matched entries of the tree, and no folders. *)
Lemma written_below_matched (fuel : nat) : ∀ folder_path,
  Forall (λ entry, In entry (namespace tree)
                   ∧ name_matches search_query (name entry) = true
                   ∧ is_FolderMetadata entry = false)
    (written_below name_matches tree search_query fuel folder_path).
Proof.
  induction fuel as [|fuel IH]; intros folder_path; [constructor|].
  cbn [written_below]. apply Forall_forall. intros entry Hin.
  apply list_elem_of_In, in_flat_map in Hin as (found & Hfound & Hin).
  destruct (is_FolderMetadata found) eqn:Hfolder.
  - specialize (IH (path_lower found)). rewrite Forall_forall in IH.
    by apply IH, list_elem_of_In.
  - destruct Hin as [<-|[]]. apply SearchProofs.matched_entry in Hfound as [H1 H2].
    done.
Qed.
End Runs.

(** C7, as the code has it.  The backend searches a folder and all that
    lies below it; the tree is finite, no two of its entries have the same
    path, and the recursion may go deeper than its longest path is long.
    Whatever the query, the search from the root returns, in the
    single-account script and in the multi-account script alike.  Every row
    it has written stands for an entry of the tree that the query matches
    and that is not a folder: no folder is written.  And a file that the
    query matches is written two to the [k] times, [k] being the number of
    folders above the file that the query matches too: once when there is no
    such folder, and more than once when there is one, since the search of
    each such folder finds the file again and nothing is deduplicated. *)
Theorem search_writes_matched_files (name_matches : string → string → bool)
    (tree : list node) (csv_writer : string) (dbx : client)
    (search_query dbmid : string) (fuel : nat) (w : world unit search_call) :
  NoDup (path_lower <$> namespace tree) →
  longest_path (namespace tree) < fuel →
  ∃ written : list metadata,
    (∃ w', SearchAccount.search_files_recursively (search_subtree name_matches tree)
             fuel EmptyString csv_writer dbx search_query w = (Ret (), w')
           ∧ rows_of csv_writer w' = rows_of csv_writer w ++ (row_of <$> written))
    ∧ (∃ w', SearchListIds.search_files_recursively (search_subtree name_matches tree)
               fuel EmptyString csv_writer dbx search_query dbmid w = (Ret (), w')
             ∧ rows_of csv_writer w'
               = rows_of csv_writer w ++ (member_row_of dbmid <$> written))
    ∧ Forall (λ entry, In entry (namespace tree)
                       ∧ name_matches search_query (name entry) = true
                       ∧ is_FolderMetadata entry = false) written
    ∧ (∀ entry,
         In entry (namespace tree) → name_matches search_query (name entry) = true →
         is_FolderMetadata entry = false →
         times_written entry written
         = 2 ^ length (matched_folders_above name_matches tree search_query
                         (path_lower entry))).
Proof.
  intros Hdistinct Hfuel.
  exists (written_below name_matches tree search_query fuel EmptyString).
  split; [apply search_account_writes; cbn; lia|].
  split; [apply search_member_writes; cbn; lia|].
  split; [apply written_below_matched|].
  intros entry Hin Hmatch Hfile. by apply written_from_root_count.
Qed.

Lemma search_writes_matched_files_witness :
  ∃ written : list metadata,
    (∃ w', SearchAccount.search_files_recursively
             (search_subtree name_contains Samples.nested_tree) 20 EmptyString
             Samples.search_csv Samples.dbx "txt" Samples.search_world = (Ret (), w')
           ∧ rows_of Samples.search_csv w'
             = rows_of Samples.search_csv Samples.search_world ++ (row_of <$> written))
    ∧ (∃ w', SearchListIds.search_files_recursively
               (search_subtree name_contains Samples.nested_tree) 20 EmptyString
               Samples.search_csv Samples.dbx "txt" "dbmid:1" Samples.search_world
             = (Ret (), w')
             ∧ rows_of Samples.search_csv w'
               = rows_of Samples.search_csv Samples.search_world
                 ++ (member_row_of "dbmid:1" <$> written))
    ∧ Forall (λ entry, In entry (namespace Samples.nested_tree)
                       ∧ name_contains "txt" (name entry) = true
                       ∧ is_FolderMetadata entry = false) written
    ∧ (∀ entry,
         In entry (namespace Samples.nested_tree) →
         name_contains "txt" (name entry) = true →
         is_FolderMetadata entry = false →
         times_written entry written
         = 2 ^ length (matched_folders_above name_contains Samples.nested_tree "txt"
                         (path_lower entry))).
Proof.
  apply (search_writes_matched_files name_contains Samples.nested_tree
           Samples.search_csv Samples.dbx "txt" "dbmid:1" 20 Samples.search_world).
  - apply (bool_decide_unpack _). vm_compute. exact I.
  - vm_compute. lia.
Defined.

(** The tree [a.txt], [txt/d.txt], [txt/old txt/e.txt] searched for [txt]:
    [a.txt] is written once, [d.txt], below one matched folder, twice, and
    [e.txt], below two, four times. *)
Example search_of_nested_tree :
  rows_of Samples.search_csv
    (snd (SearchAccount.search_files_recursively
            (search_subtree name_contains Samples.nested_tree) 20 EmptyString
            Samples.search_csv Samples.dbx "txt" Samples.search_world))
  = [[JStr "a.txt"; JStr "/a.txt"];
     [JStr "d.txt"; JStr "/txt/d.txt"];
     [JStr "e.txt"; JStr "/txt/old txt/e.txt"];
     [JStr "e.txt"; JStr "/txt/old txt/e.txt"];
     [JStr "d.txt"; JStr "/txt/d.txt"];
     [JStr "e.txt"; JStr "/txt/old txt/e.txt"];
     [JStr "e.txt"; JStr "/txt/old txt/e.txt"]].
Proof. vm_compute. reflexivity. Qed.

End SearchCount.

(** ** Edges of the search scripts *)

Module ExportEdges.
Import Py MonadFacts Sdk.

Section ListIds.
Import SearchListIds.
Context {S : Type} (serve : S → search_call → search_outcome * S).
Variables (home : string) (dict_reader : string → list (gmap string string)).
Implicit Type w : world S search_call.

Lemma dbmid_column_missing (rows : list (gmap string string)) w :
  Exists (λ row, row !! "dbmid" = None) rows →
  dbmid_column (S:=S) rows w = (Raise (KeyError "dbmid"), w).
Proof.
  induction rows as [|row rows IH]; intros Hex; [by apply Exists_nil in Hex|].
  cbn [dbmid_column]. destruct (row !! "dbmid") as [dbmid|] eqn:Hrow; [|done].
  apply Exists_cons in Hex as [Hex|Hex]; [congruence|].
  unfold bind. by rewrite (IH Hex).
Qed.

(** The loop over a list in two parts: the second part runs with the
    client as the first part has left it. *)
Lemma for_dbmids_app fuel (before : list string) : ∀ after dbx search_query w,
  for_dbmids serve home fuel (before ++ after) dbx search_query w
  = bind (for_dbmids serve home fuel before dbx search_query)
         (λ _, for_dbmids serve home fuel after
                 (foldl (λ client dbmid, set_header client "Dropbox-API-Select-User" dbmid)
                        dbx before) search_query) w.
Proof.
  induction before as [|dbmid before IH]; intros after dbx search_query w; [done|].
  cbn [for_dbmids app foldl]. unfold bind at 1 2 3.
  destruct (search_files_recursively serve fuel EmptyString (csv_path home) _
              search_query dbmid w) as [[[]|e|code|] w1]; [apply IH|done|done|done].
Qed.
End ListIds.

(** The multi-account script does not catch a failure of the file of member
    ids: when the file does not exist the export raises FileNotFoundError,
    and when a row has no [dbmid] column it raises KeyError, in both cases
    before the output file is opened, so that the world is as it was. *)
Theorem ids_file_errors_are_not_caught {S} (serve : S → search_call → search_outcome * S)
    (home : string) (dict_reader : string → list (gmap string string)) (sdk : library)
    (fuel : nat) (token dbmid_file search_query : string) (w : world S search_call)
    (e : exn) :
  (files w !! dbmid_file = None ∧ e = FileNotFoundError dbmid_file)
  ∨ (∃ file_text, files w !! dbmid_file = Some file_text
       ∧ Exists (λ row, row !! "dbmid" = None) (dict_reader file_text)
       ∧ e = KeyError "dbmid") →
  SearchListIds.export_files_to_csv serve home dict_reader sdk fuel token dbmid_file
    search_query w = (Raise e, w).
Proof.
  intros [[Hfile ->]|(file_text & Hfile & Hrow & ->)];
    unfold SearchListIds.export_files_to_csv; unfold bind at 1, read_file; rewrite Hfile.
  - done.
  - unfold bind. by rewrite dbmid_column_missing.
Qed.

Lemma ids_file_errors_are_not_caught_witness :
  SearchListIds.export_files_to_csv
    (Namespace.search_team Namespace.name_contains Samples.team) "/home/ada"
    Samples.ids_reader Samples.sdk 4 "sl.t0ken" "members.csv" "txt" Samples.team_world
  = (Raise (FileNotFoundError "members.csv"), Samples.team_world).
Proof.
  apply (ids_file_errors_are_not_caught
           (Namespace.search_team Namespace.name_contains Samples.team) "/home/ada"
           Samples.ids_reader Samples.sdk 4 "sl.t0ken" "members.csv" "txt"
           Samples.team_world).
  left. split; reflexivity.
Defined.

(** No recovery from a failing account: when the searches of the member ids
    before [bad] return and the search of [bad] raises, the loop raises that
    error there, and the member ids after [bad] are never searched. *)
Theorem member_loop_stops_at_failure {S} (serve : S → search_call → search_outcome * S)
    (home : string) (fuel : nat) (before after : list string) (bad : string)
    (dbx : client) (search_query : string) (w w1 w2 : world S search_call) (e : exn) :
  SearchListIds.for_dbmids serve home fuel before dbx search_query w = (Ret (), w1) →
  SearchListIds.search_files_recursively serve fuel EmptyString
    (SearchListIds.csv_path home)
    (set_header
       (foldl (λ client dbmid, set_header client "Dropbox-API-Select-User" dbmid)
              dbx before)
       "Dropbox-API-Select-User" bad)
    search_query bad w1 = (Raise e, w2) →
  SearchListIds.for_dbmids serve home fuel (before ++ bad :: after) dbx search_query w
  = (Raise e, w2).
Proof.
  intros Hbefore Hbad. rewrite for_dbmids_app.
  rewrite (bind_returns _ _ _ _ _ Hbefore).
  cbn [SearchListIds.for_dbmids]. by apply bind_raises.
Qed.

Lemma member_loop_stops_at_failure_witness :
  SearchListIds.for_dbmids (Namespace.search_team Namespace.name_contains Samples.team)
    "/home/ada" 4 (["dbmid:1"] ++ "dbmid:9" :: ["dbmid:2"]) Samples.new_dbx "txt"
    Samples.team_world
  = (Raise (ApiError "invalid_select_user"),
     snd (SearchListIds.for_dbmids
            (Namespace.search_team Namespace.name_contains Samples.team)
            "/home/ada" 4 ["dbmid:1"; "dbmid:9"] Samples.new_dbx "txt"
            Samples.team_world)).
Proof.
  apply (member_loop_stops_at_failure
           (Namespace.search_team Namespace.name_contains Samples.team)
           "/home/ada" 4 ["dbmid:1"] ["dbmid:2"] "dbmid:9" Samples.new_dbx "txt"
           Samples.team_world
           (snd (SearchListIds.for_dbmids
                   (Namespace.search_team Namespace.name_contains Samples.team)
                   "/home/ada" 4 ["dbmid:1"] Samples.new_dbx "txt"
                   Samples.team_world))).
  - vm_compute; reflexivity.
  - vm_compute; reflexivity.
Defined.

(** The single-account export starts its file anew.  Once the client is
    built, which takes a token that is not empty, the output file is opened
    for writing (which the model takes to succeed): whatever the file held
    and however the search ends, the file then begins with the header row
    [File Name], [Path], every row after it has two fields, and every call
    was made with the token and with the user selected in the header. *)
Theorem single_account_file_starts_with_header {S}
    (serve : S → search_call → search_outcome * S) (home : string) (sdk : library)
    (fuel : nat) (token selected_user search_query : string) (w : world S search_call) :
  token ≠ EmptyString →
  ∃ result w' rows calls,
    SearchAccount.export_files_to_csv serve home sdk fuel token selected_user
      search_query w = (result, w')
    ∧ csv_files w' !! SearchAccount.csv_path home
      = Some ([JStr "File Name"; JStr "Path"] :: rows)
    ∧ Forall (λ row, length row = 2) rows
    ∧ sent w' = sent w ++ calls
    ∧ Forall (λ c, call_token c = token ∧ made_for selected_user c) calls.
Proof.
  intros Htoken. unfold SearchAccount.export_files_to_csv.
  unfold bind at 1, Dropbox. destruct token as [|t token]; [done|]. unfold ret at 1.
  unfold bind at 1, csv_open. unfold bind at 1, csv_writerow.
  remember (set_header (Client (String t token) (default_headers sdk))
              "Dropbox-API-Select-User" selected_user) as dbx eqn:Edbx.
  remember (with_csv _ (with_csv _ w)) as w1 eqn:Ew1.
  assert (rows_of (SearchAccount.csv_path home) w1 = [[JStr "File Name"; JStr "Path"]])
    as Hw1.
  { subst w1. unfold rows_of. cbn. by rewrite !lookup_insert_eq. }
  assert (sent w1 = sent w) as Hsent1 by (by subst w1).
  destruct (SearchProofs.search_account_appends serve (SearchAccount.csv_path home) dbx
              search_query (λ _, True)) with (fuel := fuel) (folder_path := EmptyString)
                                             (w := w1)
    as (rows & calls & Hrows & Hcalls & HR & HC).
  { intros s c matches s' _ _. by apply Forall_forall. }
  assert (Forall (λ row : list json, length row = 2) rows) as Hlen.
  { eapply Forall_impl; [exact HR|]. by intros row (entry & _ & _ & ->). }
  assert (Forall (λ c, call_token c = String t token ∧ made_for selected_user c) calls)
    as Hmade.
  { eapply Forall_impl; [exact HC|]. intros c [Hby Hheaders]. split.
    - rewrite Hby. by subst dbx.
    - unfold made_for. rewrite Hheaders. subst dbx. cbn. apply lookup_insert_eq. }
  rewrite Hw1 in Hrows. rewrite Hsent1 in Hcalls. unfold bind.
  destruct (SearchAccount.search_files_recursively serve fuel EmptyString
              (SearchAccount.csv_path home) dbx search_query w1) as [r w2].
  cbn in Hrows, Hcalls.
  assert (csv_files w2 !! SearchAccount.csv_path home
          = Some ([JStr "File Name"; JStr "Path"] :: rows)) as Hfile.
  { unfold rows_of in Hrows.
    destruct (csv_files w2 !! SearchAccount.csv_path home) as [old|];
      cbn in Hrows; [by subst|done]. }
  destruct r as [[]|e|code|]; eexists _, _, rows, calls; (split; [reflexivity|]); by cbn.
Qed.

Lemma single_account_file_starts_with_header_witness :
  ∃ result w' rows calls,
    SearchAccount.export_files_to_csv
      (Namespace.search_subtree Namespace.name_contains Samples.txt_tree) "/home/ada"
      Samples.sdk 4 "sl.t0ken" "dbmid:1" "txt" Samples.stale_world = (result, w')
    ∧ csv_files w' !! SearchAccount.csv_path "/home/ada"
      = Some ([JStr "File Name"; JStr "Path"] :: rows)
    ∧ Forall (λ row, length row = 2) rows
    ∧ sent w' = sent Samples.stale_world ++ calls
    ∧ Forall (λ c, call_token c = "sl.t0ken" ∧ made_for "dbmid:1" c) calls.
Proof.
  apply (single_account_file_starts_with_header
           (Namespace.search_subtree Namespace.name_contains Samples.txt_tree) "/home/ada"
           Samples.sdk 4 "sl.t0ken" "dbmid:1" "txt" Samples.stale_world).
  discriminate.
Defined.

(** An empty token, as a token file that holds white space only gives, is
    rejected by the constructor of the client, which both search scripts
    call before they open the output file: the export raises the error of
    the SDK and leaves the world as it was, the output file of an earlier
    run included.  (In the multi-account script the file of member ids is
    read first.) *)
Theorem empty_token_opens_no_file {S} (serve : S → search_call → search_outcome * S)
    (home : string) (dict_reader : string → list (gmap string string)) (sdk : library)
    (fuel : nat) (selected_user dbmid_file search_query file_text : string)
    (w : world S search_call) :
  files w !! dbmid_file = Some file_text →
  Forall (λ row, is_Some (row !! "dbmid")) (dict_reader file_text) →
  SearchAccount.export_files_to_csv serve home sdk fuel EmptyString selected_user
    search_query w = (Raise (bad_input sdk), w)
  ∧ SearchListIds.export_files_to_csv serve home dict_reader sdk fuel EmptyString
      dbmid_file search_query w = (Raise (bad_input sdk), w).
Proof.
  intros Hfile Hrows. split; [done|].
  unfold SearchListIds.export_files_to_csv. unfold bind at 1, read_file. rewrite Hfile.
  assert (∀ rows, Forall (λ row : gmap string string, is_Some (row !! "dbmid")) rows →
            ∃ dbmids, SearchListIds.dbmid_column (S:=S) rows w = (Ret dbmids, w))
    as Hcolumn.
  { induction rows as [|row rows IH]; intros Hall; [by eexists|].
    apply Forall_cons in Hall as [[dbmid Hrow] Hall]. destruct (IH Hall) as (dbmids & Hrun).
    cbn [SearchListIds.dbmid_column]. rewrite Hrow. unfold bind. rewrite Hrun.
    by eexists. }
  destruct (Hcolumn _ Hrows) as (dbmids & Hrun). unfold bind at 1. by rewrite Hrun.
Qed.

Lemma empty_token_opens_no_file_witness :
  SearchAccount.export_files_to_csv
    (Namespace.search_team Namespace.name_contains Samples.team) "/home/ada" Samples.sdk
    4 EmptyString "dbmid:1" "txt" Samples.stale_team_world
  = (Raise (bad_input Samples.sdk), Samples.stale_team_world)
  ∧ SearchListIds.export_files_to_csv
      (Namespace.search_team Namespace.name_contains Samples.team) "/home/ada"
      Samples.ids_reader Samples.sdk 4 EmptyString "ids.csv" "txt" Samples.stale_team_world
    = (Raise (bad_input Samples.sdk), Samples.stale_team_world).
Proof.
  apply (empty_token_opens_no_file
           (Namespace.search_team Namespace.name_contains Samples.team) "/home/ada"
           Samples.ids_reader Samples.sdk 4 "dbmid:1" "ids.csv" "txt"
           "dbmid,dbmid:1,dbmid:2" Samples.stale_team_world).
  - reflexivity.
  - repeat constructor; by eexists.
Defined.

Section TokenWitnesses.
Import TokenProofs.

Lemma search_account_missing_token_witness :
  SearchAccount.script Samples.loop_backend "/home/ada" Samples.sdk 3
    Samples.typed_only_world
  = (Exit 1, printed ("Error: The file " +:+ "/home/ada/token.txt" +:+ " was not found.")
               (typed ["dbmid:1"; "txt"]
                  (printed "Enter the path to the Dropbox token file: "
                     Samples.typed_only_world))).
Proof.
  apply (search_account_missing_token Samples.loop_backend "/home/ada" Samples.sdk 3
           Samples.typed_only_world "/home/ada/token.txt" ["dbmid:1"; "txt"]);
    reflexivity.
Defined.

Lemma search_list_ids_missing_token_witness :
  SearchListIds.script Samples.loop_backend "/home/ada" Samples.ids_reader Samples.sdk 3
    Samples.typed_only_world
  = (Exit 1, printed ("Error: The file " +:+ "/home/ada/token.txt" +:+ " was not found.")
               (typed ["dbmid:1"; "txt"]
                  (printed "Enter the path to the Dropbox token file: "
                     Samples.typed_only_world))).
Proof.
  apply (search_list_ids_missing_token Samples.loop_backend "/home/ada"
           Samples.ids_reader Samples.sdk 3 Samples.typed_only_world "/home/ada/token.txt"
           ["dbmid:1"; "txt"]);
    reflexivity.
Defined.

Lemma user_file_export_missing_token_witness :
  UserFileExport.script (Mock.scripted Samples.exhausted) "/home/ada" 3
    Samples.no_token_export_world
  = (Exit 1, printed ("Error: The file " +:+ "/home/ada/token.txt" +:+ " was not found.")
               (typed ["/docs"]
                  (printed "Enter the path to the Dropbox token file: "
                     (printed "Enter the Dropbox user: " Samples.no_token_export_world)))).
Proof.
  apply (user_file_export_missing_token (Mock.scripted Samples.exhausted) "/home/ada" 3
           Samples.no_token_export_world "dbmid:1" "/home/ada/token.txt" ["/docs"]);
    reflexivity.
Defined.
End TokenWitnesses.

End ExportEdges.

(** ** What every request carries *)

Module RequestFacts.
Import Py MonadFacts.

Section Listing.
Import UserFileExport.
Context {S : Type} (post : S → request → outcome listing * S).
Variable headers : gmap string string.
Variables (first_url : string) (first_payload : json).

(** A request of the fetch: the first one, or one to the continuation
    endpoint with a cursor and nothing else; always with the headers of the
    script and a timeout of ten seconds. *)
Let of_fetch (rq : request) : Prop :=
  Py.headers rq = headers ∧ timeout rq = Some 10%Z
  ∧ ((Py.url rq = first_url ∧ data rq = first_payload)
     ∨ (Py.url rq = continue_url ∧ ∃ c, data rq = JDict {[ "cursor" := JStr c ]})).

Let untouched (row : list json) : Prop := True.

Lemma make_request_appends url payload (w : world S request) :
  of_fetch (Request url headers payload (Some 10%Z)) →
  appends untouched of_fetch EmptyString w (make_request post url headers payload 3 10 w).
Proof.
  intros Hrq. unfold make_request.
  destruct (RetryBounds.attempts_bounded post url headers payload 3 10 (Z.to_nat 3) 0 w)
    as (n & _ & _ & Hsent & _ & (_ & _ & _ & Hcsv)); [by right|].
  exists [], (replicate n (Request url headers payload (Some 10%Z))).
  rewrite app_nil_r. split; [by unfold rows_of; rewrite Hcsv|]. split; [exact Hsent|].
  split; [done|]. by apply Forall_replicate.
Qed.

Lemma decode_appends response (w : world S request) :
  appends untouched of_fetch EmptyString w (decode response w).
Proof.
  exists [], []. rewrite !app_nil_r. unfold decode, try_except, response_json.
  destruct response as [r|]; [destruct (json_body r)|]; by cbn.
Qed.

Lemma pagination_loop_appends fuel : ∀ data entries (w : world S request),
  appends untouched of_fetch EmptyString w
    (pagination_loop post fuel headers data entries w).
Proof.
  induction fuel as [|fuel IH]; intros data entries w; cbn [pagination_loop];
    destruct (default false (has_more data)); try apply SearchProofs.appends_nothing.
  apply SearchProofs.appends_bind.
  - destruct (cursor data); apply SearchProofs.appends_nothing.
  - intros c w1 _. apply SearchProofs.appends_bind.
    + apply make_request_appends. repeat split. right. split; [done|by exists c].
    + intros response w2 _. apply SearchProofs.appends_bind; [apply decode_appends|].
      intros data' w3 _. apply IH.
Qed.
End Listing.

(** Every request that the fetch of the export script sends, retries
    included, carries the bearer token and the selected user in its headers
    and a timeout of ten seconds; it is either the listing request for the
    folder or a request to the continuation endpoint with a cursor as its
    only field. *)
Theorem export_requests_carry_token {S}
    (post : S → request → outcome UserFileExport.listing * S)
    (fuel : nat) (user token_info folder : string) (w : world S request) :
  ∃ calls,
    sent (snd (UserFileExport.fetch_entries post fuel
                 (UserFileExport.headers user token_info) (UserFileExport.payload folder) w))
    = sent w ++ calls
    ∧ Forall (λ rq,
                Py.headers rq !! "Authorization" = Some ("Bearer " +:+ token_info)
                ∧ Py.headers rq !! "Dropbox-API-Select-User" = Some user
                ∧ timeout rq = Some 10%Z
                ∧ ((Py.url rq = UserFileExport.url
                    ∧ data rq = UserFileExport.payload folder)
                   ∨ (Py.url rq = UserFileExport.continue_url
                      ∧ ∃ c, data rq = JDict {[ "cursor" := JStr c ]}))) calls.
Proof.
  assert (appends (λ _, True)
            (λ rq, Py.headers rq = UserFileExport.headers user token_info
                   ∧ timeout rq = Some 10%Z
                   ∧ ((Py.url rq = UserFileExport.url
                       ∧ data rq = UserFileExport.payload folder)
                      ∨ (Py.url rq = UserFileExport.continue_url
                         ∧ ∃ c, data rq = JDict {[ "cursor" := JStr c ]})))
            EmptyString w
            (UserFileExport.fetch_entries post fuel
               (UserFileExport.headers user token_info) (UserFileExport.payload folder) w))
    as (rows & calls & _ & Hsent & _ & Hcalls).
  { unfold UserFileExport.fetch_entries. apply SearchProofs.appends_bind.
    - apply make_request_appends. repeat split. by left.
    - intros response w1 _. apply SearchProofs.appends_bind; [apply decode_appends|].
      intros data w2 _. apply pagination_loop_appends. }
  exists calls. split; [exact Hsent|].
  eapply Forall_impl; [exact Hcalls|]. intros rq (Hheaders & Htimeout & Hkind).
  rewrite Hheaders. repeat split; try done.
Qed.

Section Members.
Import MembersList.
Context {S : Type} (post : S → request → outcome members_page * S).
Variables (token : string) (include_removed : bool).

Let of_loop (rq : request) : Prop :=
  Py.url rq = url ∧ Py.headers rq = headers token ∧ timeout rq = None
  ∧ ∃ cursor, data rq = request_data include_removed cursor.

Lemma get_members_appends cursor (w : world S request) :
  appends (λ _, True) of_loop EmptyString w
    (get_members post token include_removed cursor w).
Proof.
  unfold get_members. apply SearchProofs.appends_bind.
  - apply SearchProofs.appends_call. repeat split. by exists cursor.
  - intros out w1 _. apply SearchProofs.appends_bind.
    + destruct out; apply SearchProofs.appends_nothing.
    + intros r w2 _. destruct (bool_decide (status_code r ≠ 200%Z));
        [apply SearchProofs.appends_nothing|].
      apply SearchProofs.appends_bind.
      * unfold response_json. destruct (json_body r); apply SearchProofs.appends_nothing.
      * intros result w3 _. apply SearchProofs.appends_nothing.
Qed.

Lemma fetch_loop_appends fuel : ∀ all_members cursor has_more (w : world S request),
  appends (λ _, True) of_loop EmptyString w
    (fetch_loop post fuel token include_removed all_members cursor has_more w).
Proof.
  induction fuel as [|fuel IH]; intros all_members cursor [|] w; cbn [fetch_loop];
    try apply SearchProofs.appends_nothing.
  apply SearchProofs.appends_bind; [apply get_members_appends|].
  intros [[members cursor'] has_more'] w1 _. apply IH.
Qed.
End Members.

(** Every request of a run of the members script goes to the members
    endpoint with the token of the file, trimmed, as bearer token, asks for
    up to 1000 members, says to include removed accounts exactly when the
    answer typed is [yes] (spaces and letter case apart), and is sent
    without a timeout. *)
Theorem members_requests_carry_token_and_flag {S}
    (post : S → request → outcome MembersList.members_page * S) (fuel : nat)
    (w : world S request) (path answer token_text : string) (rest : list string) :
  stdin w = path :: answer :: rest →
  files w !! path = Some token_text →
  ∃ calls,
    sent (snd (MembersList.main post fuel w)) = sent w ++ calls
    ∧ Forall (λ rq,
                Py.url rq = MembersList.url
                ∧ Py.headers rq !! "Authorization" = Some ("Bearer " +:+ strip token_text)
                ∧ timeout rq = None
                ∧ ∃ body,
                    data rq = JDict body
                    ∧ body !! "limit" = Some (JNum 1000)
                    ∧ body !! "include_removed"
                      = Some (JBool (bool_decide (lower (strip answer) = "yes")))) calls.
Proof.
  intros Hin Hfile.
  rewrite (MembersEdges.main_reads_inputs post fuel w path answer rest token_text Hin Hfile).
  destruct (fetch_loop_appends post (strip token_text)
              (bool_decide (lower (strip answer) = "yes")) fuel [] None true
              (typed rest
                 (printed "Include removed accounts? (yes/no): "
                    (printed "Please enter the path to the Dropbox token file: " w))))
    as (rows & calls & _ & Hsent & _ & Hcalls).
  exists calls. split.
  - unfold bind. unfold MembersList.fetch_all_members.
    destruct (MembersList.fetch_loop post fuel _ _ [] None true _)
      as [[all_members|e|code|] w1]; cbn in Hsent |- *; try exact Hsent.
    assert (∀ members filename (w2 : world S request),
              sent (snd (MembersList.write_members filename members w2)) = sent w2)
      as Hwrite.
    { induction members as [|member members IH]; intros filename w2; [done|].
      cbn [MembersList.write_members].
      destruct (MembersList.member_row member); try done.
      unfold bind, csv_writerow. by rewrite IH. }
    match goal with
    | |- context [MembersList.write_members ?f ?ms ?w2] =>
        specialize (Hwrite ms f w2);
        destruct (MembersList.write_members f ms w2) as [[[]|e|code|] w3]
    end; cbn in Hwrite |- *; by rewrite Hwrite.
  - eapply Forall_impl; [exact Hcalls|].
    intros rq (Hurl & Hheaders & Htimeout & cursor & Hdata).
    split; [exact Hurl|]. split; [by rewrite Hheaders|]. split; [exact Htimeout|].
    rewrite Hdata. unfold MembersList.request_data.
    destruct cursor as [[|c cs]|]; eexists; (split; [reflexivity|]); by split.
Qed.

Lemma members_requests_carry_token_and_flag_witness :
  ∃ calls,
    sent (snd (MembersList.main (Mock.scripted Samples.exhausted) 2 Samples.padded_world))
    = sent Samples.padded_world ++ calls
    ∧ Forall (λ rq,
                Py.url rq = MembersList.url
                ∧ Py.headers rq !! "Authorization"
                  = Some ("Bearer " +:+ strip Samples.padded_token)
                ∧ timeout rq = None
                ∧ ∃ body,
                    data rq = JDict body
                    ∧ body !! "limit" = Some (JNum 1000)
                    ∧ body !! "include_removed"
                      = Some (JBool (bool_decide
                                       (lower (strip Samples.padded_answer) = "yes"))))
        calls.
Proof.
  apply (members_requests_carry_token_and_flag (Mock.scripted Samples.exhausted) 2
           Samples.padded_world "/home/ada/token.txt" Samples.padded_answer
           Samples.padded_token []);
    reflexivity.
Defined.

(** White space outside ASCII is removed as well: the answer [Yes] between
    no-break spaces counts as yes, and the next-line character after the
    token is no part of the bearer token. *)
Example padded_inputs_are_trimmed :
  bool_decide (lower (strip Samples.padded_answer) = "yes") = true
  ∧ strip Samples.padded_token = "sl.t0ken"
  ∧ sent (snd (MembersList.main (Mock.scripted Samples.exhausted) 2 Samples.padded_world))
    = [Request MembersList.url (MembersList.headers "sl.t0ken")
         (MembersList.request_data true None) None;
       Request MembersList.url (MembersList.headers "sl.t0ken")
         (MembersList.request_data true (Some "m1")) None].
Proof. repeat split; vm_compute; reflexivity. Qed.

End RequestFacts.
